(** * swugenerator: the package-assembly pipeline

    A shallow embedding of [swugenerator/artifact.py] and
    [swugenerator/generator.py], and the properties of the directive
    expander and of the artifact pipeline.

    Conventions of the embedding.
    - Python [str] is [string]; the template is taken to be ASCII text, so
      the regular-expression class [\w] is [[A-Za-z0-9_]] and [.] is every
      character but the line feed.
    - Values of the parsed manifest (libconf) are the type [value]; libconf
      floats are left out.
    - A Python attribute that may be missing on an object ([fullfilename],
      [ivt] of [Artifact]) is an [option]: [None] is "never assigned", and
      reading it raises [AttributeError].
    - [sys.exit n] and an uncaught exception end a run; they are the
      results [Exit n] and [Raise e] of the monad [M], which always returns
      the state reached (file system, log and trace of external calls).
    - Whatever lives outside the two source files (the digest, the external
      tools, the random source, the evaluator behind [eval], libconf, the
      signer and the container writer) is a field of [Platform]. *)

From Stdlib Require Import String Ascii List ZArith Bool Lia DecimalString.
Import ListNotations.

Set Warnings "-register-all".

Open Scope list_scope.
Open Scope string_scope.

(** ** Strings *)

Definition LF : ascii := "010"%char.
Definition CR : ascii := "013"%char.
Definition nl : string := String LF "".

(** [.] of Python's [re] without DOTALL. *)
Definition is_dot (c : ascii) : bool := negb (Ascii.eqb c LF).

(** [\w] on ASCII text. *)
Definition is_word (c : ascii) : bool :=
  let n := nat_of_ascii c in
  (((48 <=? n) && (n <=? 57)) || ((65 <=? n) && (n <=? 90))
   || ((97 <=? n) && (n <=? 122)) || (n =? 95))%nat.

Fixpoint str_forall (p : ascii -> bool) (s : string) : bool :=
  match s with
  | EmptyString => true
  | String c s' => p c && str_forall p s'
  end.

Fixpoint strip_prefix (p s : string) : option string :=
  match p, s with
  | EmptyString, _ => Some s
  | String a p', String b s' => if Ascii.eqb a b then strip_prefix p' s' else None
  | String _ _, EmptyString => None
  end.

Definition starts_with (p s : string) : bool :=
  match strip_prefix p s with Some _ => true | None => false end.

Fixpoint ends_with (p s : string) : bool :=
  String.eqb p s ||
  match s with
  | EmptyString => false
  | String _ s' => ends_with p s'
  end.

Fixpoint str_rev (s : string) : string :=
  match s with
  | EmptyString => EmptyString
  | String c s' => str_rev s' ++ String c ""
  end.

(** How many times a character occurs. *)
Fixpoint count_char (x : ascii) (s : string) : nat :=
  match s with
  | EmptyString => O
  | String c s' => (if Ascii.eqb c x then 1 else 0) + count_char x s'
  end.

Fixpoint str_join (sep : string) (l : list string) : string :=
  match l with
  | [] => ""
  | [x] => x
  | x :: rest => x ++ sep ++ str_join sep rest
  end.

(** [s.split(sep)] for a separator of one character; [cur] is the piece
    that is being read. *)
Fixpoint split_on (sep : ascii) (cur s : string) : list string :=
  match s with
  | EmptyString => [cur]
  | String c rest =>
      if Ascii.eqb c sep then cur :: split_on sep "" rest
      else split_on sep (cur ++ String c "") rest
  end.

Fixpoint str_concat (l : list string) : string :=
  match l with
  | [] => ""
  | x :: rest => x ++ str_concat rest
  end.

(** [re.sub] of a two-character literal pattern [a b] by one character. *)
Fixpoint replace2 (a b r : ascii) (s : string) : string :=
  match s with
  | String c ((String d s'') as s') =>
      if Ascii.eqb c a && Ascii.eqb d b then String r (replace2 a b r s'')
      else String c (replace2 a b r s')
  | _ => s
  end.

(** ** The two patterns of the directive expander

    Python's [re] is a backtracking matcher: a greedy [X+] first takes as
    many characters as it can and gives them back one at a time until the
    rest of the pattern matches.  [plus_greedy cls acc s k] is [cls+]
    followed by the continuation [k]: it tries the longer repetition
    first. *)

Fixpoint plus_greedy {R : Type} (cls : ascii -> bool) (acc s : string)
    (k : string -> string -> option R) : option R :=
  match s with
  | EmptyString => None
  | String c s' =>
      if cls c then
        let acc' := acc ++ String c "" in
        match plus_greedy cls acc' s' k with
        | Some r => Some r
        | None => k acc' s'
        end
      else None
  end.

Definition lit {R : Type} (p s : string) (k : string -> option R) : option R :=
  match strip_prefix p s with
  | Some rest => k rest
  | None => None
  end.

(** [$] without MULTILINE: the end of the string, or just before a line
    feed that ends the string. *)
Definition at_end (s : string) : bool := String.eqb s "" || String.eqb s nl.

(** Groups of a successful match. *)
Record var_match := VarMatch
  { vm_before : string; vm_name : string; vm_after : string }.

Record fun_match := FunMatch
  { fm_before : string; fm_name : string; fm_parms : string; fm_after : string }.

(** [re.match(r"^(?P<before_placeholder>.+)@@(?P<variable_name>\w+)@@(?P<after_placeholder>.+)$", line)] *)
Definition match_variable (line : string) : option var_match :=
  plus_greedy is_dot "" line (fun before r1 =>
  lit "@@" r1 (fun r2 =>
  plus_greedy is_word "" r2 (fun name r3 =>
  lit "@@" r3 (fun r4 =>
  plus_greedy is_dot "" r4 (fun after r5 =>
  if at_end r5 then Some (VarMatch before name after) else None))))).

(** [re.match(r"^(?P<before_placeholder>.+)\$(?P<function_name>\w+)\((?P<parms>.+)\)(?P<after_placeholder>.+)$", line)] *)
Definition match_function (line : string) : option fun_match :=
  plus_greedy is_dot "" line (fun before r1 =>
  lit "$" r1 (fun r2 =>
  plus_greedy is_word "" r2 (fun name r3 =>
  lit "(" r3 (fun r4 =>
  plus_greedy is_dot "" r4 (fun parms r5 =>
  lit ")" r5 (fun r6 =>
  plus_greedy is_dot "" r6 (fun after r7 =>
  if at_end r7 then Some (FunMatch before name parms after) else None))))))).

(** ** Values of the manifest *)

(** What [libconf.loads] builds: groups are [AttrDict] (insertion ordered),
    lists [( ... )] are tuples, arrays [[ ... ]] are Python lists. *)
Inductive value : Type :=
| VNone
| VBool (b : bool)
| VInt (z : Z)
| VStr (s : string)
| VDict (d : list (string * value))
| VTuple (l : list value)
| VList (l : list value).

Definition dict : Type := list (string * value).

Fixpoint dict_get (k : string) (d : dict) : option value :=
  match d with
  | [] => None
  | (k', v) :: rest => if String.eqb k k' then Some v else dict_get k rest
  end.

(** [k in d] *)
Definition dict_has (k : string) (d : dict) : bool :=
  match dict_get k d with Some _ => true | None => false end.

(** [d[k] = v]: an existing key keeps its place, a new key goes last. *)
Fixpoint dict_set (k : string) (v : value) (d : dict) : dict :=
  match d with
  | [] => [(k, v)]
  | (k', v') :: rest =>
      if String.eqb k k' then (k', v) :: rest else (k', v') :: dict_set k v rest
  end.

(** Python truth value. *)
Definition truthy (v : value) : bool :=
  match v with
  | VNone => false
  | VBool b => b
  | VInt z => negb (Z.eqb z 0)
  | VStr s => negb (String.eqb s "")
  | VDict d => match d with [] => false | _ => true end
  | VTuple l => match l with [] => false | _ => true end
  | VList l => match l with [] => false | _ => true end
  end.

(** [s == v] for a [str] [s]: only an equal [str] is equal. *)
Definition str_eq_value (s : string) (v : value) : bool :=
  match v with
  | VStr t => String.eqb s t
  | _ => false
  end.

(** A [str] or [None] held in a Python variable. *)
Definition opt_value (o : option string) : value :=
  match o with Some s => VStr s | None => VNone end.

(** ** Results, exceptions, events *)

Inductive exn : Type :=
| AttributeError (obj attr : string)
| KeyError (key : string)
| TypeError (what : string)
| FileNotFoundError (path : string)
| IsADirectoryError (path : string)
| OtherError (what : string).

(** How a call ends: it returns, the process exits ([sys.exit]), an
    exception is raised and nobody catches it, or the loop bound of the
    model is used up. *)
Inductive res (A : Type) : Type :=
| Ok (a : A)
| Exit (code : Z)
| Raise (e : exn)
| OutOfFuel.

Arguments Ok {A} a.
Arguments Exit {A} code.
Arguments Raise {A} e.
Arguments OutOfFuel {A}.

Inductive level : Type := DEBUG | INFO | CRITICAL.

Inductive event : Type :=
| Log (lv : level) (fmt : string) (args : list value)
| Run (argv : list string)            (* subprocess.run(argv, check=True) *)
| Shell (cmd : string)                (* subprocess.run(cmd, shell=True, check=True) *)
| Eval (expr : string)                (* eval(expr) *)
| Sign (src dst : string)             (* signtool.prepare_cmd; signtool.sign *)
| AddToSwu (path : string).           (* cpiofile.addartifacttoswu(path) *)

(** ** Files *)

Inductive node : Type :=
| File (content : string)
| Dir (st_size : Z).

Definition FS : Type := string -> option node.

Definition fs_exists (fs : FS) (p : string) : bool :=
  match fs p with Some _ => true | None => false end.

Definition fs_write (p content : string) (fs : FS) : FS :=
  fun q => if String.eqb q p then Some (File content) else fs q.

(** [posixpath.join a b] *)
Definition path_join (a b : string) : string :=
  if starts_with "/" b then b
  else if String.eqb a "" || ends_with "/" a then a ++ b
  else a ++ "/" ++ b.

(** [str(PurePosixPath(s))]: the root is kept ([//] when the text starts
    with exactly two slashes), empty components and [.] are dropped, and a
    path of which nothing is left is [.]. *)
Definition path_root (s : string) : string :=
  if starts_with "//" s && negb (starts_with "///" s) then "//"
  else if starts_with "/" s then "/"
  else "".

Definition path_parts (s : string) : list string :=
  filter (fun c => negb (String.eqb c "" || String.eqb c "."))
         (split_on "/" "" s).

Definition pure_path (s : string) : string :=
  match path_root s, path_parts s with
  | EmptyString, [] => "."
  | root, parts => root ++ str_join "/" parts
  end.

(** [str(Path(a) / b)]: pathlib joins as [posixpath.join] does and
    keeps the path in its normal form. *)
Definition pathlib_join (a b : string) : string := pure_path (path_join a b).

(** ** Artifact *)

(** The attributes [__init__] assigns are plain fields; [fullfilename] and
    [ivt] are only ever assigned by the generator, so they may be missing. *)
Record Artifact : Type := mkArtifact
  { filename : string;
    source_path : option string;
    archived_filename : string;
    size : Z;
    fullfilename : option string;
    ivt : option value }.

Definition set_archived_filename (a : Artifact) (n : string) : Artifact :=
  mkArtifact (filename a) (source_path a) n (size a) (fullfilename a) (ivt a).

Definition set_fullfilename (a : Artifact) (p : string) : Artifact :=
  mkArtifact (filename a) (source_path a) (archived_filename a) (size a) (Some p) (ivt a).

Definition set_ivt (a : Artifact) (v : value) : Artifact :=
  mkArtifact (filename a) (source_path a) (archived_filename a) (size a)
    (fullfilename a) (Some v).

(** [Artifact._get_artifact_source_path]: the first directory of the list
    that holds the name. [artifact_dir / self.filename] is the join of
    pathlib. *)
Fixpoint _get_artifact_source_path (fs : FS) (fname : string)
    (artifact_paths : list string) : option string :=
  match artifact_paths with
  | [] => None
  | artifact_dir :: rest =>
      let tmp_path := pathlib_join artifact_dir fname in
      if fs_exists fs tmp_path then Some tmp_path
      else _get_artifact_source_path fs fname rest
  end.

(** [Artifact.__init__] *)
Definition Artifact_init (fs : FS) (fname : string) (artifact_paths : list string)
  : Artifact :=
  {| filename := fname;
     source_path := _get_artifact_source_path fs fname artifact_paths;
     archived_filename := fname;
     size := 0;
     fullfilename := None;
     ivt := None |}.

(** [Artifact.exists] *)
Definition Artifact_exists (fs : FS) (a : Artifact) : bool :=
  match source_path a with
  | Some p => fs_exists fs p
  | None => false
  end.

(** [Artifact.get_sha256]: [None] when the source is missing, else the
    digest of the bytes at [source_path]. Feeding the digest in chunks of
    1024 bytes gives the digest of the whole content. *)
Definition Artifact_get_sha256 (sha256_hex : string -> string) (fs : FS)
    (a : Artifact) : res value :=
  if negb (Artifact_exists fs a) then Ok VNone
  else
    match source_path a with
    | None => Ok VNone
    | Some p =>
        match fs p with
        | Some (File content) => Ok (VStr (sha256_hex content))
        | Some (Dir _) => Raise (IsADirectoryError p)
        | None => Raise (FileNotFoundError p)
        end
    end.

(** [Artifact.get_size] *)
Definition Artifact_get_size (fs : FS) (a : Artifact) : Z :=
  if Artifact_exists fs a then
    match source_path a with
    | Some p =>
        match fs p with
        | Some (File content) => Z.of_nat (String.length content)
        | Some (Dir sz) => sz
        | None => 0
        end
    | None => 0
    end
  else 0.

(** ** The generator *)

(** A place in the manifest tree: the keys and tuple positions from the
    root down to a node. *)
Inductive step : Type :=
| Key (k : string)
| Idx (i : nat).

(** The attributes of [SWUGenerator] that a run only reads. [signtool] is
    whether a signer was given, [temp] is [self.temp.name]. *)
Record Config : Type := mkConfig
  { swdescription : string;
    artifactory : list string;
    vars : dict;
    temp : string;
    signtool : bool;
    encryptswdesc : bool;
    nocompress : bool;
    noencrypt : bool;
    noivt : bool }.

(** The attributes a run assigns, with the world around the process: the
    files, what was logged and which external calls were made (latest
    first), and how many random IVs were drawn.

    [filelist] holds references to nodes of [conf] in Python; here an item
    is the place of the node and the node as it was when collected. *)
Record State : Type := mkState
  { artifacts : list Artifact;
    lines : list string;
    conf : value;
    filelist : list (list step * dict);
    aeskey : option string;
    aesiv : option string;
    fs : FS;
    trace : list event;
    draws : nat }.

Definition set_artifacts (l : list Artifact) (s : State) : State :=
  mkState l (lines s) (conf s) (filelist s) (aeskey s) (aesiv s) (fs s) (trace s) (draws s).
Definition set_lines (l : list string) (s : State) : State :=
  mkState (artifacts s) l (conf s) (filelist s) (aeskey s) (aesiv s) (fs s) (trace s) (draws s).
Definition set_conf (c : value) (s : State) : State :=
  mkState (artifacts s) (lines s) c (filelist s) (aeskey s) (aesiv s) (fs s) (trace s) (draws s).
Definition set_filelist (l : list (list step * dict)) (s : State) : State :=
  mkState (artifacts s) (lines s) (conf s) l (aeskey s) (aesiv s) (fs s) (trace s) (draws s).
Definition set_keys (k iv : option string) (s : State) : State :=
  mkState (artifacts s) (lines s) (conf s) (filelist s) k iv (fs s) (trace s) (draws s).
Definition set_fs (f : FS) (s : State) : State :=
  mkState (artifacts s) (lines s) (conf s) (filelist s) (aeskey s) (aesiv s) f (trace s) (draws s).
Definition emit (e : event) (s : State) : State :=
  mkState (artifacts s) (lines s) (conf s) (filelist s) (aeskey s) (aesiv s) (fs s)
    (e :: trace s) (draws s).
Definition set_draws (n : nat) (s : State) : State :=
  mkState (artifacts s) (lines s) (conf s) (filelist s) (aeskey s) (aesiv s) (fs s) (trace s) n.

(** What the two source files call and do not define. *)
Record Platform : Type := mkPlatform
  { (* hashlib.sha256(content).hexdigest() *)
    sha256_hex : string -> string;
    (* subprocess.run of an external program on an argument vector: its exit
       status, or what is raised when the program cannot be started (an
       OSError such as FileNotFoundError), and the files after *)
    run_argv : FS -> list string -> res Z * FS;
    (* the same for a command line run by the shell *)
    run_shell : FS -> string -> res Z * FS;
    (* Path.resolve(): the absolute path, symbolic links followed *)
    resolve : FS -> string -> string;
    (* the n-th value of secrets.token_hex(16) in this run *)
    token_hex : nat -> string;
    (* Python's eval of an expression inside a method of the generator *)
    py_eval : Config -> State -> string -> res value * State;
    (* libconf.loads and libconf.dumps *)
    loads : string -> res value;
    dumps : value -> res string;
    (* the signer of swu_sign: prepare_cmd(src, dst) then sign() *)
    sign : FS -> string -> string -> res unit * FS;
    (* SWUFile.addartifacttoswu *)
    addartifacttoswu : FS -> string -> res unit }.

(** ** The monad of a run *)

Definition M (A : Type) : Type := State -> res A * State.

Definition ret {A : Type} (a : A) : M A := fun s => (Ok a, s).

Definition bind {A B : Type} (m : M A) (k : A -> M B) : M B :=
  fun s =>
    match m s with
    | (Ok a, s') => k a s'
    | (Exit c, s') => (Exit c, s')
    | (Raise e, s') => (Raise e, s')
    | (OutOfFuel, s') => (OutOfFuel, s')
    end.

Declare Scope run_scope.
Delimit Scope run_scope with run.
Notation "x <- c ;; k" := (bind c (fun x => k))
  (at level 61, c at next level, right associativity) : run_scope.
Notation "c ;;; k" := (bind c (fun _ => k))
  (at level 61, right associativity) : run_scope.
Open Scope run_scope.

Definition get : M State := fun s => (Ok s, s).
Definition modify (f : State -> State) : M unit := fun s => (Ok tt, f s).
Definition sys_exit {A : Type} (code : Z) : M A := fun s => (Exit code, s).
Definition raise {A : Type} (e : exn) : M A := fun s => (Raise e, s).
Definition lift {A : Type} (r : res A) : M A := fun s => (r, s).
Definition logging (lv : level) (fmt : string) (args : list value) : M unit :=
  modify (emit (Log lv fmt args)).

Definition dquote : string := String "034"%char "".

(** [str(n)] for an integer *)
Definition str_of_Z (z : Z) : string := NilZero.string_of_int (Z.to_int z).

(** A character that stands for itself inside a Python string literal
    written between double quotes: printable ASCII but the quote and the
    backslash. *)
Definition plain_char (c : ascii) : bool :=
  let n := nat_of_ascii c in
  ((32 <=? n) && (n <=? 126) && negb (n =? 34) && negb (n =? 92))%nat.

Fixpoint list_set {A : Type} (i : nat) (x : A) (l : list A) : list A :=
  match l, i with
  | [], _ => []
  | _ :: rest, O => x :: rest
  | y :: rest, S j => y :: list_set j x rest
  end.

(** [f] applied below the place [p] of a tree; a place that is no longer
    there is left alone. *)
Fixpoint update_at (p : list step) (f : dict -> dict) (v : value) : value :=
  match p, v with
  | [], VDict d => VDict (f d)
  | Key k :: p', VDict d =>
      VDict (map (fun kv => if String.eqb k (fst kv)
                            then (fst kv, update_at p' f (snd kv)) else kv) d)
  | Idx i :: p', VTuple l =>
      VTuple ((fix go (j : nat) (l : list value) : list value :=
                 match l with
                 | [] => []
                 | x :: rest =>
                     (if Nat.eqb j i then update_at p' f x else x) :: go (S j) rest
                 end) O l)
  | _, _ => v
  end.

Section Generator.

Variable P : Platform.
Variable cfg : Config.

(** [subprocess.run(argv, check=True)] up to the exit status: what is
    raised when the program cannot be started is raised here, and the
    caller turns a status other than 0 into [CalledProcessError]. *)
Definition run (argv : list string) : M Z :=
  fun s =>
    let '(r, fs') := run_argv P (fs s) argv in
    (r, set_fs fs' (emit (Run argv) s)).

Definition shell (cmd : string) : M Z :=
  fun s =>
    let '(r, fs') := run_shell P (fs s) cmd in
    (r, set_fs fs' (emit (Shell cmd) s)).

(** [Artifact.encrypt]. The input of the cipher is the resolved source
    path. [subprocess.run] refuses an argument vector that holds [None]
    with a [TypeError], before any process is started; a nonzero exit
    status is [CalledProcessError], which is caught; what is raised when
    the cipher cannot be started is not caught. *)
Definition Artifact_encrypt (a : Artifact) (out : string)
    (key init_vec : option string) : M bool :=
  match source_path a with
  | None => ret false
  | Some p =>
      s <- get ;;
      let source := resolve P (fs s) p in
      match key, init_vec with
      | Some k, Some iv =>
          let enc_cmd :=
            ["openssl"; "enc"; "-aes-256-cbc"; "-in"; source; "-out"; out;
             "-K"; k; "-iv"; iv; "-nosalt"] in
          code <- run enc_cmd ;;
          if Z.eqb code 0 then ret true
          else logging CRITICAL "Unable to encrypt %s" [VStr source] ;;; ret false
      | _, _ =>
          raise (TypeError "expected str, bytes or os.PathLike object, not NoneType")
      end
  end.

(** [SWUGenerator.generate_iv] *)
Definition generate_iv : M string :=
  fun s => (Ok (token_hex P (draws s)), set_draws (S (draws s)) s).

(** [not self.aeskey] *)
Definition no_key (k : option string) : bool := negb (truthy (opt_value k)).

(** Lines 84-128 of [process_entry]: compression of a first-seen artifact. *)
Definition compress_entry (entry : dict) (fname : value) (new : Artifact)
  : M Artifact :=
  if dict_has "compressed" entry && negb (nocompress cfg) then
    let cmp := match dict_get "compressed" entry with Some v => v | None => VNone end in
    let cmp := if truthy cmp then VStr "zlib" else cmp in
    match cmp with
    | VStr alg =>
        if String.eqb alg "zlib" || String.eqb alg "zstd" then
          let new_path := path_join (temp cfg) (archived_filename new) ++ "." ++ alg in
          let new := set_archived_filename new (archived_filename new ++ "." ++ alg) in
          match fullfilename new with
          | None => raise (AttributeError "Artifact" "fullfilename")
          | Some full =>
              let cmd :=
                if String.eqb alg "zlib"
                then ["gzip"; "-f"; "-9"; "-n"; "-c"; "--rsyncable"; full; ">"; new_path]
                else ["zstd"; "-z"; "-k"; "-T0"; "-c"; full; ">"; new_path] in
              code <- shell (str_join " " cmd) ;;
              if Z.eqb code 0 then ret (set_fullfilename new new_path)
              else
                logging CRITICAL "Cannot compress %s with %s"
                  [fname; VList (map VStr cmd)] ;;;
                sys_exit 1
          end
        else
          logging CRITICAL "Wrong compression algorithm: %s" [cmp] ;;; sys_exit 1
    | _ =>
        logging CRITICAL "Wrong compression algorithm: %s" [cmp] ;;; sys_exit 1
    end
  else ret new.

(** Lines 131-149 of [process_entry]: encryption of a first-seen artifact.
    The entry comes back with its [ivt]. *)
Definition encrypt_entry (entry : dict) (fname : value) (new : Artifact)
  : M (Artifact * dict) :=
  if dict_has "encrypted" entry && negb (noencrypt cfg) then
    s <- get ;;
    (if no_key (aeskey s)
     then logging CRITICAL "%s must be encrypted, but no encryption key is given" [fname]
     else ret tt) ;;;
    iv <- (if noivt cfg then ret (aesiv s)
           else (t <- generate_iv ;; ret (Some t))) ;;
    let new := set_archived_filename new (archived_filename new ++ "." ++ "enc") in
    let new_path := path_join (temp cfg) (archived_filename new) in
    ok <- Artifact_encrypt new new_path (aeskey s) iv ;;
    if negb ok then sys_exit 1
    else
      ret (set_ivt (set_fullfilename new new_path) (opt_value iv),
           dict_set "ivt" (opt_value iv) entry)
  else ret (new, entry).

(** Lines 155-158 of [process_entry]: what every entry gets, first seen or
    not. *)
Definition update_entry (entry : dict) (new : Artifact) : M dict :=
  let entry := dict_set "filename" (VStr (archived_filename new)) entry in
  s <- get ;;
  sha <- lift (Artifact_get_sha256 (sha256_hex P) (fs s) new) ;;
  let entry := dict_set "sha256" sha entry in
  if dict_has "encrypted" entry then
    match ivt new with
    | Some iv => ret (dict_set "ivt" iv entry)
    | None => raise (AttributeError "Artifact" "ivt")
    end
  else ret entry.

(** [SWUGenerator.process_entry]. The entry is a dictionary that Python
    changes in place; here the changed entry is the result.

    A [filename] that is not a [str] equals the name of no artifact; the
    constructor then fails on the first search directory
    ([artifact_dir / filename] is a [TypeError]), and with no directory at
    all the artifact has no source. *)
Definition process_entry (entry : dict) : M dict :=
  match dict_get "filename" entry with
  | None => ret entry
  | Some fname =>
      s <- get ;;
      match find (fun image => str_eq_value (filename image) fname) (artifacts s) with
      | Some image =>
          logging DEBUG "Artifact  %s already stored" [fname] ;;;
          update_entry entry image
      | None =>
          logging DEBUG "New artifact  %s" [fname] ;;;
          match fname with
          | VStr f =>
              let new := Artifact_init (fs s) f (artifactory cfg) in
              if negb (Artifact_exists (fs s) new) then
                logging CRITICAL "Artifact %s not found" [fname] ;;; sys_exit 22
              else
                let new := set_archived_filename new f in
                new <- compress_entry entry fname new ;;
                ne <- encrypt_entry entry fname new ;;
                let '(new, entry) := ne in
                modify (fun s => set_artifacts (artifacts s ++ [new])%list s) ;;;
                update_entry entry new
          | _ =>
              match artifactory cfg with
              | [] => logging CRITICAL "Artifact %s not found" [fname] ;;; sys_exit 22
              | _ :: _ => raise (TypeError "unsupported operand type(s) for /")
              end
          end
      end
  end.

(** The loop of [process] over [self.filelist]. The entry is processed as
    it was collected: [process_entry] reads only the keys [filename],
    [compressed] and [encrypted] of the entry itself, which no other entry
    changes. What it assigned is then written to the node of the tree:
    the keys [filename], [sha256] and [ivt], in the order in which they
    come in the entry as [process_entry] left it, which for a new key is
    the order of the assignments (line 148 before lines 155-158). The
    entries as [process_entry] left them are the result. *)
Definition assigned_key (k : string) : bool :=
  String.eqb k "filename" || String.eqb k "sha256" || String.eqb k "ivt".

Definition commit_entry (done live : dict) : dict :=
  fold_left
    (fun live kv =>
       if assigned_key (fst kv)
       then match dict_get (fst kv) done with
            | Some v => dict_set (fst kv) v live
            | None => live
            end
       else live)
    done live.

Fixpoint process_entries (items : list (list step * dict)) : M (list dict) :=
  match items with
  | [] => ret []
  | (place, entry) :: rest =>
      done <- process_entry entry ;;
      (if dict_has "filename" entry
       then modify (fun s => set_conf (update_at place (commit_entry done) (conf s)) s)
       else ret tt) ;;;
      dones <- process_entries rest ;;
      ret (done :: dones)
  end.

(** [SWUGenerator.find_files_in_swdesc]. [first.items()] needs a
    dictionary: an element of a tuple that is not one raises
    [AttributeError]. *)
Fixpoint find_files_in_swdesc (place : list step) (first : value) {struct first}
  : M unit :=
  match first with
  | VDict d =>
      (fix items (l : list (string * value)) : M unit :=
         match l with
         | [] => ret tt
         | (n, val) :: rest =>
             match val with
             | VDict _ => find_files_in_swdesc (place ++ [Key n])%list val
             | VTuple ts =>
                 (fix elems (i : nat) (ts : list value) : M unit :=
                    match ts with
                    | [] => ret tt
                    | t :: ts' =>
                        find_files_in_swdesc (place ++ [Key n; Idx i])%list t ;;;
                        elems (S i) ts'
                    end) O ts
             | _ =>
                 logging DEBUG "%s = %s" [VStr n; val] ;;;
                 if String.eqb n "filename"
                 then modify (fun s => set_filelist (filelist s ++ [(place, d)])%list s)
                 else ret tt
             end ;;;
             items rest
         end) d
  | _ => raise (AttributeError "object" "items")
  end.

(** *** The directive expander *)

(** The [while True] loop of [_expand_variables] on one line; [fuel] bounds
    the number of times the pattern is tried. *)
Fixpoint expand_line (fuel : nat) (line : string) : res string :=
  match fuel with
  | O => OutOfFuel
  | S fuel' =>
      match match_variable line with
      | Some m =>
          match dict_get (vm_name m) (vars cfg) with
          | None => Raise (KeyError (vm_name m))
          | Some (VStr variable_value) =>
              expand_line fuel' (vm_before m ++ variable_value ++ vm_after m)
          | Some _ => Raise (TypeError "can only concatenate str to str")
          end
      | None => Ok line
      end
  end.

Fixpoint expand_lines (fuel : nat) (ls : list string) : res (list string) :=
  match ls with
  | [] => Ok []
  | line :: rest =>
      match expand_line fuel line with
      | Ok line' =>
          match expand_lines fuel rest with
          | Ok rest' => Ok (line' :: rest')
          | Exit c => Exit c
          | Raise e => Raise e
          | OutOfFuel => OutOfFuel
          end
      | Exit c => Exit c
      | Raise e => Raise e
      | OutOfFuel => OutOfFuel
      end
  end.

(** [SWUGenerator._expand_variables] *)
Definition _expand_variables (fuel : nat) : M unit :=
  s <- get ;;
  write_lines <- lift (expand_lines fuel (lines s)) ;;
  modify (set_lines write_lines).

(** [SWUGenerator.swupdate_get_sha256] *)
Definition swupdate_get_sha256 (fname : string) : M value :=
  s <- get ;;
  let a := Artifact_init (fs s) fname (artifactory cfg) in
  lift (Artifact_get_sha256 (sha256_hex P) (fs s) a).

(** [SWUGenerator.swupdate_get_size] *)
Definition swupdate_get_size (fname : string) : M value :=
  s <- get ;;
  let a := Artifact_init (fs s) fname (artifactory cfg) in
  ret (VStr (str_of_Z (Artifact_get_size (fs s) a))).

(** [eval(fun)] for [fun = "self." + function_name + '("' + parms + '")'].
    When [parms] is plain text the expression is a call of the attribute
    [function_name] of the generator on the string [parms], and for the two
    lookups of the source that call is known. Every other expression is
    left to the evaluator: nothing in the source looks at the name. *)
Definition eval_call (function_name parms : string) : M value :=
  let fun_ := "self." ++ function_name ++ "(" ++ dquote ++ parms ++ dquote ++ ")" in
  modify (emit (Eval fun_)) ;;;
  if str_forall plain_char parms && String.eqb function_name "swupdate_get_sha256"
  then swupdate_get_sha256 parms
  else if str_forall plain_char parms && String.eqb function_name "swupdate_get_size"
  then swupdate_get_size parms
  else fun s => py_eval P cfg s fun_.

(** The body of the loop of [_exec_functions]. *)
Definition exec_line (index : nat) (line : string) : M unit :=
  match match_function line with
  | Some m =>
      r <- eval_call (fm_name m) (fm_parms m) ;;
      match r with
      | VStr text =>
          let line := fm_before m ++ text ++ fm_after m ++ nl in
          modify (fun s => set_lines (list_set index line (lines s)) s)
      | _ => raise (TypeError "can only concatenate str to str")
      end
  | None => ret tt
  end.

Fixpoint exec_from (index : nat) (ls : list string) : M unit :=
  match ls with
  | [] => ret tt
  | line :: rest => exec_line index line ;;; exec_from (S index) rest
  end.

(** [SWUGenerator._exec_functions] *)
Definition _exec_functions : M unit :=
  s <- get ;;
  exec_from O (lines s).

(** [SWUGenerator.setenckey] *)
Definition setenckey (k iv : option string) : M unit := modify (set_keys k iv).

(** *** The whole run *)

(** Text mode with universal newlines: CR LF and a lone CR are read as LF. *)
Fixpoint universal_newlines (s : string) : string :=
  match s with
  | EmptyString => EmptyString
  | String c rest =>
      if Ascii.eqb c CR then
        match rest with
        | String d rest' =>
            if Ascii.eqb d LF then String LF (universal_newlines rest')
            else String LF (universal_newlines rest)
        | EmptyString => String LF EmptyString
        end
      else String c (universal_newlines rest)
  end.

(** [f.readlines()]: the lines with their line feed. *)
Fixpoint readlines (cur s : string) : list string :=
  match s with
  | EmptyString => if String.eqb cur "" then [] else [cur]
  | String c rest =>
      if Ascii.eqb c LF then (cur ++ nl) :: readlines "" rest
      else readlines (cur ++ String c "") rest
  end.

Definition read_file (p : string) : M string :=
  fun s =>
    match fs s p with
    | Some (File content) => (Ok content, s)
    | Some (Dir _) => (Raise (IsADirectoryError p), s)
    | None => (Raise (FileNotFoundError p), s)
    end.

(** [SWUGenerator._read_swdesc] *)
Definition _read_swdesc : M unit :=
  content <- read_file (swdescription cfg) ;;
  modify (set_lines (readlines "" (universal_newlines content))).

(** [SWUGenerator.save_swdescription] *)
Definition save_swdescription (fname contents : string) : M unit :=
  modify (fun s => set_fs (fs_write fname contents (fs s)) s).

(** [shutil.copyfile] *)
Definition copyfile (src dst : string) : M unit :=
  content <- read_file src ;;
  modify (fun s => set_fs (fs_write dst content (fs s)) s).

Definition append_artifact (a : Artifact) : M unit :=
  modify (fun s => set_artifacts (artifacts s ++ [a])%list s).

(** The last loop of [process]. *)
Fixpoint add_artifacts (l : list Artifact) : M unit :=
  match l with
  | [] => ret tt
  | artifact :: rest =>
      match fullfilename artifact with
      | None => raise (AttributeError "Artifact" "fullfilename")
      | Some full =>
          modify (emit (AddToSwu full)) ;;;
          s <- get ;;
          lift (addartifacttoswu P (fs s) full) ;;;
          add_artifacts rest
      end
  end.

(** Lines 218-227 of [process]: the manifest file is encrypted in place.
    [sw] is the artifact made for ["sw-description"], [sw_index] its
    position in [self.artifacts]. What [sw.encrypt] returns is not looked
    at. *)
Definition encrypt_swdescription (sw : Artifact) (sw_index : nat)
    (swdesc_filename : string) : M unit :=
  s <- get ;;
  (if no_key (aeskey s)
   then logging CRITICAL
          "sw-description must be encrypted, but no encryption key is given" []
   else ret tt) ;;;
  let iv := aesiv s in
  let sw := set_fullfilename sw swdesc_filename in
  modify (fun s => set_artifacts (list_set sw_index sw (artifacts s)) s) ;;;
  let swdesc_enc := swdesc_filename ++ ".enc" in
  _ <- Artifact_encrypt sw swdesc_enc (aeskey s) iv ;;
  copyfile swdesc_enc swdesc_filename.

(** Lines 187-188 of [process]: the artifact made for the manifest itself. *)
Definition sw_artifact (files : FS) : Artifact :=
  let sw := Artifact_init files "sw-description" (artifactory cfg) in
  set_archived_filename sw (path_join (temp cfg) (filename sw)).

(** [SWUGenerator.process]. [sw] stays the same object after it is
    appended to [self.artifacts]: the assignment to [sw.fullfilename] of
    line 224 is made on the item of the list too. *)
Definition process (fuel : nat) : M unit :=
  _read_swdesc ;;;
  _expand_variables fuel ;;;
  _exec_functions ;;;
  s <- get ;;
  let swdesc := str_concat (lines s) in
  c <- lift (loads P swdesc) ;;
  modify (set_conf c) ;;;
  software <- match c with
              | VDict d =>
                  match dict_get "software" d with
                  | Some v => ret v
                  | None => raise (AttributeError "AttrDict" "software")
                  end
              | _ => raise (AttributeError "object" "software")
              end ;;
  find_files_in_swdesc [Key "software"] software ;;;
  s <- get ;;
  let sw := sw_artifact (fs s) in
  let sw_index := List.length (artifacts s) in
  append_artifact sw ;;;
  (if signtool cfg then
     s <- get ;;
     let sig := Artifact_init (fs s) "sw-description.sig" (artifactory cfg) in
     let sig := set_archived_filename sig (path_join (temp cfg) "sw-description.sig") in
     append_artifact sig
   else ret tt) ;;;
  s <- get ;;
  _ <- process_entries (filelist s) ;;
  s <- get ;;
  swdesc <- lift (dumps P (conf s)) ;;
  let swdesc := replace2 "\" "n" LF swdesc in
  let swdesc := replace2 "\" "t" "009" swdesc in
  let swdesc_filename := path_join (temp cfg) (filename sw) in
  save_swdescription swdesc_filename swdesc ;;;
  (if signtool cfg then
     let sw_desc_in := swdesc_filename in
     let sw_desc_out := path_join (temp cfg) "sw-description.sig" in
     fun s =>
       let '(r, fs') := sign P (fs s) sw_desc_in sw_desc_out in
       (r, set_fs fs' (emit (Sign sw_desc_in sw_desc_out) s))
   else ret tt) ;;;
  (if encryptswdesc cfg then encrypt_swdescription sw sw_index swdesc_filename
   else ret tt) ;;;
  s <- get ;;
  add_artifacts (artifacts s).

End Generator.

(** ** The command line ([main.py]) *)

(** [p in s] for two strings. *)
Fixpoint contains (p s : string) : bool :=
  starts_with p s ||
  match s with
  | EmptyString => false
  | String _ s' => contains p s'
  end.

(** [s.rstrip("\n")] *)
Fixpoint rstrip_nl (s : string) : string :=
  match s with
  | EmptyString => EmptyString
  | String c rest =>
      match rstrip_nl rest with
      | EmptyString => if Ascii.eqb c LF then EmptyString else String c EmptyString
      | r => String c r
      end
  end.

Definition res_bind {A B : Type} (r : res A) (k : A -> res B) : res B :=
  match r with
  | Ok a => k a
  | Exit c => Exit c
  | Raise e => Raise e
  | OutOfFuel => OutOfFuel
  end.

Definition IndexError : exn := OtherError "IndexError: list index out of range".

(** [line.split("=")[1].rstrip("\n")] *)
Definition key_field (line : string) : res string :=
  match split_on "=" "" line with
  | _ :: x :: _ => Ok (rstrip_nl x)
  | _ => Raise IndexError
  end.

(** The loop of [extract_keys]. *)
Fixpoint keys_of_lines (ls : list string) (key iv : option string)
  : res (option string * option string) :=
  match ls with
  | [] => Ok (key, iv)
  | line :: rest =>
      res_bind (if contains "key" line
                then res_bind (key_field line) (fun k => Ok (Some k))
                else Ok key) (fun key =>
      res_bind (if contains "iv" line
                then res_bind (key_field line) (fun v => Ok (Some v))
                else Ok iv) (fun iv =>
      keys_of_lines rest key iv))
  end.

(** [extract_keys]: a file that cannot be opened is an [IOError],
    whatever the reason. *)
Definition extract_keys (keyfile : string) : M (option string * option string) :=
  s <- get ;;
  match fs s keyfile with
  | Some (File content) =>
      lift (keys_of_lines (readlines "" (universal_newlines content)) None None)
  | _ =>
      logging CRITICAL "Failed to open file with keys %s" [VStr keyfile] ;;;
      sys_exit 1
  end.

(** The signers of [swu_sign], as [main] makes them. *)
Inductive signer : Type :=
| SWUSignCMS (key cert : string) (passin : option string)
| SWUSignRSA (key : string) (passin : option string)
| SWUSignPKCS11 (pin : string)
| SWUSignCustom (cmd : string).

(** Lines 166-202 of [main]: the signer for the value of [--sign]. *)
Definition sign_option (sign_arg : option string) : M (option signer) :=
  match sign_arg with
  | None => ret None
  | Some arg =>
      if String.eqb arg "" then ret None
      else
        let sign_parms := split_on "," "" arg in
        let parm i := nth i sign_parms "" in
        let len := List.length sign_parms in
        let cmd := parm 0 in
        sign_option <-
          (if String.eqb cmd "CMS" then
             if (len <? 3)%nat then
               logging CRITICAL "CMS requires private key and certificate" [] ;;;
               sys_exit 1
             else if (len =? 4)%nat
             then ret (Some (SWUSignCMS (parm 1) (parm 2) (Some (parm 3))))
             else ret (Some (SWUSignCMS (parm 1) (parm 2) None))
           else ret None) ;;
        sign_option <-
          (if String.eqb cmd "RSA" then
             if (len <? 2)%nat then
               logging CRITICAL "RSA requires private key" [] ;;; sys_exit 1
             else if (len =? 3)%nat
             then ret (Some (SWUSignRSA (parm 1) (Some (parm 2))))
             else ret (Some (SWUSignRSA (parm 1) None))
           else ret sign_option) ;;
        sign_option <-
          (if String.eqb cmd "PKCS11" then
             if (len <? 2)%nat then
               logging CRITICAL "PKCS11 requires URI" [] ;;; sys_exit 1
             else ret (Some (SWUSignPKCS11 (parm 1)))
           else ret sign_option) ;;
        (if String.eqb cmd "CUSTOM" then
           if (len <? 2)%nat then
             logging CRITICAL "PKCS11 requires URI" [] ;;; sys_exit 1
           else ret (Some (SWUSignCustom (parm 1)))
         else ret sign_option)
  end.

(** Lines 209-215 of [main]: the directories that are searched, the
    current one first. [resolve] is [Path.resolve]. *)
Definition artidirs (resolve : string -> string) (cwd : string)
    (artifactory_arg : option string) : list string :=
  cwd ::
  match artifactory_arg with
  | None => []
  | Some a => if String.eqb a "" then [] else map resolve (split_on "," "" a)
  end.

(** ** Words for the statements *)

(** The artifact of [self.artifacts] that the loop of lines 71-74 finds for
    the name [f]. *)
Definition registered (f : string) (s : State) : option Artifact :=
  find (fun image => str_eq_value (filename image) (VStr f)) (artifacts s).

(** The state after [logging.debug("New artifact  %s", f)]. *)
Definition new_artifact_logged (f : string) (s : State) : State :=
  emit (Log DEBUG "New artifact  %s" [VStr f]) s.

(** The argument vector of [Artifact.encrypt]. *)
Definition openssl_enc (src out k iv : string) : list string :=
  ["openssl"; "enc"; "-aes-256-cbc"; "-in"; src; "-out"; out; "-K"; k; "-iv"; iv;
   "-nosalt"].

(** The IV of lines 137-140 for the next artifact to encrypt. *)
Definition entry_iv (P : Platform) (cfg : Config) (s : State) : option string :=
  if noivt cfg then aesiv s else Some (token_hex P (draws s)).

(** The message of the exception that [subprocess.run] raises on [None]. *)
Definition none_in_argv : string :=
  "expected str, bytes or os.PathLike object, not NoneType".

(** The external calls of a trace. *)
Definition is_external (e : event) : bool :=
  match e with
  | Run _ | Shell _ => true
  | _ => false
  end.

Definition external_calls (tr : list event) : list event := filter is_external tr.








(** The state in which the loop of [process] goes on after an entry: what
    [process_entry] assigned is in the tree. *)
Definition committed (place : list step) (entry done : dict) (s : State) : State :=
  if dict_has "filename" entry
  then set_conf (update_at place (commit_entry done) (conf s)) s
  else s.

(** What [find_files_in_swdesc] does with one item [n = val] of the
    dictionary [d], and its two loops: over the elements of the tuple under
    the key [n] from position [i] on, and over the items of [d] that are
    still to come. *)
Definition walk_elems (place : list step) (n : string)
  : nat -> list value -> M unit :=
  fix elems (i : nat) (ts : list value) : M unit :=
    match ts with
    | [] => ret tt
    | t :: ts' =>
        find_files_in_swdesc (place ++ [Key n; Idx i])%list t ;;; elems (S i) ts'
    end.

Definition walk_item (place : list step) (d : dict) (n : string) (val : value)
  : M unit :=
  match val with
  | VDict _ => find_files_in_swdesc (place ++ [Key n])%list val
  | VTuple ts => walk_elems place n O ts
  | _ =>
      logging DEBUG "%s = %s" [VStr n; val] ;;;
      if String.eqb n "filename"
      then modify (fun s => set_filelist (filelist s ++ [(place, d)])%list s)
      else ret tt
  end.

Definition walk_items (place : list step) (d : dict)
  : list (string * value) -> M unit :=
  fix items (l : list (string * value)) : M unit :=
    match l with
    | [] => ret tt
    | (n, val) :: rest => walk_item place d n val ;;; items rest
    end.

(** A value that is neither a group nor a tuple. *)
Definition is_scalar (v : value) : bool :=
  match v with
  | VDict _ | VTuple _ => false
  | _ => true
  end.

(** What a walk of the manifest changes: entries are added at the end of
    [filelist], every one with the key [filename], and debug lines are
    logged. *)
Definition walked (s s' : State) : Prop :=
  exists added logs,
    s' = mkState (artifacts s) (lines s) (conf s) (filelist s ++ added)%list
           (aeskey s) (aesiv s) (fs s) (logs ++ trace s)%list (draws s) /\
    (forall place d, In (place, d) added -> dict_has "filename" d = true) /\
    (forall e, In e logs -> exists n v, e = Log DEBUG "%s = %s" [VStr n; v]).

(** How a walk from [s] ends: it returns or meets something that has no
    [items]. *)
Definition walk_result (s : State) (out : res unit * State) : Prop :=
  (fst out = Ok tt \/ fst out = Raise (AttributeError "object" "items")) /\
  walked s (snd out).

(** The groups of a tree with their places, as the walk reaches them: the
    group itself, the groups of a group that is the value of an item, and
    the groups of a group that is an element of a tuple of an item. *)
Inductive group_in : list step -> value -> list step -> dict -> Prop :=
| group_here (place : list step) (d : dict) :
    group_in place (VDict d) place d
| group_under (place : list step) (d : dict) (n : string) (d' : dict)
    (p : list step) (g : dict) :
    In (n, VDict d') d ->
    group_in (place ++ [Key n])%list (VDict d') p g ->
    group_in place (VDict d) p g
| group_elem (place : list step) (d : dict) (n : string) (ts : list value)
    (i : nat) (t : value) (p : list step) (g : dict) :
    In (n, VTuple ts) d -> nth_error ts i = Some t ->
    group_in (place ++ [Key n; Idx i])%list t p g ->
    group_in place (VDict d) p g.

(** A group with an item [filename] that is neither a group nor a
    tuple. *)
Definition names_a_file (g : dict) : Prop :=
  exists val, In ("filename", val) g /\ is_scalar val = true.

(** The groups that a walk is to collect. *)
Definition target (place : list step) (v : value) (p : list step) (g : dict)
  : Prop :=
  group_in place v p g /\ names_a_file g.

Definition elems_targets (place : list step) (n : string) (i : nat)
    (ts : list value) (p : list step) (g : dict) : Prop :=
  exists j t, nth_error ts j = Some t /\
              target (place ++ [Key n; Idx (i + j)])%list t p g.

Definition item_targets (place : list step) (d : dict) (n : string) (val : value)
    (p : list step) (g : dict) : Prop :=
  match val with
  | VDict _ => target (place ++ [Key n])%list val p g
  | VTuple ts => elems_targets place n 0 ts p g
  | _ => n = "filename" /\ p = place /\ g = d
  end.

Definition items_targets (place : list step) (d : dict)
    (l : list (string * value)) (p : list step) (g : dict) : Prop :=
  exists n val, In (n, val) l /\ item_targets place d n val p g.

(** A walk that ends in [out] adds to [filelist] only groups of [G], and
    all of them when it returns. *)
Definition collects (G : list step -> dict -> Prop) (s : State)
    (out : res unit * State) : Prop :=
  (exists added,
     filelist (snd out) = (filelist s ++ added)%list /\
     forall p g, In (p, g) added -> G p g) /\
  (fst out = Ok tt -> forall p g, G p g -> In (p, g) (filelist (snd out))).

(** How [Artifact.encrypt] ends after the cipher was launched: with the
    truth of [status = 0] when a status came back, and with what the launch
    raised otherwise. *)
Definition encrypt_outcome (r : res Z) : res bool :=
  match r with
  | Ok code => Ok (Z.eqb code 0)
  | Exit c => Exit c
  | Raise e => Raise e
  | OutOfFuel => OutOfFuel
  end.

(** ** A small platform to run the model on

    The digest and the cipher are stand-ins that keep their input visible.
    The cipher accepts a key of hexadecimal digits; on any other key it
    exits with status 1 and leaves an empty output file; no other program
    can be started. The shell finds no compressor (status 127). Paths
    resolve to themselves. [eval] knows the attribute lookup
    [self.__getattribute__("swdescription")], which gives the path of the
    template, and raises on everything else. *)
Module Demo.

Definition is_hex (c : ascii) : bool :=
  let n := nat_of_ascii c in
  (((48 <=? n) && (n <=? 57)) || ((65 <=? n) && (n <=? 70))
   || ((97 <=? n) && (n <=? 102)))%nat.

Definition digest (content : string) : string := "sha256<" ++ content ++ ">".

Definition openssl (fs : FS) (argv : list string) : res Z * FS :=
  match argv with
  | ["openssl"; "enc"; "-aes-256-cbc"; "-in"; src; "-out"; out; "-K"; k; "-iv"; iv; "-nosalt"] =>
      match fs src with
      | Some (File content) =>
          if str_forall is_hex k && negb (String.eqb k "") then
            (Ok 0%Z, fs_write out ("aes<" ++ k ++ "," ++ iv ++ "," ++ content ++ ">") fs)
          else (Ok 1%Z, fs_write out "" fs)
      | _ => (Ok 1%Z, fs)
      end
  | _ => (Raise (FileNotFoundError (hd "" argv)), fs)
  end.

Definition eval (cfg : Config) (s : State) (expr : string) : res value * State :=
  if String.eqb expr ("self.__getattribute__(" ++ dquote ++ "swdescription" ++ dquote ++ ")")
  then (Ok (VStr (swdescription cfg)), s)
  else (Raise (OtherError "not evaluated"), s).

Definition platform (manifest : value) : Platform :=
  {| sha256_hex := digest;
     run_argv := openssl;
     run_shell := fun fs _ => (Ok 127%Z, fs);
     resolve := fun _ p => p;
     token_hex := fun n => "iv" ++ str_of_Z (Z.of_nat n);
     py_eval := eval;
     loads := fun _ => Ok manifest;
     dumps := fun _ => Ok "software = { };";
     sign := fun fs _ _ => (Ok tt, fs);
     addartifacttoswu := fun _ _ => Ok tt |}.

Definition config : Config :=
  {| swdescription := "/work/sw-description.in";
     artifactory := ["/work"];
     vars := [("X", VStr "hello")];
     temp := "/tmp/swu";
     signtool := false;
     encryptswdesc := false;
     nocompress := false;
     noencrypt := false;
     noivt := false |}.

(** The same with the manifest itself to be encrypted. *)
Definition config_encrypt_swdesc : Config :=
  {| swdescription := "/work/sw-description.in";
     artifactory := ["/work"];
     vars := [("X", VStr "hello")];
     temp := "/tmp/swu";
     signtool := false;
     encryptswdesc := true;
     nocompress := false;
     noencrypt := false;
     noivt := false |}.

Definition files (l : list (string * string)) : FS :=
  fun p =>
    match find (fun kv => String.eqb p (fst kv)) l with
    | Some kv => Some (File (snd kv))
    | None => None
    end.

Definition state (registry : list Artifact) (key : option string) (f : FS) : State :=
  {| artifacts := registry; lines := []; conf := VDict []; filelist := [];
     aeskey := key; aesiv := None; fs := f; trace := []; draws := 0 |}.

(** A fresh generator with a key and a fixed IV. *)
Definition start (key iv : option string) (f : FS) : State :=
  {| artifacts := []; lines := []; conf := VDict []; filelist := [];
     aeskey := key; aesiv := iv; fs := f; trace := []; draws := 0 |}.

End Demo.

(** * Properties *)

(** ** Strings *)

Lemma str_app_nil_r (s : string) : s ++ "" = s.
Proof. induction s as [|c s IH]; simpl; [reflexivity | now rewrite IH]. Qed.

Lemma str_app_assoc (a b c : string) : (a ++ b) ++ c = a ++ (b ++ c).
Proof. induction a as [|x a IH]; simpl; [reflexivity | now rewrite IH]. Qed.

Lemma str_app_eq_nil (a b : string) : a ++ b = "" -> a = "" /\ b = "".
Proof. destruct a; simpl; [auto | discriminate]. Qed.

Lemma str_app_inv_head (a b c : string) : a ++ b = a ++ c -> b = c.
Proof.
  induction a as [|x a IH]; simpl; intros H; [exact H | injection H; auto].
Qed.

Lemma str_rev_app (a b : string) : str_rev (a ++ b) = str_rev b ++ str_rev a.
Proof.
  induction a as [|x a IH]; simpl.
  - now rewrite str_app_nil_r.
  - now rewrite IH, str_app_assoc.
Qed.

Lemma str_rev_involutive (s : string) : str_rev (str_rev s) = s.
Proof.
  induction s as [|c s IH]; simpl; [reflexivity|].
  now rewrite str_rev_app, IH.
Qed.

Lemma str_rev_eq_nil (s : string) : str_rev s = "" -> s = "".
Proof.
  destruct s as [|c s]; simpl; [reflexivity|].
  intros H. apply str_app_eq_nil in H. destruct H; discriminate.
Qed.

Lemma str_forall_app (p : ascii -> bool) (a b : string) :
  str_forall p (a ++ b) = str_forall p a && str_forall p b.
Proof.
  induction a as [|x a IH]; simpl; [reflexivity|].
  now rewrite IH, andb_assoc.
Qed.

Lemma str_forall_rev (p : ascii -> bool) (s : string) :
  str_forall p (str_rev s) = str_forall p s.
Proof.
  induction s as [|c s IH]; simpl; [reflexivity|].
  rewrite str_forall_app, IH. simpl. rewrite andb_true_r. apply andb_comm.
Qed.

Lemma count_char_app (x : ascii) (a b : string) :
  count_char x (a ++ b) = count_char x a + count_char x b.
Proof. induction a as [|y a IH]; simpl; [reflexivity | rewrite IH; lia]. Qed.

Lemma count_char_rev (x : ascii) (s : string) :
  count_char x (str_rev s) = count_char x s.
Proof.
  induction s as [|c s IH]; simpl; [reflexivity|].
  rewrite count_char_app, IH. simpl. lia.
Qed.

Lemma count_char_forall (x : ascii) (p : ascii -> bool) (s : string) :
  p x = false -> str_forall p s = true -> count_char x s = 0.
Proof.
  intros Hx. induction s as [|c s IH]; simpl; [reflexivity|].
  intros H. apply andb_prop in H. destruct H as [Hc Hs].
  destruct (Ascii.eqb_spec c x) as [->|]; [congruence | now rewrite (IH Hs)].
Qed.

Lemma count_char_head (x : ascii) (s t : string) :
  count_char x (String x s ++ t) <> 0.
Proof. simpl. rewrite Ascii.eqb_refl. discriminate. Qed.

(** ** The matcher gives a decomposition of the line *)

Lemma strip_prefix_sound (p : string) :
  forall s rest, strip_prefix p s = Some rest -> s = p ++ rest.
Proof.
  induction p as [|a p IH]; simpl; intros s rest H.
  - now injection H.
  - destruct s as [|b s]; [discriminate|].
    destruct (Ascii.eqb_spec a b) as [->|]; [|discriminate].
    now rewrite (IH _ _ H).
Qed.

Lemma lit_sound {R : Type} (p s : string) (k : string -> option R) (r : R) :
  lit p s k = Some r -> exists rest, s = p ++ rest /\ k rest = Some r.
Proof.
  unfold lit. destruct (strip_prefix p s) as [rest|] eqn:E; [|discriminate].
  intros H. exists rest. split; [now apply strip_prefix_sound | exact H].
Qed.

Lemma plus_greedy_sound {R : Type} (cls : ascii -> bool) (s : string) :
  forall acc (k : string -> string -> option R) r,
    plus_greedy cls acc s k = Some r ->
    exists m rest,
      m <> "" /\ str_forall cls m = true /\ s = m ++ rest /\
      k (acc ++ m) rest = Some r.
Proof.
  induction s as [|c s IH]; simpl; intros acc k r H; [discriminate|].
  destruct (cls c) eqn:Hc; [|discriminate].
  destruct (plus_greedy cls (acc ++ String c "") s k) as [r'|] eqn:E.
  - injection H as ->. destruct (IH _ _ _ E) as (m & rest & _ & Hm & -> & Hk).
    exists (String c m), rest. repeat split.
    + discriminate.
    + simpl. now rewrite Hc, Hm.
    + now rewrite str_app_assoc in Hk.
  - exists (String c ""), s. repeat split.
    + discriminate.
    + simpl. now rewrite Hc.
    + exact H.
Qed.

Lemma at_end_sound (s : string) : at_end s = true -> s = "" \/ s = nl.
Proof.
  unfold at_end. intros H. apply orb_prop in H.
  destruct H as [H|H]; apply String.eqb_eq in H; auto.
Qed.

(** A successful match of the variable pattern splits the line. *)
Lemma match_variable_sound (line : string) (m : var_match) :
  match_variable line = Some m ->
  vm_before m <> "" /\ str_forall is_dot (vm_before m) = true /\
  vm_name m <> "" /\ str_forall is_word (vm_name m) = true /\
  vm_after m <> "" /\ str_forall is_dot (vm_after m) = true /\
  exists tail, (tail = "" \/ tail = nl) /\
    line = vm_before m ++ "@@" ++ vm_name m ++ "@@" ++ vm_after m ++ tail.
Proof.
  unfold match_variable. intros H.
  apply plus_greedy_sound in H. destruct H as (b & r1 & Hb & Hbd & -> & H).
  apply lit_sound in H. destruct H as (r2 & -> & H).
  apply plus_greedy_sound in H. destruct H as (n & r3 & Hn & Hnw & -> & H).
  apply lit_sound in H. destruct H as (r4 & -> & H).
  apply plus_greedy_sound in H. destruct H as (a & r5 & Ha & Had & -> & H).
  destruct (at_end r5) eqn:E; [|discriminate].
  injection H as <-. simpl.
  repeat split; try assumption.
  exists r5. split; [now apply at_end_sound|].
  reflexivity.
Qed.

(** A successful match of the function pattern splits the line. *)
Lemma match_function_sound (line : string) (m : fun_match) :
  match_function line = Some m ->
  fm_before m <> "" /\ str_forall is_dot (fm_before m) = true /\
  fm_name m <> "" /\ str_forall is_word (fm_name m) = true /\
  fm_parms m <> "" /\ str_forall is_dot (fm_parms m) = true /\
  fm_after m <> "" /\ str_forall is_dot (fm_after m) = true /\
  exists tail, (tail = "" \/ tail = nl) /\
    line = fm_before m ++ "$" ++ fm_name m ++ "(" ++ fm_parms m ++ ")"
           ++ fm_after m ++ tail.
Proof.
  unfold match_function. intros H.
  apply plus_greedy_sound in H. destruct H as (b & r1 & Hb & Hbd & -> & H).
  apply lit_sound in H. destruct H as (r2 & -> & H).
  apply plus_greedy_sound in H. destruct H as (n & r3 & Hn & Hnw & -> & H).
  apply lit_sound in H. destruct H as (r4 & -> & H).
  apply plus_greedy_sound in H. destruct H as (p & r5 & Hp & Hpd & -> & H).
  apply lit_sound in H. destruct H as (r6 & -> & H).
  apply plus_greedy_sound in H. destruct H as (a & r7 & Ha & Had & -> & H).
  destruct (at_end r7) eqn:E; [|discriminate].
  injection H as <-. simpl.
  repeat split; try assumption.
  exists r7. split; [now apply at_end_sound|].
  reflexivity.
Qed.

(** ** Placeholders at the edge of a line *)

(** A run of word characters that is followed by another character is a
    prefix of whatever else starts the same text and is followed by a
    character that is no word character. *)
Lemma word_prefix (n : string) :
  str_forall is_word n = true ->
  forall (sep : ascii) b x rest,
    is_word sep = false ->
    b ++ String sep x = n ++ rest -> exists b', b = n ++ b'.
Proof.
  induction n as [|c n IH]; simpl; intros Hn sep b x rest Hsep H.
  - now exists b.
  - apply andb_prop in Hn. destruct Hn as [Hc Hn].
    destruct b as [|d b]; simpl in H.
    + injection H as <- _. congruence.
    + injection H as -> H. destruct (IH Hn _ _ _ _ Hsep H) as [b' ->].
      now exists b'.
Qed.

Lemma opening_after_start (n b more rest : string) :
  n <> "" -> str_forall is_word n = true -> b <> "" ->
  b ++ "@@" ++ more = "@@" ++ n ++ rest ->
  exists b', b = "@@" ++ n ++ b'.
Proof.
  intros Hn Hw Hb H.
  destruct n as [|c n]; [congruence|]. clear Hn.
  destruct b as [|c1 b]; [congruence|]. clear Hb.
  simpl in H. injection H as -> H.
  destruct b as [|c2 b]; simpl in H.
  - inversion H; subst. discriminate Hw.
  - injection H as -> H.
    destruct (word_prefix (String c n) Hw "@"%char b ("@" ++ more) rest
                eq_refl H) as [b' ->].
    now exists b'.
Qed.

Lemma expand_line_keeps_start (cfg : Config) (n : string) :
  n <> "" -> str_forall is_word n = true ->
  forall fuel rest out,
    expand_line cfg fuel ("@@" ++ n ++ rest) = Ok out ->
    exists rest', out = "@@" ++ n ++ rest'.
Proof.
  intros Hn Hw. induction fuel as [|fuel IH]; intros rest out H; [discriminate|].
  cbn [expand_line] in H.
  destruct (match_variable ("@@" ++ n ++ rest)) as [m|] eqn:E.
  - destruct (match_variable_sound _ _ E)
      as (Hb & _ & _ & _ & _ & _ & tail & _ & Hline).
    symmetry in Hline.
    destruct (opening_after_start n _ _ _ Hn Hw Hb Hline) as [b' Hb'].
    destruct (dict_get (vm_name m) (vars cfg)) as [[| | |v| | |]|]; try discriminate.
    rewrite Hb' in H.
    replace (("@@" ++ n ++ b') ++ v ++ vm_after m)
      with ("@@" ++ n ++ (b' ++ v ++ vm_after m)) in H
      by (now rewrite !str_app_assoc).
    exact (IH _ _ H).
  - injection H as <-. now exists rest.
Qed.

Lemma closing_before_end (n a front pre tail : string) :
  n <> "" -> str_forall is_word n = true -> a <> "" ->
  (tail = "" \/ tail = nl) ->
  front ++ "@@" ++ a ++ tail = pre ++ n ++ "@@" ->
  tail = "" /\ exists a', a = a' ++ n ++ "@@".
Proof.
  intros Hn Hw Ha Htail H.
  apply (f_equal str_rev) in H.
  rewrite !str_rev_app in H. simpl in H. rewrite !str_app_assoc in H.
  destruct Htail as [->| ->]; simpl in H; [|discriminate].
  split; [reflexivity|].
  assert (Hra : str_rev a <> "") by (intros C; apply Ha; now apply str_rev_eq_nil).
  assert (Hrn : str_rev n <> "") by (intros C; apply Hn; now apply str_rev_eq_nil).
  assert (Hrw : str_forall is_word (str_rev n) = true) by now rewrite str_forall_rev.
  destruct (opening_after_start (str_rev n) (str_rev a) (str_rev front)
              (str_rev pre) Hrn Hrw Hra H) as [x Hx].
  exists (str_rev x).
  rewrite <- (str_rev_involutive a), Hx.
  rewrite !str_rev_app, str_rev_involutive. simpl.
  now rewrite !str_app_assoc.
Qed.

Lemma expand_line_keeps_end (cfg : Config) (n : string) :
  n <> "" -> str_forall is_word n = true ->
  forall fuel pre out,
    expand_line cfg fuel (pre ++ n ++ "@@") = Ok out ->
    exists pre', out = pre' ++ n ++ "@@".
Proof.
  intros Hn Hw. induction fuel as [|fuel IH]; intros pre out H; [discriminate|].
  cbn [expand_line] in H.
  destruct (match_variable (pre ++ n ++ "@@")) as [m|] eqn:E.
  - destruct (match_variable_sound _ _ E)
      as (_ & _ & _ & _ & Ha & _ & tail & Htail & Hline).
    symmetry in Hline.
    replace (vm_before m ++ "@@" ++ vm_name m ++ "@@" ++ vm_after m ++ tail)
      with ((vm_before m ++ "@@" ++ vm_name m) ++ "@@" ++ vm_after m ++ tail)
      in Hline by (now rewrite !str_app_assoc).
    destruct (closing_before_end n _ _ _ _ Hn Hw Ha Htail Hline) as [_ [a' Ha']].
    destruct (dict_get (vm_name m) (vars cfg)) as [[| | |v| | |]|]; try discriminate.
    rewrite Ha' in H.
    replace (vm_before m ++ v ++ a' ++ n ++ "@@")
      with ((vm_before m ++ v ++ a') ++ n ++ "@@") in H
      by (now rewrite !str_app_assoc).
    exact (IH _ _ H).
  - injection H as <-. now exists pre.
Qed.

Lemma split_at_first (x : ascii) (b : string) :
  forall pre u v,
    count_char x b = 0 -> count_char x pre = 0 ->
    b ++ String x u = pre ++ String x v -> b = pre /\ u = v.
Proof.
  induction b as [|c b IH]; intros pre u v Hb Hp H.
  - destruct pre as [|d pre]; simpl in H.
    + injection H as ->. auto.
    + injection H as <- _. simpl in Hp. rewrite Ascii.eqb_refl in Hp. discriminate.
  - simpl in Hb. destruct pre as [|d pre]; simpl in H.
    + injection H as -> _. rewrite Ascii.eqb_refl in Hb. discriminate.
    + injection H as <- H. simpl in Hp.
      destruct (Ascii.eqb c x); [discriminate|]. simpl in Hb, Hp.
      destruct (IH _ _ _ Hb Hp H) as [-> ->]. auto.
Qed.

Lemma after_group_not_tail (a tail tl : string) :
  a <> "" -> str_forall is_dot a = true ->
  (tl = "" \/ tl = nl) -> tl = a ++ tail -> False.
Proof.
  intros Ha Hd [->| ->] H.
  - symmetry in H. apply str_app_eq_nil in H. destruct H. contradiction.
  - destruct a as [|c a]; [contradiction|].
    injection H as <- _. discriminate Hd.
Qed.

Ltac count_in H x :=
  apply (f_equal (count_char x)) in H;
  repeat (rewrite count_char_app in H || simpl in H).

Lemma no_variable_at_start (n rest : string) :
  str_forall is_word n = true -> count_char "@" rest = 0 ->
  match_variable ("@@" ++ n ++ "@@" ++ rest) = None.
Proof.
  intros Hw Hrest.
  destruct (match_variable _) as [m|] eqn:E; [exfalso|reflexivity].
  destruct (match_variable_sound _ _ E)
    as (Hb & _ & _ & Hnw & _ & _ & tail & Htail & Hline).
  pose proof Hline as Hc. count_in Hc "@"%char.
  rewrite (count_char_forall "@" is_word n eq_refl Hw) in Hc.
  rewrite (count_char_forall "@" is_word _ eq_refl Hnw) in Hc.
  assert (Hb0 : count_char "@" (vm_before m) = 0) by lia.
  destruct (vm_before m) as [|c b]; [congruence|].
  simpl in Hline. injection Hline as <- _.
  simpl in Hb0. discriminate.
Qed.

Lemma no_variable_at_end (n pre tl : string) :
  str_forall is_word n = true -> count_char "@" pre = 0 ->
  (tl = "" \/ tl = nl) ->
  match_variable (pre ++ "@@" ++ n ++ "@@" ++ tl) = None.
Proof.
  intros Hw Hpre Htl.
  destruct (match_variable _) as [m|] eqn:E; [exfalso|reflexivity].
  destruct (match_variable_sound _ _ E)
    as (_ & _ & _ & Hnw & Ha & Had & tail & Htail & Hline).
  pose proof Hline as Hc. count_in Hc "@"%char.
  rewrite (count_char_forall "@" is_word n eq_refl Hw) in Hc.
  rewrite (count_char_forall "@" is_word _ eq_refl Hnw) in Hc.
  assert (Htl0 : count_char "@" tl = 0) by (destruct Htl as [->| ->]; reflexivity).
  assert (Hb0 : count_char "@" (vm_before m) = 0) by lia.
  symmetry in Hline.
  destruct (split_at_first "@" _ _ _ _ Hb0 Hpre Hline) as [_ H1].
  simpl in H1. injection H1 as H1.
  destruct (split_at_first "@" _ _ _ _
              (count_char_forall "@" is_word _ eq_refl Hnw)
              (count_char_forall "@" is_word _ eq_refl Hw) H1) as [_ H2].
  simpl in H2. injection H2 as H2.
  symmetry in H2. exact (after_group_not_tail _ _ _ Ha Had Htl H2).
Qed.

Lemma no_function_at_start (n rest : string) :
  str_forall is_word n = true -> count_char "$" rest = 0 ->
  match_function ("$" ++ n ++ "(" ++ rest) = None.
Proof.
  intros Hw Hrest.
  destruct (match_function _) as [m|] eqn:E; [exfalso|reflexivity].
  destruct (match_function_sound _ _ E)
    as (Hb & _ & _ & Hnw & _ & _ & _ & _ & tail & Htail & Hline).
  pose proof Hline as Hc. count_in Hc "$"%char.
  rewrite (count_char_forall "$" is_word n eq_refl Hw) in Hc.
  assert (Hb0 : count_char "$" (fm_before m) = 0) by lia.
  destruct (fm_before m) as [|c b]; [congruence|].
  simpl in Hline. injection Hline as <- _.
  simpl in Hb0. discriminate.
Qed.

Lemma no_function_at_end (n pre parms tl : string) :
  str_forall is_word n = true ->
  count_char "$" pre = 0 -> count_char "$" parms = 0 -> count_char ")" parms = 0 ->
  (tl = "" \/ tl = nl) ->
  match_function (pre ++ "$" ++ n ++ "(" ++ parms ++ ")" ++ tl) = None.
Proof.
  intros Hw Hpre Hparms Hclose Htl.
  destruct (match_function _) as [m|] eqn:E; [exfalso|reflexivity].
  destruct (match_function_sound _ _ E)
    as (_ & _ & _ & Hnw & _ & _ & Ha & Had & tail & Htail & Hline).
  assert (Htl0 : forall x, Ascii.eqb LF x = false -> count_char x tl = 0).
  { intros x Hx. destruct Htl as [->| ->]; [reflexivity|].
    unfold nl. cbn [count_char]. now rewrite Hx. }
  assert (Htail0 : forall x, Ascii.eqb LF x = false -> count_char x tail = 0).
  { intros x Hx. destruct Htail as [->| ->]; [reflexivity|].
    unfold nl. cbn [count_char]. now rewrite Hx. }
  pose proof Hline as Hc. count_in Hc "$"%char.
  rewrite (count_char_forall "$" is_word n eq_refl Hw) in Hc.
  rewrite (count_char_forall "$" is_word _ eq_refl Hnw) in Hc.
  rewrite (Htl0 "$"%char eq_refl), (Htail0 "$"%char eq_refl) in Hc.
  assert (Hb0 : count_char "$" (fm_before m) = 0) by lia.
  symmetry in Hline.
  destruct (split_at_first "$" _ _ _ _ Hb0 Hpre Hline) as [_ H1].
  destruct (split_at_first "(" _ _ _ _
              (count_char_forall "(" is_word _ eq_refl Hnw)
              (count_char_forall "(" is_word _ eq_refl Hw) H1) as [_ H2].
  pose proof H2 as Hc2. count_in Hc2 ")"%char.
  rewrite (Htl0 ")"%char eq_refl), (Htail0 ")"%char eq_refl) in Hc2.
  assert (Hp0 : count_char ")" (fm_parms m) = 0) by lia.
  destruct (split_at_first ")" _ _ _ _ Hp0 Hclose H2) as [_ H3].
  symmetry in H3. exact (after_group_not_tail _ _ _ Ha Had Htl H3).
Qed.

(** ** Which placeholder is matched *)

Lemma strip_prefix_app (p rest : string) : strip_prefix p (p ++ rest) = Some rest.
Proof.
  induction p as [|c p IH]; simpl; [reflexivity|]. now rewrite Ascii.eqb_refl.
Qed.

(** No repetition is followed by a match of the rest of the pattern. *)
Lemma plus_greedy_none {R : Type} (cls : ascii -> bool) (s : string) :
  forall acc (k : string -> string -> option R),
    (forall m rest, m <> "" -> str_forall cls m = true -> s = m ++ rest ->
       k (acc ++ m) rest = None) ->
    plus_greedy cls acc s k = None.
Proof.
  induction s as [|c s IH]; simpl; intros acc k H; [reflexivity|].
  destruct (cls c) eqn:Hc; [|reflexivity].
  rewrite IH.
  - apply H; [discriminate | simpl; now rewrite Hc | reflexivity].
  - intros m rest Hm Hcls ->. rewrite str_app_assoc. simpl.
    apply H; [discriminate | simpl; now rewrite Hc | reflexivity].
Qed.

(** The greedy repetition gives the longest repetition after which the
    rest of the pattern matches. *)
Lemma plus_greedy_longest {R : Type} (cls : ascii -> bool) (m : string) :
  forall acc rest (k : string -> string -> option R) r,
    m <> "" -> str_forall cls m = true ->
    k (acc ++ m) rest = Some r ->
    (forall e rest', e <> "" -> str_forall cls e = true -> rest = e ++ rest' ->
       k (acc ++ m ++ e) rest' = None) ->
    plus_greedy cls acc (m ++ rest) k = Some r.
Proof.
  induction m as [|c m IH]; intros acc rest k r Hm Hcls Hk Hlong; [congruence|].
  simpl in Hcls. apply andb_prop in Hcls. destruct Hcls as [Hc Hcls].
  simpl. rewrite Hc.
  destruct m as [|d m].
  - simpl. rewrite plus_greedy_none; [exact Hk|].
    intros e rest' He Hcl ->. rewrite str_app_assoc.
    now apply Hlong.
  - rewrite (IH (acc ++ String c "") rest k r); try reflexivity.
    + discriminate.
    + exact Hcls.
    + now rewrite str_app_assoc.
    + intros e rest' He Hcl ->. rewrite str_app_assoc. simpl.
      now apply (Hlong e rest').
Qed.

(** With nothing but the line end after the last group, the pattern of
    [_expand_variables] matches the last placeholder of a line. *)
Lemma match_variable_last (b n a tail : string) :
  b <> "" -> str_forall is_dot b = true ->
  n <> "" -> str_forall is_word n = true ->
  a <> "" -> str_forall is_dot a = true -> count_char "@" a = 0 ->
  (tail = "" \/ tail = nl) ->
  match_variable (b ++ "@@" ++ n ++ "@@" ++ a ++ tail) = Some (VarMatch b n a).
Proof.
  intros Hb Hbd Hn Hnw Ha Had Ha0 Htail.
  assert (Hend : at_end tail = true) by (destruct Htail as [->| ->]; reflexivity).
  unfold match_variable.
  apply plus_greedy_longest; try assumption.
  - cbv beta. unfold lit at 1. rewrite (strip_prefix_app "@@").
    apply plus_greedy_longest; try assumption.
    + cbv beta. unfold lit at 1. rewrite (strip_prefix_app "@@").
      apply plus_greedy_longest; try assumption.
      * simpl. now rewrite Hend.
      * intros e rest' He Hed ->. exfalso.
        destruct Htail as [H|H].
        -- apply str_app_eq_nil in H. now destruct H.
        -- destruct e as [|c e]; [congruence|]. simpl in H. injection H as -> _.
           discriminate Hed.
    + intros e rest' He Hew H. exfalso.
      destruct e as [|c e]; [congruence|]. simpl in H. injection H as <- _.
      discriminate Hew.
  - intros e rest' He Hed H. simpl.
    match goal with |- ?x = None => destruct x as [m|] eqn:E end; [exfalso|reflexivity].
    apply lit_sound in E. destruct E as (r2 & -> & E).
    apply plus_greedy_sound in E. destruct E as (n' & r3 & _ & Hn'w & -> & E).
    apply lit_sound in E. destruct E as (r4 & -> & _).
    pose proof H as Hc. count_in Hc "@"%char.
    rewrite (count_char_forall "@" is_word n eq_refl Hnw) in Hc.
    rewrite (count_char_forall "@" is_word n' eq_refl Hn'w) in Hc.
    assert (Ht0 : count_char "@" tail = 0)
      by (destruct Htail as [->| ->]; reflexivity).
    assert (He0 : count_char "@" e = 0) by lia.
    destruct e as [|c e]; [congruence|].
    simpl in H. injection H as <- _. simpl in He0. discriminate.
Qed.

(** With nothing but the line end after the last group, and no other [$]
    or [)] from the call on, the pattern of [_exec_functions] matches the
    last call of a line. *)
Lemma match_function_last (b n p a tail : string) :
  b <> "" -> str_forall is_dot b = true ->
  n <> "" -> str_forall is_word n = true ->
  p <> "" -> str_forall is_dot p = true -> count_char "$" p = 0 ->
  a <> "" -> str_forall is_dot a = true ->
  count_char "$" a = 0 -> count_char ")" a = 0 ->
  (tail = "" \/ tail = nl) ->
  match_function (b ++ "$" ++ n ++ "(" ++ p ++ ")" ++ a ++ tail)
  = Some (FunMatch b n p a).
Proof.
  intros Hb Hbd Hn Hnw Hp Hpd Hp0 Ha Had Ha0 Hac Htail.
  assert (Hend : at_end tail = true) by (destruct Htail as [->| ->]; reflexivity).
  assert (Ht0 : forall x, Ascii.eqb LF x = false -> count_char x tail = 0).
  { intros x Hx. destruct Htail as [->| ->]; [reflexivity|].
    unfold nl. cbn [count_char]. now rewrite Hx. }
  unfold match_function.
  apply plus_greedy_longest; try assumption.
  - cbv beta. unfold lit at 1. rewrite (strip_prefix_app "$").
    apply plus_greedy_longest; try assumption.
    + cbv beta. unfold lit at 1. rewrite (strip_prefix_app "(").
      apply plus_greedy_longest; try assumption.
      * cbv beta. unfold lit at 1. rewrite (strip_prefix_app ")").
        apply plus_greedy_longest; try assumption.
        -- simpl. now rewrite Hend.
        -- intros e rest' He Hed ->. exfalso.
           destruct Htail as [H|H].
           ++ apply str_app_eq_nil in H. now destruct H.
           ++ destruct e as [|c e]; [congruence|]. simpl in H. injection H as -> _.
              discriminate Hed.
      * intros e rest' He Hed H. cbv beta.
        match goal with |- ?x = None => destruct x as [m|] eqn:E end;
          [exfalso|reflexivity].
        apply lit_sound in E. destruct E as (r6 & -> & _).
        pose proof H as Hc. count_in Hc ")"%char.
        rewrite (Ht0 ")"%char eq_refl) in Hc.
        assert (He0 : count_char ")" e = 0) by lia.
        destruct e as [|c e]; [congruence|].
        simpl in H. injection H as <- _. simpl in He0. discriminate.
    + intros e rest' He Hew H. exfalso.
      destruct e as [|c e]; [congruence|]. simpl in H. injection H as <- _.
      discriminate Hew.
  - intros e rest' He Hed H. cbv beta.
    match goal with |- ?x = None => destruct x as [m|] eqn:E end; [exfalso|reflexivity].
    apply lit_sound in E. destruct E as (r2 & -> & _).
    pose proof H as Hc. count_in Hc "$"%char.
    rewrite (count_char_forall "$" is_word n eq_refl Hnw) in Hc.
    rewrite (Ht0 "$"%char eq_refl) in Hc.
    assert (He0 : count_char "$" e = 0) by lia.
    destruct e as [|c e]; [congruence|].
    simpl in H. injection H as <- _. simpl in He0. discriminate.
Qed.

(** ** Lines of a text *)

Lemma readlines_concat (s : string) :
  forall cur, str_concat (readlines cur s) = cur ++ s.
Proof.
  induction s as [|c s IH]; intros cur; simpl.
  - destruct (String.eqb_spec cur "") as [->|_]; simpl; [reflexivity|].
    now rewrite !str_app_nil_r.
  - destruct (Ascii.eqb_spec c LF) as [->|_].
    + simpl. rewrite IH. simpl. now rewrite str_app_assoc.
    + rewrite IH. now rewrite str_app_assoc.
Qed.

Lemma count_char_concat (x : ascii) (ls : list string) :
  count_char x (str_concat ls) = 0 ->
  forall l, In l ls -> count_char x l = 0.
Proof.
  induction ls as [|y ls IH]; simpl; intros H l Hin; [contradiction|].
  rewrite count_char_app in H.
  destruct Hin as [<-|Hin]; [lia | apply IH; [lia | exact Hin]].
Qed.

(** Reading with universal newlines changes carriage returns and line
    feeds only. *)
Lemma universal_newlines_count (x : ascii) :
  Ascii.eqb CR x = false -> Ascii.eqb LF x = false ->
  forall n s, String.length s <= n ->
    count_char x (universal_newlines s) = count_char x s.
Proof.
  intros HCR HLF. induction n as [|n IH]; intros s Hlen.
  - destruct s; [reflexivity | simpl in Hlen; lia].
  - destruct s as [|c rest]; [reflexivity|]. simpl in Hlen.
    cbn [universal_newlines].
    destruct (Ascii.eqb_spec c CR) as [->|Hc].
    + destruct rest as [|d rest'].
      * cbn [count_char]. now rewrite HCR, HLF.
      * simpl in Hlen. destruct (Ascii.eqb_spec d LF) as [->|Hd].
        -- cbn [count_char]. rewrite HCR, HLF, (IH rest'); [reflexivity | lia].
        -- cbn [count_char]. rewrite HCR, HLF, (IH (String d rest')); [|simpl; lia].
           cbn [count_char]. lia.
    + cbn [count_char]. rewrite (IH rest); [reflexivity | lia].
Qed.

(** A line without [@] has no placeholder, a line without [$] no call. *)
Lemma match_variable_needs_at (line : string) :
  count_char "@" line = 0 -> match_variable line = None.
Proof.
  intros H0. destruct (match_variable line) as [m|] eqn:E; [exfalso|reflexivity].
  destruct (match_variable_sound _ _ E) as (_ & _ & _ & _ & _ & _ & tl & _ & Hline).
  count_in Hline "@"%char. lia.
Qed.

Lemma match_function_needs_dollar (line : string) :
  count_char "$" line = 0 -> match_function line = None.
Proof.
  intros H0. destruct (match_function line) as [m|] eqn:E; [exfalso|reflexivity].
  destruct (match_function_sound _ _ E)
    as (_ & _ & _ & _ & _ & _ & _ & _ & tl & _ & Hline).
  count_in Hline "$"%char. lia.
Qed.

(** ** The text of the command line and of the key file *)

Lemma universal_newlines_id (s : string) :
  count_char CR s = 0 -> universal_newlines s = s.
Proof.
  induction s as [|c s IH]; [reflexivity|].
  cbn [count_char universal_newlines].
  destruct (Ascii.eqb_spec c CR) as [->|_]; [discriminate|].
  intros H. now rewrite IH.
Qed.

Lemma readlines_line (a : string) :
  count_char LF a = 0 ->
  forall cur rest,
    readlines cur (a ++ String LF rest) = (cur ++ a ++ nl) :: readlines "" rest.
Proof.
  induction a as [|c a IH]; cbn [count_char]; intros H cur rest.
  - simpl. reflexivity.
  - destruct (Ascii.eqb_spec c LF) as [->|Hc]; [discriminate|].
    simpl. destruct (Ascii.eqb_spec c LF) as [E|_]; [contradiction|].
    rewrite IH by exact H. now rewrite str_app_assoc.
Qed.

Lemma readlines_two (a b : string) :
  count_char LF a = 0 -> count_char LF b = 0 ->
  readlines "" (a ++ nl ++ b ++ nl) = [a ++ nl; b ++ nl].
Proof.
  intros Ha Hb. unfold nl at 1 2.
  change (a ++ String LF "" ++ b ++ String LF "")
    with (a ++ String LF (b ++ String LF "")).
  rewrite (readlines_line a Ha), (readlines_line b Hb). reflexivity.
Qed.

Lemma split_on_piece (sep : ascii) (a : string) :
  count_char sep a = 0 ->
  forall cur rest, split_on sep cur (a ++ rest) = split_on sep (cur ++ a) rest.
Proof.
  induction a as [|c a IH]; cbn [count_char]; intros H cur rest.
  - simpl. now rewrite str_app_nil_r.
  - destruct (Ascii.eqb_spec c sep) as [->|Hc]; [discriminate|].
    simpl. destruct (Ascii.eqb_spec c sep) as [E|_]; [contradiction|].
    rewrite IH by exact H. now rewrite str_app_assoc.
Qed.

Lemma split_on_none (sep : ascii) (a cur : string) :
  count_char sep a = 0 -> split_on sep cur a = [cur ++ a].
Proof.
  intros H. rewrite <- (str_app_nil_r a) at 1.
  now rewrite (split_on_piece sep a H).
Qed.

(** Splitting what was joined gives the pieces back. *)
Lemma split_on_join (sep : ascii) (x : string) (rest : list string) :
  (forall p, In p (x :: rest) -> count_char sep p = 0) ->
  split_on sep "" (str_join (String sep "") (x :: rest)) = x :: rest.
Proof.
  revert x. induction rest as [|y rest IH]; intros x H.
  - simpl. apply split_on_none. apply H. now left.
  - change (str_join (String sep "") (x :: y :: rest))
      with (x ++ String sep "" ++ str_join (String sep "") (y :: rest)).
    rewrite (split_on_piece sep x (H _ (or_introl eq_refl))). simpl.
    rewrite Ascii.eqb_refl. f_equal. apply IH.
    intros p Hp. apply H. now right.
Qed.

Lemma rstrip_nl_line (k : string) :
  count_char LF k = 0 -> rstrip_nl (k ++ nl) = k.
Proof.
  induction k as [|c k IH]; cbn [count_char]; intros H; [reflexivity|].
  destruct (Ascii.eqb_spec c LF) as [->|Hc]; [discriminate|].
  simpl. rewrite (IH H).
  destruct k; [|reflexivity].
  destruct (Ascii.eqb_spec c LF) as [E|_]; [contradiction | reflexivity].
Qed.

Lemma contains_no_char (c : ascii) (p s : string) :
  count_char c s = 0 -> contains (String c p) s = false.
Proof.
  induction s as [|d s IH]; cbn [count_char]; intros H; [reflexivity|].
  destruct (Ascii.eqb_spec d c) as [->|Hd]; [discriminate|].
  simpl. unfold starts_with. simpl.
  destruct (Ascii.eqb_spec c d) as [E|_]; [symmetry in E; contradiction|].
  simpl. apply IH. exact H.
Qed.

Lemma key_field_value (name v : string) :
  count_char "=" name = 0 -> count_char "=" v = 0 -> count_char LF v = 0 ->
  key_field (name ++ "=" ++ v ++ nl) = Ok v.
Proof.
  intros Hn Hv Hl. unfold key_field.
  rewrite (split_on_piece "=" name Hn). simpl.
  rewrite split_on_none.
  - simpl. now rewrite rstrip_nl_line.
  - rewrite count_char_app. simpl. lia.
Qed.

Lemma key_field_no_equals (line : string) :
  count_char "=" line = 0 -> key_field line = Raise IndexError.
Proof. intros H. unfold key_field. now rewrite split_on_none. Qed.

Lemma keys_of_key_iv (k i : string) :
  count_char "=" k = 0 -> count_char LF k = 0 -> count_char "i" k = 0 ->
  count_char "=" i = 0 -> count_char LF i = 0 -> count_char "k" i = 0 ->
  keys_of_lines ["key=" ++ k ++ nl; "iv=" ++ i ++ nl] None None = Ok (Some k, Some i) /\
  keys_of_lines ["iv=" ++ i ++ nl; "key=" ++ k ++ nl] None None = Ok (Some k, Some i).
Proof.
  intros Hk1 Hk2 Hk3 Hi1 Hi2 Hi3.
  assert (K1 : contains "key" ("key=" ++ k ++ nl) = true) by reflexivity.
  assert (K2 : contains "iv" ("key=" ++ k ++ nl) = false).
  { apply contains_no_char. change ("key=" ++ k ++ nl) with ("key=" ++ (k ++ nl)).
    rewrite !count_char_app. simpl. lia. }
  assert (I1 : contains "iv" ("iv=" ++ i ++ nl) = true) by reflexivity.
  assert (I2 : contains "key" ("iv=" ++ i ++ nl) = false).
  { apply contains_no_char. change ("iv=" ++ i ++ nl) with ("iv=" ++ (i ++ nl)).
    rewrite !count_char_app. simpl. lia. }
  pose proof (key_field_value "key" k eq_refl Hk1 Hk2) as Fk.
  pose proof (key_field_value "iv" i eq_refl Hi1 Hi2) as Fi.
  change ("key" ++ "=" ++ k ++ nl) with ("key=" ++ k ++ nl) in Fk.
  change ("iv" ++ "=" ++ i ++ nl) with ("iv=" ++ i ++ nl) in Fi.
  split; cbn [keys_of_lines]; rewrite ?K1, ?K2, ?I1, ?I2, ?Fk, ?Fi; reflexivity.
Qed.

Lemma keys_of_lines_ends (ls : list string) :
  forall key iv,
    (exists r, keys_of_lines ls key iv = Ok r) \/
    keys_of_lines ls key iv = Raise IndexError.
Proof.
  assert (F : forall line, (exists v, key_field line = Ok v)
                           \/ key_field line = Raise IndexError).
  { intros line. unfold key_field.
    destruct (split_on "=" "" line) as [|a [|b l]]; eauto. }
  induction ls as [|line ls IH]; intros key iv; cbn [keys_of_lines]; [eauto|].
  destruct (contains "key" line), (contains "iv" line);
    destruct (F line) as [[v E]|E]; rewrite ?E; simpl; auto.
Qed.

Lemma keys_of_lines_no_equals (line : string) :
  contains "key" line || contains "iv" line = true ->
  count_char "=" line = 0 ->
  forall ls, In line ls ->
    forall key iv, keys_of_lines ls key iv = Raise IndexError.
Proof.
  intros Hc H0. induction ls as [|l ls IH]; intros Hin key iv; [contradiction|].
  cbn [keys_of_lines]. destruct Hin as [E|Hin].
  - subst l. rewrite (key_field_no_equals line H0).
    destruct (contains "key" line); [reflexivity|].
    simpl in Hc. rewrite Hc. reflexivity.
  - assert (F : (exists v, key_field l = Ok v) \/ key_field l = Raise IndexError).
    { unfold key_field. destruct (split_on "=" "" l) as [|a [|b r]]; eauto. }
    destruct (contains "key" l), (contains "iv" l);
      destruct F as [[v E]|E]; rewrite ?E; simpl; auto.
Qed.

Lemma key_file_lines (a b k i : string) :
  count_char LF a = 0 -> count_char CR a = 0 ->
  count_char LF b = 0 -> count_char CR b = 0 ->
  count_char LF k = 0 -> count_char CR k = 0 ->
  count_char LF i = 0 -> count_char CR i = 0 ->
  readlines "" (universal_newlines (a ++ k ++ nl ++ b ++ i ++ nl))
  = [a ++ k ++ nl; b ++ i ++ nl].
Proof.
  intros Ha Ha' Hb Hb' Hk Hk' Hi Hi'.
  rewrite universal_newlines_id
    by (rewrite !count_char_app; simpl; lia).
  replace (a ++ k ++ nl ++ b ++ i ++ nl) with ((a ++ k) ++ nl ++ (b ++ i) ++ nl)
    by (now rewrite !str_app_assoc).
  rewrite readlines_two by (rewrite count_char_app; lia).
  now rewrite !str_app_assoc.
Qed.

(** ** Places of the tree *)







(** C8. A placeholder [@@NAME@@] at the very start of a line, or at its
    very end (nothing after the closing [@@], not even a line feed), is
    never the one [_expand_variables] replaces: both groups around the
    placeholder are [.+], so a match has at least one character before it
    and one character other than a line feed after it. A line whose only
    placeholder sits at an edge comes back unchanged whether or not the
    name is defined; in general the name at the edge stays where it is.
    The pattern of [_exec_functions] has the same two groups, so a call
    [$FUNC(args)] at the start or at the end of a line is not evaluated. *)
Theorem C8_edge_placeholder_left_unreplaced :
  forall (P : Platform) (cfg : Config) (n : string),
    n <> "" -> str_forall is_word n = true ->
    (forall line m, match_variable line = Some m ->
       vm_before m <> "" /\ vm_after m <> "" /\
       str_forall is_dot (vm_after m) = true) /\
    (forall rest fuel, count_char "@" rest = 0 ->
       expand_line cfg (S fuel) ("@@" ++ n ++ "@@" ++ rest)
       = Ok ("@@" ++ n ++ "@@" ++ rest)) /\
    (forall rest fuel out,
       expand_line cfg fuel ("@@" ++ n ++ "@@" ++ rest) = Ok out ->
       exists rest', out = "@@" ++ n ++ rest') /\
    (forall pre fuel, count_char "@" pre = 0 ->
       expand_line cfg (S fuel) (pre ++ "@@" ++ n ++ "@@")
       = Ok (pre ++ "@@" ++ n ++ "@@")) /\
    (forall pre fuel out,
       expand_line cfg fuel (pre ++ "@@" ++ n ++ "@@") = Ok out ->
       exists pre', out = pre' ++ n ++ "@@") /\
    (forall line m, match_function line = Some m ->
       fm_before m <> "" /\ fm_after m <> "" /\
       str_forall is_dot (fm_after m) = true) /\
    (forall rest index s, count_char "$" rest = 0 ->
       exec_line P cfg index ("$" ++ n ++ "(" ++ rest) s = (Ok tt, s)) /\
    (forall pre parms index s,
       count_char "$" pre = 0 -> count_char "$" parms = 0 ->
       count_char ")" parms = 0 ->
       exec_line P cfg index (pre ++ "$" ++ n ++ "(" ++ parms ++ ")") s = (Ok tt, s)).
Proof.
  intros P cfg n Hn Hw. repeat split.
  - now destruct (match_variable_sound _ _ H) as (? & _).
  - now destruct (match_variable_sound _ _ H) as (_ & _ & _ & _ & ? & _).
  - now destruct (match_variable_sound _ _ H) as (_ & _ & _ & _ & _ & ? & _).
  - intros rest fuel Hrest. cbn [expand_line].
    now rewrite (no_variable_at_start n rest Hw Hrest).
  - intros rest fuel out H.
    exact (expand_line_keeps_start cfg n Hn Hw fuel ("@@" ++ rest) out H).
  - intros pre fuel Hpre. cbn [expand_line].
    pose proof (no_variable_at_end n pre "" Hw Hpre (or_introl eq_refl)) as E.
    rewrite str_app_nil_r in E. now rewrite E.
  - intros pre fuel out H.
    replace (pre ++ "@@" ++ n ++ "@@") with ((pre ++ "@@") ++ n ++ "@@") in H
      by (now rewrite !str_app_assoc).
    exact (expand_line_keeps_end cfg n Hn Hw fuel _ out H).
  - now destruct (match_function_sound _ _ H) as (? & _).
  - now destruct (match_function_sound _ _ H) as (_ & _ & _ & _ & _ & _ & ? & _).
  - now destruct (match_function_sound _ _ H) as (_ & _ & _ & _ & _ & _ & _ & ? & _).
  - intros rest index s Hrest. unfold exec_line.
    now rewrite (no_function_at_start n rest Hw Hrest).
  - intros pre parms index s Hpre Hparms Hclose. unfold exec_line.
    pose proof (no_function_at_end n pre parms "" Hw Hpre Hparms Hclose
                  (or_introl eq_refl)) as E.
    rewrite str_app_nil_r in E. now rewrite E.
Qed.

Lemma C8_witness :
  expand_line Demo.config 3 "@@X@@ = 1;" = Ok "@@X@@ = 1;" /\
  expand_line Demo.config 3 "name = @@X@@" = Ok "name = @@X@@" /\
  expand_line Demo.config 3 "name = @@X@@;" = Ok "name = hello;".
Proof.
  destruct (C8_edge_placeholder_left_unreplaced (Demo.platform VNone) Demo.config "X"
              ltac:(discriminate) eq_refl)
    as (_ & Hstart & _ & Hend & _).
  split; [exact (Hstart " = 1;" 2 eq_refl)|].
  split; [exact (Hend "name = " 2 eq_refl) | reflexivity].
Defined.

(** ** One entry of the manifest *)

Arguments Artifact_init : simpl never.
Arguments Artifact_exists : simpl never.
Arguments Artifact_get_sha256 : simpl never.
Arguments path_join : simpl never.
Arguments dict_get : simpl never.
Arguments dict_set : simpl never.
Arguments dict_has : simpl never.
Arguments str_eq_value : simpl never.
Arguments truthy : simpl never.
Arguments String.append : simpl never.
Arguments String.eqb : simpl never.

Ltac run_monad :=
  unfold bind, get, modify, ret, sys_exit, raise, lift, logging; simpl.

Lemma dict_has_get (k : string) (d : dict) (v : value) :
  dict_get k d = Some v -> dict_has k d = true.
Proof. unfold dict_has. now intros ->. Qed.

Lemma falsy_not_algorithm (v : value) :
  truthy v = false ->
  match v with
  | VStr alg => String.eqb alg "zlib" || String.eqb alg "zstd" = false
  | _ => True
  end.
Proof.
  destruct v; try exact (fun _ => I).
  unfold truthy. intros H. apply negb_false_iff, String.eqb_eq in H. now subst.
Qed.

(** A first-seen entry whose source exists and whose [compressed] value is
    false in Python ends the run with status 1. *)
Lemma process_entry_wrong_compression (P : Platform) (cfg : Config) (s : State)
    (entry : dict) (f : string) (v : value) :
  dict_get "filename" entry = Some (VStr f) ->
  registered f s = None ->
  Artifact_exists (fs s) (Artifact_init (fs s) f (artifactory cfg)) = true ->
  dict_get "compressed" entry = Some v ->
  truthy v = false ->
  nocompress cfg = false ->
  process_entry P cfg entry s
  = (Exit 1, emit (Log CRITICAL "Wrong compression algorithm: %s" [v])
               (new_artifact_logged f s)).
Proof.
  unfold registered. intros Hf Hnew Hex Hc Hv Hn.
  unfold process_entry. rewrite Hf. run_monad. rewrite Hnew. run_monad.
  rewrite Hex. run_monad.
  unfold compress_entry. rewrite (dict_has_get _ _ _ Hc), Hc, Hn, Hv. simpl.
  pose proof (falsy_not_algorithm v Hv) as Halg.
  destruct v; try reflexivity.
  rewrite Halg. reflexivity.
Qed.

(** C9. A first-seen entry (its source found) whose [compressed] key holds a
    value that is false in Python, such as [false] or the empty string,
    with the no-compress override unset: [process_entry] logs the wrong
    compression algorithm and exits with status 1. Compression is not
    skipped: no command is run, no file is written and the artifact is not
    registered. *)
Theorem C9_falsy_compressed_is_fatal :
  forall (P : Platform) (cfg : Config) (s : State) (entry : dict)
         (f : string) (v : value),
    dict_get "filename" entry = Some (VStr f) ->
    registered f s = None ->
    Artifact_exists (fs s) (Artifact_init (fs s) f (artifactory cfg)) = true ->
    dict_get "compressed" entry = Some v ->
    truthy v = false ->
    nocompress cfg = false ->
    exists s',
      process_entry P cfg entry s = (Exit 1, s') /\
      trace s' = (Log CRITICAL "Wrong compression algorithm: %s" [v]
                  :: Log DEBUG "New artifact  %s" [VStr f] :: trace s) /\
      external_calls (trace s') = external_calls (trace s) /\
      artifacts s' = artifacts s /\
      fs s' = fs s.
Proof.
  intros P cfg s entry f v Hf Hnew Hex Hc Hv Hn.
  eexists. split.
  - exact (process_entry_wrong_compression P cfg s entry f v Hf Hnew Hex Hc Hv Hn).
  - repeat split.
Qed.

Lemma C9_witness :
  exists s',
    process_entry (Demo.platform VNone) Demo.config
      [("filename", VStr "a"); ("compressed", VBool false)]
      (Demo.state [] None (Demo.files [("/work/a", "PLAIN")])) = (Exit 1, s') /\
    trace s' = [Log CRITICAL "Wrong compression algorithm: %s" [VBool false];
                Log DEBUG "New artifact  %s" [VStr "a"]].
Proof.
  destruct (C9_falsy_compressed_is_fatal (Demo.platform VNone) Demo.config
              (Demo.state [] None (Demo.files [("/work/a", "PLAIN")]))
              [("filename", VStr "a"); ("compressed", VBool false)]
              "a" (VBool false) eq_refl eq_refl eq_refl eq_refl eq_refl eq_refl)
    as (s' & H & Ht & _).
  exists s'. split; [exact H | exact Ht].
Defined.

Lemma dict_get_set_same (k : string) (v : value) (d : dict) :
  dict_get k (dict_set k v d) = Some v.
Proof.
  unfold dict_get, dict_set.
  induction d as [|[k' v'] d IH]; simpl.
  - now rewrite String.eqb_refl.
  - destruct (String.eqb k k') eqn:E; simpl; rewrite E; [reflexivity | exact IH].
Qed.

Lemma dict_get_set_other (k k' : string) (v : value) (d : dict) :
  String.eqb k k' = false -> dict_get k (dict_set k' v d) = dict_get k d.
Proof.
  intros Hk. unfold dict_get, dict_set.
  induction d as [|[k0 v0] d IH]; simpl.
  - now rewrite Hk.
  - destruct (String.eqb k' k0) eqn:E; simpl.
    + apply String.eqb_eq in E. subst k0. now rewrite Hk.
    + now rewrite IH.
Qed.

Lemma dict_has_set_other (k k' : string) (v : value) (d : dict) :
  String.eqb k k' = false -> dict_has k (dict_set k' v d) = dict_has k d.
Proof. intros Hk. unfold dict_has. now rewrite dict_get_set_other. Qed.

Lemma source_not_found (files : FS) (f : string) (dirs : list string) :
  (forall d, In d dirs -> fs_exists files (pathlib_join d f) = false) ->
  _get_artifact_source_path files f dirs = None.
Proof.
  induction dirs as [|d dirs IH]; simpl; intros H; [reflexivity|].
  rewrite (H d (or_introl eq_refl)). apply IH. intros d' Hd'. apply H. now right.
Qed.

Lemma process_entry_not_found (P : Platform) (cfg : Config) (s : State)
    (entry : dict) (f : string) :
  dict_get "filename" entry = Some (VStr f) ->
  registered f s = None ->
  _get_artifact_source_path (fs s) f (artifactory cfg) = None ->
  process_entry P cfg entry s
  = (Exit 22, emit (Log CRITICAL "Artifact %s not found" [VStr f])
                (new_artifact_logged f s)).
Proof.
  unfold registered. intros Hf Hnew Hsrc.
  unfold process_entry. rewrite Hf. run_monad. rewrite Hnew. run_monad.
  unfold Artifact_exists, Artifact_init. simpl. rewrite Hsrc. reflexivity.
Qed.

(** C7, as the code has it. An entry whose file name is a string that is
    not yet in the registry and that is found in none of the search
    directories ends the run with status 22, after the critical message;
    nothing is registered or written. The status differs from the status 1
    of a wrong compression algorithm. (The registry is looked at first: a
    name already in it never reaches the search.) *)
Theorem C7_unregistered_missing_artifact_exits_22 :
  forall (P : Platform) (cfg : Config) (s : State) (entry : dict) (f : string),
    dict_get "filename" entry = Some (VStr f) ->
    registered f s = None ->
    (forall d, In d (artifactory cfg) -> fs_exists (fs s) (pathlib_join d f) = false) ->
    (exists s',
       process_entry P cfg entry s = (Exit 22, s') /\
       trace s' = (Log CRITICAL "Artifact %s not found" [VStr f]
                   :: Log DEBUG "New artifact  %s" [VStr f] :: trace s) /\
       artifacts s' = artifacts s /\ fs s' = fs s) /\
    (forall (s2 : State) (entry2 : dict) (f2 : string) (v : value),
       dict_get "filename" entry2 = Some (VStr f2) ->
       registered f2 s2 = None ->
       Artifact_exists (fs s2) (Artifact_init (fs s2) f2 (artifactory cfg)) = true ->
       dict_get "compressed" entry2 = Some v ->
       truthy v = false ->
       nocompress cfg = false ->
       fst (process_entry P cfg entry2 s2) = Exit 1 /\
       fst (process_entry P cfg entry2 s2) <> fst (process_entry P cfg entry s)).
Proof.
  intros P cfg s entry f Hf Hnew Hdirs.
  pose proof (process_entry_not_found P cfg s entry f Hf Hnew
                (source_not_found _ _ _ Hdirs)) as H22.
  split.
  - eexists. split; [exact H22 | repeat split].
  - intros s2 entry2 f2 v Hf2 Hnew2 Hex2 Hc Hv Hn.
    rewrite (process_entry_wrong_compression P cfg s2 entry2 f2 v Hf2 Hnew2 Hex2 Hc Hv Hn).
    rewrite H22. simpl. split; [reflexivity | discriminate].
Qed.

Lemma C7_witness :
  exists s',
    process_entry (Demo.platform VNone) Demo.config [("filename", VStr "missing.bin")]
      (Demo.state [] None (Demo.files [("/work/a", "PLAIN")])) = (Exit 22, s') /\
    trace s' = [Log CRITICAL "Artifact %s not found" [VStr "missing.bin"];
                Log DEBUG "New artifact  %s" [VStr "missing.bin"]].
Proof.
  destruct (C7_unregistered_missing_artifact_exits_22 (Demo.platform VNone) Demo.config
              (Demo.state [] None (Demo.files [("/work/a", "PLAIN")]))
              [("filename", VStr "missing.bin")] "missing.bin" eq_refl eq_refl)
    as [(s' & H & Ht & _) _].
  - intros d [<-|[]]. reflexivity.
  - exists s'. split; [exact H | exact Ht].
Defined.

(** C7 as stated fails: [process] puts the artifact of the manifest itself
    in the registry before any entry is processed. With no file named
    [sw-description] in any search directory, an entry of that name is
    taken for the registered artifact: the run does not exit with status
    22, and the entry gets the path in the temporary directory and no
    digest. *)
Lemma C7_counterexample :
  _get_artifact_source_path (Demo.files []) "sw-description" (artifactory Demo.config)
  = None /\
  fst (process_entry (Demo.platform VNone) Demo.config
         [("filename", VStr "sw-description")]
         (Demo.state [sw_artifact Demo.config (Demo.files [])] None (Demo.files [])))
  = Ok [("filename", VStr "/tmp/swu/sw-description"); ("sha256", VNone)] /\
  fst (process_entry (Demo.platform VNone) Demo.config
         [("filename", VStr "sw-description")]
         (Demo.state [sw_artifact Demo.config (Demo.files [])] None (Demo.files [])))
  <> Exit 22.
Proof.
  split; [reflexivity|]. split; [reflexivity|]. vm_compute. discriminate.
Qed.

(** ** The attribute [fullfilename] *)

Lemma add_artifacts_unset (P : Platform) (l : list Artifact) (a : Artifact) :
  In a l -> fullfilename a = None ->
  forall s, fst (add_artifacts P l s) <> Ok tt.
Proof.
  induction l as [|x l IH]; intros Hin Hnone s; [contradiction|].
  cbn [add_artifacts].
  destruct Hin as [->|Hin].
  - rewrite Hnone. discriminate.
  - destruct (fullfilename x) as [full|]; [|discriminate].
    run_monad.
    destruct (addartifacttoswu P (fs s) full) as [[]| | |]; simpl;
      try discriminate.
    now apply IH.
Qed.

Lemma add_artifacts_head_unset (P : Platform) (a : Artifact) (l : list Artifact)
    (s : State) :
  fullfilename a = None ->
  add_artifacts P (a :: l) s = (Raise (AttributeError "Artifact" "fullfilename"), s).
Proof. intros H. cbn [add_artifacts]. now rewrite H. Qed.

Lemma process_entry_compress_raises (P : Platform) (cfg : Config) (s : State)
    (entry : dict) (f : string) (v : value) :
  dict_get "filename" entry = Some (VStr f) ->
  registered f s = None ->
  Artifact_exists (fs s) (Artifact_init (fs s) f (artifactory cfg)) = true ->
  dict_get "compressed" entry = Some v ->
  truthy v = true ->
  nocompress cfg = false ->
  process_entry P cfg entry s
  = (Raise (AttributeError "Artifact" "fullfilename"), new_artifact_logged f s).
Proof.
  unfold registered. intros Hf Hnew Hex Hc Hv Hn.
  unfold process_entry. rewrite Hf. run_monad. rewrite Hnew. run_monad.
  rewrite Hex. run_monad.
  unfold compress_entry. rewrite (dict_has_get _ _ _ Hc), Hc, Hn, Hv. simpl.
  reflexivity.
Qed.

Lemma process_entry_plain (P : Platform) (cfg : Config) (s : State)
    (entry : dict) (f p content : string) :
  dict_get "filename" entry = Some (VStr f) ->
  registered f s = None ->
  _get_artifact_source_path (fs s) f (artifactory cfg) = Some p ->
  fs s p = Some (File content) ->
  dict_has "compressed" entry && negb (nocompress cfg) = false ->
  dict_has "encrypted" entry = false ->
  process_entry P cfg entry s
  = (Ok (dict_set "sha256" (VStr (sha256_hex P content))
           (dict_set "filename" (VStr f) entry)),
     set_artifacts (artifacts s ++ [Artifact_init (fs s) f (artifactory cfg)])%list
       (new_artifact_logged f s)).
Proof.
  unfold registered. intros Hf Hnew Hsrc Hfile Hnc Hne.
  unfold process_entry. rewrite Hf. run_monad. rewrite Hnew. run_monad.
  unfold Artifact_exists, Artifact_init. simpl. rewrite Hsrc.
  unfold fs_exists. rewrite Hfile. simpl.
  unfold compress_entry. rewrite Hnc. run_monad.
  unfold encrypt_entry. rewrite Hne. run_monad.
  unfold update_entry. run_monad.
  unfold Artifact_get_sha256, Artifact_exists, fs_exists. simpl.
  rewrite Hfile. simpl.
  rewrite !dict_has_set_other by reflexivity. rewrite Hne. reflexivity.
Qed.

(** C10. [Artifact.__init__] assigns [filename], [source_path],
    [archived_filename] and [size] and leaves [fullfilename] unassigned,
    for an artifact of an entry and for the artifact of the manifest alike.
    For a first-seen entry whose source exists: when the entry is to be
    compressed, building the command reads the missing attribute and
    [process_entry] ends with [AttributeError] before any command is run;
    when the entry is neither compressed nor encrypted, the artifact is
    registered without [fullfilename], and from then on the packaging loop
    of [process] cannot complete: it reads the attribute of that
    artifact. *)
Theorem C10_fullfilename_is_never_initialised :
  forall (P : Platform) (cfg : Config) (s : State) (entry : dict) (f : string),
    dict_get "filename" entry = Some (VStr f) ->
    registered f s = None ->
    Artifact_exists (fs s) (Artifact_init (fs s) f (artifactory cfg)) = true ->
    fullfilename (Artifact_init (fs s) f (artifactory cfg)) = None /\
    fullfilename (sw_artifact cfg (fs s)) = None /\
    (forall v, dict_get "compressed" entry = Some v -> truthy v = true ->
       nocompress cfg = false ->
       process_entry P cfg entry s
       = (Raise (AttributeError "Artifact" "fullfilename"),
          emit (Log DEBUG "New artifact  %s" [VStr f]) s)) /\
    (dict_has "compressed" entry && negb (nocompress cfg) = false ->
     dict_has "encrypted" entry = false ->
     forall p content,
       source_path (Artifact_init (fs s) f (artifactory cfg)) = Some p ->
       fs s p = Some (File content) ->
       exists entry' s' a,
         process_entry P cfg entry s = (Ok entry', s') /\
         artifacts s' = (artifacts s ++ [a])%list /\
         filename a = f /\ fullfilename a = None /\
         (forall l s'', add_artifacts P (a :: l) s''
                        = (Raise (AttributeError "Artifact" "fullfilename"), s'')) /\
         (forall s'', fst (add_artifacts P (artifacts s') s'') <> Ok tt)).
Proof.
  intros P cfg s entry f Hf Hnew Hex.
  split; [reflexivity|]. split; [reflexivity|]. split.
  - intros v Hc Hv Hn.
    exact (process_entry_compress_raises P cfg s entry f v Hf Hnew Hex Hc Hv Hn).
  - intros Hnc Hne p content Hsrc Hfile.
    exists (dict_set "sha256" (VStr (sha256_hex P content))
              (dict_set "filename" (VStr f) entry)).
    eexists. exists (Artifact_init (fs s) f (artifactory cfg)).
    split; [exact (process_entry_plain P cfg s entry f p content Hf Hnew Hsrc Hfile Hnc Hne)|].
    split; [reflexivity|]. split; [reflexivity|]. split; [reflexivity|]. split.
    + intros l s''. now apply add_artifacts_head_unset.
    + intros s''. apply add_artifacts_unset with (a := Artifact_init (fs s) f (artifactory cfg)).
      * simpl. apply in_or_app. right. now left.
      * reflexivity.
Qed.

Lemma C10_witness :
  fullfilename (Artifact_init (Demo.files [("/work/a", "PLAIN")]) "a" ["/work"]) = None /\
  process_entry (Demo.platform VNone) Demo.config
    [("filename", VStr "a"); ("compressed", VBool true)]
    (Demo.state [] None (Demo.files [("/work/a", "PLAIN")]))
  = (Raise (AttributeError "Artifact" "fullfilename"),
     emit (Log DEBUG "New artifact  %s" [VStr "a"])
       (Demo.state [] None (Demo.files [("/work/a", "PLAIN")]))).
Proof.
  destruct (C10_fullfilename_is_never_initialised (Demo.platform VNone) Demo.config
              (Demo.state [] None (Demo.files [("/work/a", "PLAIN")]))
              [("filename", VStr "a"); ("compressed", VBool true)] "a"
              eq_refl eq_refl eq_refl)
    as (H0 & _ & Hc & _).
  split; [exact H0|].
  exact (Hc (VBool true) eq_refl eq_refl eq_refl).
Defined.

(** ** Compression *)

(** C2, what the code does. Line 86 replaces every value of [compressed]
    that is true in Python by ["zlib"], not only the boolean: the name
    ["zstd"], or any other non-empty text, is taken for zlib. For a
    first-seen entry whose source exists, the test of line 88 therefore
    rejects no true value: a name outside (zlib, zstd) gives no critical
    message and no exit with status 1, and the run ends where it ends for
    ["zlib"], with the [AttributeError] of line 104 and the debug line as
    the only thing logged; no command is run. On every artifact and in
    every state the compression step of an entry with a true value is the
    step of the same entry with the value ["zlib"]: the branch that builds
    the zstd command is never taken. *)
Theorem C2_every_true_value_is_taken_for_zlib :
  forall (P : Platform) (cfg : Config) (s : State) (entry : dict) (f : string)
         (v : value),
    dict_get "filename" entry = Some (VStr f) ->
    registered f s = None ->
    Artifact_exists (fs s) (Artifact_init (fs s) f (artifactory cfg)) = true ->
    dict_get "compressed" entry = Some v ->
    truthy v = true ->
    nocompress cfg = false ->
    process_entry P cfg entry s
    = (Raise (AttributeError "Artifact" "fullfilename"), new_artifact_logged f s) /\
    process_entry P cfg entry s
    = process_entry P cfg (dict_set "compressed" (VStr "zlib") entry) s /\
    (forall (fname : value) (new : Artifact) (st : State),
       compress_entry P cfg entry fname new st
       = compress_entry P cfg (dict_set "compressed" (VStr "zlib") entry) fname new st).
Proof.
  intros P cfg s entry f v Hf Hnew Hex Hc Hv Hn.
  pose proof (process_entry_compress_raises P cfg s entry f v Hf Hnew Hex Hc Hv Hn)
    as Hrun.
  split; [exact Hrun|]. split.
  - rewrite Hrun. symmetry.
    apply (process_entry_compress_raises P cfg s _ f (VStr "zlib")); auto.
    + rewrite dict_get_set_other by reflexivity. exact Hf.
    + apply dict_get_set_same.
  - intros fname new st. unfold compress_entry.
    rewrite (dict_has_get _ _ _ Hc), Hc, Hv.
    rewrite (dict_has_get _ _ _ (dict_get_set_same "compressed" (VStr "zlib") entry)).
    rewrite dict_get_set_same. reflexivity.
Qed.

Lemma C2_witness :
  process_entry (Demo.platform VNone) Demo.config
    [("filename", VStr "a"); ("compressed", VStr "lzma")]
    (Demo.state [] None (Demo.files [("/work/a", "PLAIN")]))
  = (Raise (AttributeError "Artifact" "fullfilename"),
     emit (Log DEBUG "New artifact  %s" [VStr "a"])
       (Demo.state [] None (Demo.files [("/work/a", "PLAIN")]))) /\
  process_entry (Demo.platform VNone) Demo.config
    [("filename", VStr "a"); ("compressed", VStr "zstd")]
    (Demo.state [] None (Demo.files [("/work/a", "PLAIN")]))
  = process_entry (Demo.platform VNone) Demo.config
      [("filename", VStr "a"); ("compressed", VStr "zlib")]
      (Demo.state [] None (Demo.files [("/work/a", "PLAIN")])).
Proof.
  split.
  - exact (proj1 (C2_every_true_value_is_taken_for_zlib (Demo.platform VNone)
                    Demo.config
                    (Demo.state [] None (Demo.files [("/work/a", "PLAIN")]))
                    [("filename", VStr "a"); ("compressed", VStr "lzma")] "a"
                    (VStr "lzma") eq_refl eq_refl eq_refl eq_refl eq_refl eq_refl)).
  - exact (proj1 (proj2 (C2_every_true_value_is_taken_for_zlib (Demo.platform VNone)
                           Demo.config
                           (Demo.state [] None (Demo.files [("/work/a", "PLAIN")]))
                           [("filename", VStr "a"); ("compressed", VStr "zstd")] "a"
                           (VStr "zstd") eq_refl eq_refl eq_refl eq_refl eq_refl
                           eq_refl))).
Defined.

(** ** Encryption *)

Lemma update_entry_state (P : Platform) (entry : dict) (a : Artifact) (s : State) :
  snd (update_entry P entry a s) = s.
Proof.
  unfold update_entry. run_monad.
  destruct (Artifact_get_sha256 (sha256_hex P) (fs s) a); simpl; try reflexivity.
  destruct (dict_has _ _); [|reflexivity].
  destruct (ivt a); reflexivity.
Qed.

Lemma pair_fst_snd {A B : Type} (x : A * B) : x = (fst x, snd x).
Proof. now destruct x. Qed.

(** C3, what the code does. For a first-seen entry to encrypt with no key
    configured ([None] or the empty string), the critical message is
    logged and the run goes on: the IV is chosen and [Artifact.encrypt] is
    called. With a key and an IV that are strings the cipher is run; with
    [None] for either, [subprocess.run] raises [TypeError]. *)
Theorem C3_missing_key_is_logged_and_encrypt_is_called :
  forall (P : Platform) (cfg : Config) (s : State) (entry : dict) (f p : string),
    dict_get "filename" entry = Some (VStr f) ->
    registered f s = None ->
    _get_artifact_source_path (fs s) f (artifactory cfg) = Some p ->
    fs_exists (fs s) p = true ->
    dict_has "compressed" entry && negb (nocompress cfg) = false ->
    dict_has "encrypted" entry = true ->
    noencrypt cfg = false ->
    no_key (aeskey s) = true ->
    exists r s',
      process_entry P cfg entry s = (r, s') /\
      In (Log CRITICAL "%s must be encrypted, but no encryption key is given" [VStr f])
         (trace s') /\
      match aeskey s, entry_iv P cfg s with
      | Some k, Some iv =>
          In (Run (openssl_enc (resolve P (fs s) p)
                     (path_join (temp cfg) (f ++ "." ++ "enc")) k iv))
             (trace s')
      | _, _ => r = Raise (TypeError none_in_argv)
      end.
Proof.
  unfold registered, entry_iv. intros P cfg s entry f p Hf Hnew Hsrc Hfile Hnc He Hne Hk.
  unfold process_entry. rewrite Hf. run_monad. rewrite Hnew. run_monad.
  unfold Artifact_exists, Artifact_init. simpl. rewrite Hsrc, Hfile. simpl.
  unfold compress_entry. rewrite Hnc. run_monad.
  unfold encrypt_entry. rewrite He, Hne. run_monad. rewrite Hk. simpl.
  unfold Artifact_encrypt, run. simpl.
  destruct (noivt cfg); simpl;
    destruct (aeskey s) as [k|]; simpl;
    try destruct (aesiv s) as [i|]; simpl;
    try (do 2 eexists; split; [reflexivity|]; simpl; auto; fail).
  all: unfold bind; simpl;
    match goal with
    | |- context [run_argv ?Q ?x ?y] => destruct (run_argv Q x y) as [[code|c|e|] fs']
    end; simpl;
    try destruct (Z.eqb code 0); simpl;
    match goal with
    | |- context [update_entry ?Q ?e ?a ?st] =>
        rewrite (pair_fst_snd (update_entry Q e a st)), update_entry_state
    | _ => idtac
    end;
    do 2 eexists; (split; [reflexivity|]); simpl; unfold openssl_enc; auto 10.
Qed.

Lemma C3_witness :
  exists s',
    process_entry (Demo.platform VNone) Demo.config
      [("filename", VStr "a"); ("encrypted", VBool true)]
      (Demo.state [] None (Demo.files [("/work/a", "PLAIN")]))
    = (Raise (TypeError none_in_argv), s') /\
    In (Log CRITICAL "%s must be encrypted, but no encryption key is given" [VStr "a"])
       (trace s').
Proof.
  destruct (C3_missing_key_is_logged_and_encrypt_is_called (Demo.platform VNone)
              Demo.config (Demo.state [] None (Demo.files [("/work/a", "PLAIN")]))
              [("filename", VStr "a"); ("encrypted", VBool true)] "a" "/work/a"
              eq_refl eq_refl eq_refl eq_refl eq_refl eq_refl eq_refl eq_refl)
    as (r & s' & H & Hlog & Hr).
  simpl in Hr. subst r. exists s'. split; [exact H | exact Hlog].
Defined.

(** C1, what the code does. For a first-seen entry that is encrypted (the
    cipher exits with status 0 and leaves its input file as it was), the
    artifact is registered with [fullfilename] the encrypted file in the
    temporary directory, and the entry gets the archived name with the
    suffix [.enc]; but [sha256] is [get_sha256()], which reads
    [source_path]: it is the digest of the bytes of the source file, not of
    the bytes written by the cipher. *)
Theorem C1_sha256_is_of_the_source_file :
  forall (P : Platform) (cfg : Config) (s : State) (entry : dict)
         (f p content k iv : string) (fs' : FS),
    dict_get "filename" entry = Some (VStr f) ->
    registered f s = None ->
    _get_artifact_source_path (fs s) f (artifactory cfg) = Some p ->
    fs s p = Some (File content) ->
    dict_has "compressed" entry && negb (nocompress cfg) = false ->
    dict_has "encrypted" entry = true ->
    noencrypt cfg = false ->
    aeskey s = Some k ->
    entry_iv P cfg s = Some iv ->
    run_argv P (fs s)
      (openssl_enc (resolve P (fs s) p) (path_join (temp cfg) (f ++ "." ++ "enc")) k iv)
    = (Ok 0%Z, fs') ->
    fs' p = Some (File content) ->
    exists entry' s' a,
      process_entry P cfg entry s = (Ok entry', s') /\
      dict_get "sha256" entry' = Some (VStr (sha256_hex P content)) /\
      dict_get "filename" entry' = Some (VStr (f ++ "." ++ "enc")) /\
      dict_get "ivt" entry' = Some (VStr iv) /\
      fs s' = fs' /\
      artifacts s' = (artifacts s ++ [a])%list /\
      source_path a = Some p /\
      fullfilename a = Some (path_join (temp cfg) (f ++ "." ++ "enc")).
Proof.
  unfold registered, entry_iv, openssl_enc.
  intros P cfg s entry f p content k iv fs' Hf Hnew Hsrc Hfile Hnc He Hne Hk Hiv Hrun Hkeep.
  unfold process_entry. rewrite Hf. run_monad. rewrite Hnew. run_monad.
  unfold Artifact_exists, Artifact_init. simpl. rewrite Hsrc.
  unfold fs_exists. rewrite Hfile. simpl.
  unfold compress_entry. rewrite Hnc. run_monad.
  unfold encrypt_entry. rewrite He, Hne. run_monad. rewrite Hk.
  unfold Artifact_encrypt, run, generate_iv.
  destruct (noivt cfg); [rewrite Hiv | injection Hiv as Hiv];
    destruct (no_key (Some k)); simpl; unfold bind; simpl;
    rewrite ?Hiv, Hrun; simpl;
    unfold update_entry, Artifact_get_sha256, Artifact_exists, fs_exists;
    run_monad; rewrite Hkeep; simpl;
    rewrite !dict_has_set_other by reflexivity; rewrite He;
    do 3 eexists; (split; [reflexivity|]);
    rewrite ?dict_get_set_same;
    rewrite ?(dict_get_set_other "sha256" "ivt") by reflexivity;
    rewrite ?(dict_get_set_other "filename" "ivt") by reflexivity;
    rewrite ?(dict_get_set_other "filename" "sha256") by reflexivity;
    rewrite ?dict_get_set_same;
    repeat split.
Qed.

Lemma C1_witness :
  exists entry' s',
    process_entry (Demo.platform VNone) Demo.config
      [("filename", VStr "a"); ("encrypted", VBool true)]
      (Demo.state [] (Some "00ff") (Demo.files [("/work/a", "PLAIN")]))
    = (Ok entry', s') /\
    dict_get "sha256" entry' = Some (VStr (Demo.digest "PLAIN")) /\
    dict_get "filename" entry' = Some (VStr "a.enc") /\
    fs s' "/tmp/swu/a.enc" = Some (File "aes<00ff,iv0,PLAIN>").
Proof.
  destruct (C1_sha256_is_of_the_source_file (Demo.platform VNone) Demo.config
              (Demo.state [] (Some "00ff") (Demo.files [("/work/a", "PLAIN")]))
              [("filename", VStr "a"); ("encrypted", VBool true)]
              "a" "/work/a" "PLAIN" "00ff" "iv0"
              (fs_write "/tmp/swu/a.enc" "aes<00ff,iv0,PLAIN>"
                 (Demo.files [("/work/a", "PLAIN")]))
              eq_refl eq_refl eq_refl eq_refl eq_refl eq_refl eq_refl eq_refl eq_refl
              eq_refl eq_refl)
    as (entry' & s' & a & H & Hsha & Hname & _ & Hfs & _).
  exists entry', s'. split; [exact H|]. split; [exact Hsha|]. split; [exact Hname|].
  rewrite Hfs. reflexivity.
Defined.

Lemma copyfile_never_exits (src dst : string) (s : State) (c : Z) :
  fst (copyfile src dst s) <> Exit c.
Proof.
  unfold copyfile, read_file. run_monad.
  destruct (fs s src) as [[content|sz]|]; simpl; discriminate.
Qed.

(** C6, what the code does. When the cipher exits with a status other than
    0, [Artifact.encrypt] logs and returns false. [process_entry] then
    exits with status 1 (line 145). [process] does not look at the value
    (line 226): it goes on to copy the output file of the cipher over the
    manifest, and what the copy gives is what the step gives; it never
    exits. *)
Theorem C6_manifest_encryption_failure_is_not_fatal :
  forall (P : Platform) (s : State) (sw : Artifact) (sw_index : nat)
         (swdesc_filename src k iv : string) (code : Z) (fs' : FS),
    source_path sw = Some src ->
    aeskey s = Some k ->
    aesiv s = Some iv ->
    run_argv P (fs s)
      (openssl_enc (resolve P (fs s) src) (swdesc_filename ++ ".enc") k iv)
    = (Ok code, fs') ->
    code <> 0%Z ->
    (exists s1,
       encrypt_swdescription P sw sw_index swdesc_filename s
       = copyfile (swdesc_filename ++ ".enc") swdesc_filename s1 /\
       fs s1 = fs' /\
       In (Log CRITICAL "Unable to encrypt %s" [VStr (resolve P (fs s) src)])
          (trace s1)) /\
    (forall c, fst (encrypt_swdescription P sw sw_index swdesc_filename s) <> Exit c) /\
    (forall (cfg : Config) (entry : dict) (f p iv2 : string) (code2 : Z) (fs2 : FS),
       dict_get "filename" entry = Some (VStr f) ->
       registered f s = None ->
       _get_artifact_source_path (fs s) f (artifactory cfg) = Some p ->
       fs_exists (fs s) p = true ->
       dict_has "compressed" entry && negb (nocompress cfg) = false ->
       dict_has "encrypted" entry = true ->
       noencrypt cfg = false ->
       entry_iv P cfg s = Some iv2 ->
       run_argv P (fs s)
         (openssl_enc (resolve P (fs s) p) (path_join (temp cfg) (f ++ "." ++ "enc"))
            k iv2)
       = (Ok code2, fs2) ->
       code2 <> 0%Z ->
       fst (process_entry P cfg entry s) = Exit 1).
Proof.
  intros P s sw sw_index swdesc_filename src k iv code fs' Hsrc Hk Hiv Hrun Hcode.
  assert (Hstep : exists s1,
             encrypt_swdescription P sw sw_index swdesc_filename s
             = copyfile (swdesc_filename ++ ".enc") swdesc_filename s1 /\
             fs s1 = fs' /\
             In (Log CRITICAL "Unable to encrypt %s" [VStr (resolve P (fs s) src)])
                (trace s1)).
  { unfold encrypt_swdescription, openssl_enc in *. run_monad. rewrite Hk, Hiv.
    unfold Artifact_encrypt, run. simpl. rewrite Hsrc.
    destruct (no_key (Some k)); simpl; unfold bind; simpl; rewrite Hrun; simpl;
      destruct (Z.eqb_spec code 0) as [E|_]; try contradiction; simpl;
      eexists; (split; [reflexivity|]); simpl; auto. }
  split; [exact Hstep|]. split.
  - intros c. destruct Hstep as (s1 & -> & _). apply copyfile_never_exits.
  - unfold registered, entry_iv, openssl_enc.
    intros cfg entry f p iv2 code2 fs2 Hf Hnew Hp Hex Hnc He Hne Hiv2 Hrun2 Hcode2.
    unfold process_entry. rewrite Hf. run_monad. rewrite Hnew. run_monad.
    unfold Artifact_exists, Artifact_init. simpl. rewrite Hp, Hex. simpl.
    unfold compress_entry. rewrite Hnc. run_monad.
    unfold encrypt_entry. rewrite He, Hne. run_monad. rewrite Hk.
    unfold Artifact_encrypt, run, generate_iv.
    destruct (noivt cfg); [rewrite Hiv2 | injection Hiv2 as Hiv2];
      destruct (no_key (Some k)); simpl; unfold bind; simpl;
      rewrite ?Hiv2, Hrun2; simpl;
      destruct (Z.eqb_spec code2 0) as [E|_]; try contradiction; reflexivity.
Qed.

Lemma C6_witness :
  (exists s1,
     encrypt_swdescription (Demo.platform VNone)
       (sw_artifact Demo.config_encrypt_swdesc
          (Demo.files [("/work/sw-description", "OLD")]))
       0 "/tmp/swu/sw-description"
       (Demo.start (Some "XX") (Some "00") (Demo.files [("/work/sw-description", "OLD")]))
     = copyfile "/tmp/swu/sw-description.enc" "/tmp/swu/sw-description" s1 /\
     In (Log CRITICAL "Unable to encrypt %s" [VStr "/work/sw-description"]) (trace s1)) /\
  fst (process (Demo.platform (VDict [("software", VDict [])]))
         Demo.config_encrypt_swdesc 5
         (Demo.start (Some "XX") (Some "00")
            (Demo.files [("/work/sw-description.in", "software = { };");
                         ("/work/sw-description", "OLD")])))
  = Ok tt /\
  trace (snd (process (Demo.platform (VDict [("software", VDict [])]))
                Demo.config_encrypt_swdesc 5
                (Demo.start (Some "XX") (Some "00")
                   (Demo.files [("/work/sw-description.in", "software = { };");
                                ("/work/sw-description", "OLD")]))))
  = [AddToSwu "/tmp/swu/sw-description";
     Log CRITICAL "Unable to encrypt %s" [VStr "/work/sw-description"];
     Run (openssl_enc "/work/sw-description" "/tmp/swu/sw-description.enc" "XX" "00")].
Proof.
  split; [|split; vm_compute; reflexivity].
  destruct (C6_manifest_encryption_failure_is_not_fatal (Demo.platform VNone)
              (Demo.start (Some "XX") (Some "00")
                 (Demo.files [("/work/sw-description", "OLD")]))
              (sw_artifact Demo.config_encrypt_swdesc
                 (Demo.files [("/work/sw-description", "OLD")]))
              0 "/tmp/swu/sw-description" "/work/sw-description" "XX" "00" 1%Z
              (fs_write "/tmp/swu/sw-description.enc" ""
                 (Demo.files [("/work/sw-description", "OLD")]))
              eq_refl eq_refl eq_refl eq_refl ltac:(discriminate))
    as [(s1 & H & _ & Hlog) _].
  exists s1. split; [exact H | exact Hlog].
Defined.

(** ** Function calls of the template *)

(** The expression that [_exec_functions] hands to [eval]. *)
Lemma eval_call_other (P : Platform) (cfg : Config) (name parms : string) (s : State) :
  str_forall plain_char parms && String.eqb name "swupdate_get_sha256" = false ->
  str_forall plain_char parms && String.eqb name "swupdate_get_size" = false ->
  eval_call P cfg name parms s
  = py_eval P cfg
      (emit (Eval ("self." ++ name ++ "(" ++ dquote ++ parms ++ dquote ++ ")")) s)
      ("self." ++ name ++ "(" ++ dquote ++ parms ++ dquote ++ ")").
Proof.
  intros H1 H2. unfold eval_call. run_monad. now rewrite H1, H2.
Qed.

(** C4, as the code has it. For a line that matches the pattern,
    [_exec_functions] builds the text [self.FUNC("ARGS")] and evaluates it;
    no list of allowed names is consulted. With a plain argument the names
    [swupdate_get_sha256] and [swupdate_get_size] are the digest and the
    size of the first file of that name in the search directories, spliced
    into the line with a line feed after it. Every other name, and every
    argument that is not plain text, is evaluated all the same: a string
    result is spliced into the line, any other result is a [TypeError] of
    the concatenation, and whatever else the evaluation does or raises is
    the outcome of the line. *)
Theorem C4_function_call_is_evaluated_without_allow_list :
  forall (P : Platform) (cfg : Config) (index : nat) (line : string)
         (m : fun_match) (s : State),
    match_function line = Some m ->
    let expr := "self." ++ fm_name m ++ "(" ++ dquote ++ fm_parms m ++ dquote ++ ")" in
    let splice text := fm_before m ++ text ++ fm_after m ++ nl in
    (str_forall plain_char (fm_parms m) = true ->
     forall p content,
       _get_artifact_source_path (fs s) (fm_parms m) (artifactory cfg) = Some p ->
       fs s p = Some (File content) ->
       (fm_name m = "swupdate_get_sha256" ->
        exec_line P cfg index line s
        = (Ok tt, set_lines (list_set index (splice (sha256_hex P content)) (lines s))
                    (emit (Eval expr) s))) /\
       (fm_name m = "swupdate_get_size" ->
        exec_line P cfg index line s
        = (Ok tt, set_lines
                    (list_set index
                       (splice (str_of_Z (Z.of_nat (String.length content)))) (lines s))
                    (emit (Eval expr) s)))) /\
    (str_forall plain_char (fm_parms m) && String.eqb (fm_name m) "swupdate_get_sha256"
     = false ->
     str_forall plain_char (fm_parms m) && String.eqb (fm_name m) "swupdate_get_size"
     = false ->
     exec_line P cfg index line s
     = match py_eval P cfg (emit (Eval expr) s) expr with
       | (Ok (VStr text), s') =>
           (Ok tt, set_lines (list_set index (splice text) (lines s')) s')
       | (Ok _, s') => (Raise (TypeError "can only concatenate str to str"), s')
       | (Exit c, s') => (Exit c, s')
       | (Raise e, s') => (Raise e, s')
       | (OutOfFuel, s') => (OutOfFuel, s')
       end).
Proof.
  intros P cfg index line m s Hm expr splice. split.
  - intros Hplain p content Hsrc Hfile. split; intros Hname.
    + unfold exec_line. rewrite Hm. unfold eval_call, bind. run_monad.
      rewrite Hplain, Hname. simpl.
      unfold swupdate_get_sha256, Artifact_get_sha256, Artifact_exists, Artifact_init,
        fs_exists. run_monad.
      rewrite Hsrc, Hfile. simpl. subst expr splice. now rewrite Hname.
    + unfold exec_line. rewrite Hm. unfold eval_call, bind. run_monad.
      rewrite Hplain, Hname. simpl.
      unfold swupdate_get_size, Artifact_get_size, Artifact_exists, Artifact_init,
        fs_exists. run_monad.
      rewrite Hsrc, Hfile. simpl. subst expr splice. now rewrite Hname.
  - intros H1 H2. unfold exec_line. rewrite Hm. unfold bind.
    rewrite (eval_call_other P cfg _ _ s H1 H2). fold expr.
    destruct (py_eval P cfg (emit (Eval expr) s) expr) as [[[| | |text| | |]| | |] s'];
      reflexivity.
Qed.

Lemma C4_witness :
  exec_line (Demo.platform VNone) Demo.config 0 "sha256 = $swupdate_get_sha256(a);"
    (set_lines ["sha256 = $swupdate_get_sha256(a);"]
       (Demo.start None None (Demo.files [("/work/a", "PLAIN")])))
  = (Ok tt,
     set_lines ["sha256 = sha256<PLAIN>;" ++ nl]
       (emit (Eval ("self.swupdate_get_sha256(" ++ dquote ++ "a" ++ dquote ++ ")"))
          (set_lines ["sha256 = $swupdate_get_sha256(a);"]
             (Demo.start None None (Demo.files [("/work/a", "PLAIN")]))))).
Proof.
  destruct (C4_function_call_is_evaluated_without_allow_list (Demo.platform VNone)
              Demo.config 0 "sha256 = $swupdate_get_sha256(a);"
              (FunMatch "sha256 = " "swupdate_get_sha256" "a" ";")
              (set_lines ["sha256 = $swupdate_get_sha256(a);"]
                 (Demo.start None None (Demo.files [("/work/a", "PLAIN")])))
              eq_refl) as [Hlookup _].
  destruct (Hlookup eq_refl "/work/a" "PLAIN" eq_refl eq_refl) as [Hsha _].
  exact (Hsha eq_refl).
Defined.

(** C4 as stated fails: the name of the call is not checked against any
    list. [__getattribute__] is an attribute of every Python object; the
    line below makes [eval] run [self.__getattribute__("swdescription")],
    which is the path of the template, and the line is rewritten with it:
    no fatal error, and a call outside the two lookups was made. *)
Lemma C4_counterexample :
  match_function ("path = $__getattribute__(swdescription);" ++ nl)
  = Some (FunMatch "path = " "__getattribute__" "swdescription" ";") /\
  String.eqb "__getattribute__" "swupdate_get_sha256" = false /\
  String.eqb "__getattribute__" "swupdate_get_size" = false /\
  fst (_exec_functions (Demo.platform VNone) Demo.config
         (set_lines ["path = $__getattribute__(swdescription);" ++ nl]
            (Demo.start None None (Demo.files []))))
  = Ok tt /\
  lines (snd (_exec_functions (Demo.platform VNone) Demo.config
                (set_lines ["path = $__getattribute__(swdescription);" ++ nl]
                   (Demo.start None None (Demo.files [])))))
  = ["path = /work/sw-description.in;" ++ nl].
Proof. repeat split. Qed.

(** ** Entries that name the same file *)












Lemma external_calls_log (lv : level) (fmt : string) (args : list value)
    (tr : list event) :
  external_calls (Log lv fmt args :: tr) = external_calls tr.
Proof. reflexivity. Qed.


Lemma committed_same (place : list step) (entry done : dict) (s : State) :
  artifacts (committed place entry done s) = artifacts s /\
  fs (committed place entry done s) = fs s /\
  trace (committed place entry done s) = trace s.
Proof. unfold committed. destruct (dict_has "filename" entry); repeat split. Qed.

Lemma process_entries_cons_ok (P : Platform) (cfg : Config) (place : list step)
    (entry : dict) (rest : list (list step * dict)) (s s' : State) (outs : list dict) :
  process_entries P cfg ((place, entry) :: rest) s = (Ok outs, s') ->
  exists done sa dones,
    process_entry P cfg entry s = (Ok done, sa) /\
    process_entries P cfg rest (committed place entry done sa) = (Ok dones, s') /\
    outs = done :: dones.
Proof.
  cbn [process_entries]. unfold bind at 1.
  destruct (process_entry P cfg entry s) as [[done| | |] sa]; try discriminate.
  unfold bind at 1. unfold committed.
  destruct (dict_has "filename" entry); run_monad;
    match goal with
    | |- context [process_entries P cfg rest ?st] =>
        destruct (process_entries P cfg rest st) as [[dones| | |] sb] eqn:E
    end; try discriminate;
    intros H; injection H as <- <-; exists done, sa, dones; auto.
Qed.



(** *** What is written to the tree *)










(** * More of the code *)

(** ** Looking an artifact up *)

Lemma source_first_match (files : FS) (f d : string) (before after : list string) :
  (forall d', In d' before -> fs_exists files (pathlib_join d' f) = false) ->
  fs_exists files (pathlib_join d f) = true ->
  _get_artifact_source_path files f (before ++ d :: after) = Some (pathlib_join d f).
Proof.
  induction before as [|b before IH]; cbn [app _get_artifact_source_path];
    intros Hno Hex.
  - now rewrite Hex.
  - rewrite (Hno b (or_introl eq_refl)). apply IH; [|exact Hex].
    intros d' Hd'. apply Hno. now right.
Qed.

(** X1. [Artifact._get_artifact_source_path] takes the first directory of
    the list, in the order given, that holds the name. The path it tests
    and returns is the one [pathlib] makes of [artifact_dir / filename]:
    the join, without its empty and [.] components and without doubled or
    trailing slashes. The result is that path for a directory [d] exactly
    when it exists and no directory before [d] has the name; it is [None]
    exactly when no directory has it. *)
Theorem X1_first_directory_wins :
  forall (files : FS) (f : string) (dirs : list string),
    (forall p,
       _get_artifact_source_path files f dirs = Some p <->
       exists before d after,
         dirs = (before ++ d :: after)%list /\
         p = pathlib_join d f /\
         fs_exists files p = true /\
         forall d', In d' before -> fs_exists files (pathlib_join d' f) = false) /\
    (_get_artifact_source_path files f dirs = None <->
     forall d, In d dirs -> fs_exists files (pathlib_join d f) = false) /\
    pathlib_join "/work" "./a" = "/work/a" /\
    pathlib_join "/work" "sub//a/" = "/work/sub/a" /\
    pathlib_join "/work/" "a" = "/work/a" /\
    pathlib_join "." "a" = "a" /\
    pathlib_join "/work" "/data/a" = "/data/a" /\
    _get_artifact_source_path (fun p => if String.eqb p "/work/a"
                                        then Some (File "x") else None)
      "./a" ["/work"] = Some "/work/a".
Proof.
  intros files f dirs. split; [|split].
  - intros p. induction dirs as [|d dirs IH]; cbn [_get_artifact_source_path].
    + split; [discriminate|]. intros (before & d & after & H & _).
      destruct before; discriminate.
    + destruct (fs_exists files (pathlib_join d f)) eqn:E.
      * split.
        -- intros H. injection H as <-. exists [], d, dirs. repeat split; auto.
           intros d' [].
        -- intros (before & d0 & after & Hd & -> & Hex & Hno).
           destruct before as [|b before]; simpl in Hd; injection Hd as Hd1 Hd2;
             subst.
           ++ reflexivity.
           ++ rewrite (Hno _ (or_introl eq_refl)) in E. discriminate.
      * rewrite IH. split.
        -- intros (before & d0 & after & -> & -> & Hex & Hno).
           exists (d :: before), d0, after. repeat split; auto.
           intros d' [<-|Hin]; auto.
        -- intros (before & d0 & after & Hd & -> & Hex & Hno).
           destruct before as [|b before]; simpl in Hd; injection Hd as Hd1 Hd2;
             subst.
           ++ rewrite Hex in E. discriminate.
           ++ exists before, d0, after. repeat split; auto.
              intros d' Hin. apply Hno. now right.
  - split; [|apply source_not_found].
    induction dirs as [|d dirs IH]; cbn [_get_artifact_source_path];
      intros H d' Hin; [contradiction|].
    destruct (fs_exists files (pathlib_join d f)) eqn:E; [discriminate|].
    destruct Hin as [<-|Hin]; auto.
  - repeat split; vm_compute; reflexivity.
Qed.

(** X2. An artifact made for a name that no search directory holds (the
    invalid artifact of the tests): it does not exist, its digest is
    [None], its size is 0, and [encrypt] returns false at once, with no
    external call and nothing logged, whatever the key and the IV. *)
Theorem X2_artifact_without_source :
  forall (P : Platform) (files : FS) (f out : string) (dirs : list string)
         (key iv : option string) (s : State),
    (forall d, In d dirs -> fs_exists files (pathlib_join d f) = false) ->
    let a := Artifact_init files f dirs in
    source_path a = None /\
    (forall files', Artifact_exists files' a = false) /\
    (forall files', Artifact_get_sha256 (sha256_hex P) files' a = Ok VNone) /\
    (forall files', Artifact_get_size files' a = 0%Z) /\
    Artifact_encrypt P a out key iv s = (Ok false, s).
Proof.
  intros P files f out dirs key iv s Hno a.
  assert (Hsrc : source_path a = None).
  { unfold a, Artifact_init. simpl. now apply source_not_found. }
  split; [exact Hsrc|].
  unfold Artifact_exists, Artifact_get_sha256, Artifact_get_size, Artifact_exists,
    Artifact_encrypt.
  rewrite Hsrc. repeat split.
Qed.

Lemma X2_witness :
  Artifact_get_sha256 Demo.digest (Demo.files [("/work/valid_artifact", "!!!")])
    (Artifact_init (Demo.files [("/work/valid_artifact", "!!!")]) "invalid_artifact"
       ["/work"]) = Ok VNone /\
  Artifact_get_size (Demo.files [("/work/valid_artifact", "!!!")])
    (Artifact_init (Demo.files [("/work/valid_artifact", "!!!")]) "invalid_artifact"
       ["/work"]) = 0%Z.
Proof.
  destruct (X2_artifact_without_source (Demo.platform VNone)
              (Demo.files [("/work/valid_artifact", "!!!")]) "invalid_artifact" "out"
              ["/work"] None None (Demo.start None None (Demo.files [])))
    as (_ & _ & Hsha & Hsize & _).
  - intros d [<-|[]]. vm_compute. reflexivity.
  - split; [apply Hsha | apply Hsize].
Defined.

(** X3. An artifact whose name is found: digest and size are those of the
    file in the first directory that has the name, also when a later
    directory has another file of that name, and the input of the cipher
    is the resolved path of that file. With a key and an IV that are
    strings, [encrypt] launches the cipher once on it. When the cipher
    gives an exit status, [encrypt] returns whether the status was 0 and
    logs the failure when it was not; when the cipher cannot be started,
    what the launch raises leaves [encrypt] uncaught, and no failure is
    logged. *)
Theorem X3_artifact_of_the_first_match :
  forall (P : Platform) (before after : list string) (d f content out k iv : string)
         (s : State) (r : res Z) (fs' : FS),
    (forall d', In d' before -> fs_exists (fs s) (pathlib_join d' f) = false) ->
    fs s (pathlib_join d f) = Some (File content) ->
    run_argv P (fs s) (openssl_enc (resolve P (fs s) (pathlib_join d f)) out k iv)
    = (r, fs') ->
    let a := Artifact_init (fs s) f (before ++ d :: after) in
    let source := resolve P (fs s) (pathlib_join d f) in
    source_path a = Some (pathlib_join d f) /\
    Artifact_exists (fs s) a = true /\
    Artifact_get_sha256 (sha256_hex P) (fs s) a = Ok (VStr (sha256_hex P content)) /\
    Artifact_get_size (fs s) a = Z.of_nat (String.length content) /\
    exists s',
      Artifact_encrypt P a out (Some k) (Some iv) s = (encrypt_outcome r, s') /\
      fs s' = fs' /\
      artifacts s' = artifacts s /\
      external_calls (trace s')
      = Run (openssl_enc source out k iv) :: external_calls (trace s) /\
      (In (Log CRITICAL "Unable to encrypt %s" [VStr source]) (trace s')
       <-> (In (Log CRITICAL "Unable to encrypt %s" [VStr source]) (trace s)
            \/ exists code, r = Ok code /\ code <> 0%Z)) /\
      (forall e, r = Raise e ->
         Artifact_encrypt P a out (Some k) (Some iv) s = (Raise e, s')).
Proof.
  intros P before after d f content out k iv s r fs' Hno Hfile Hrun a source.
  assert (Hex : fs_exists (fs s) (pathlib_join d f) = true)
    by (unfold fs_exists; now rewrite Hfile).
  assert (Hsrc : source_path a = Some (pathlib_join d f)).
  { unfold a, Artifact_init. simpl.
    now apply source_first_match. }
  split; [exact Hsrc|].
  unfold Artifact_exists, Artifact_get_sha256, Artifact_get_size, Artifact_exists,
    Artifact_encrypt.
  rewrite Hsrc, Hex, Hfile. simpl.
  repeat split.
  unfold source, openssl_enc in *. unfold run, bind, get. rewrite Hrun.
  destruct r as [code|c|e|]; cbn [encrypt_outcome];
    [destruct (Z.eqb_spec code 0) as [E|E]| | |]; simpl;
    eexists; (split; [reflexivity|]);
    simpl; (split; [reflexivity|]); (split; [reflexivity|]); (split; [reflexivity|]);
    (split; [split|]); try (intros e0 He0; congruence).
  - intros [H|H]; [discriminate H | now left].
  - intros [H|(code' & Hc & Hn)]; [now right|]. injection Hc as <-. contradiction.
  - intros _. right. now exists code.
  - intros _. now left.
  - intros [H|H]; [discriminate H | now left].
  - intros [H|(code' & Hc & _)]; [now right | discriminate Hc].
  - intros [H|H]; [discriminate H | now left].
  - intros [H|(code' & Hc & _)]; [now right | discriminate Hc].
  - intros [H|H]; [discriminate H | now left].
  - intros [H|(code' & Hc & _)]; [now right | discriminate Hc].
Qed.

Lemma X3_witness :
  Artifact_get_sha256 Demo.digest (Demo.files [("/a/f", "ONE"); ("/b/f", "TWO")])
    (Artifact_init (Demo.files [("/a/f", "ONE"); ("/b/f", "TWO")]) "f" ["/a"; "/b"])
  = Ok (VStr "sha256<ONE>") /\
  Artifact_get_size (Demo.files [("/a/f", "ONE"); ("/b/f", "TWO")])
    (Artifact_init (Demo.files [("/a/f", "ONE"); ("/b/f", "TWO")]) "f" ["/a"; "/b"])
  = 3%Z /\
  fst (Artifact_encrypt (Demo.platform VNone)
         (Artifact_init (Demo.files [("/a/f", "ONE"); ("/b/f", "TWO")]) "f"
            ["/a"; "/b"])
         "/tmp/f.enc" (Some "00ff") (Some "00")
         (Demo.start None None (Demo.files [("/a/f", "ONE"); ("/b/f", "TWO")])))
  = Ok true.
Proof.
  destruct (X3_artifact_of_the_first_match (Demo.platform VNone) [] ["/b"] "/a" "f" "ONE"
              "/tmp/f.enc" "00ff" "00"
              (Demo.start None None (Demo.files [("/a/f", "ONE"); ("/b/f", "TWO")]))
              (Ok 0%Z)
              (fs_write "/tmp/f.enc" "aes<00ff,00,ONE>"
                 (Demo.files [("/a/f", "ONE"); ("/b/f", "TWO")])))
    as (_ & _ & Hsha & Hsize & s' & Henc & _).
  - intros d' [].
  - vm_compute. reflexivity.
  - vm_compute. reflexivity.
  - split; [exact Hsha|]. split; [exact Hsize|].
    apply (f_equal fst) in Henc. exact Henc.
Defined.

(** ** Entries that declare [encrypted] without a stored IV *)

(** X4. [ivt] is assigned to an artifact only when it is encrypted (line
    149), and line 158 reads it for every entry that has the key
    [encrypted]. So with the no-encrypt override set, a first-seen entry
    that declares [encrypted] is registered and then ends the run with
    [AttributeError]; and so does a later entry that declares [encrypted]
    for a file whose registered artifact was not encrypted. *)
Theorem X4_encrypted_entry_without_stored_iv :
  forall (P : Platform) (cfg : Config) (s : State) (entry : dict) (f : string),
    dict_get "filename" entry = Some (VStr f) ->
    dict_has "encrypted" entry = true ->
    (forall p content,
       registered f s = None ->
       _get_artifact_source_path (fs s) f (artifactory cfg) = Some p ->
       fs s p = Some (File content) ->
       dict_has "compressed" entry && negb (nocompress cfg) = false ->
       noencrypt cfg = true ->
       process_entry P cfg entry s
       = (Raise (AttributeError "Artifact" "ivt"),
          set_artifacts (artifacts s ++ [Artifact_init (fs s) f (artifactory cfg)])%list
            (emit (Log DEBUG "New artifact  %s" [VStr f]) s))) /\
    (forall a sha,
       registered f s = Some a ->
       ivt a = None ->
       Artifact_get_sha256 (sha256_hex P) (fs s) a = Ok sha ->
       process_entry P cfg entry s
       = (Raise (AttributeError "Artifact" "ivt"),
          emit (Log DEBUG "Artifact  %s already stored" [VStr f]) s)).
Proof.
  unfold registered. intros P cfg s entry f Hf He. split.
  - intros p content Hnew Hsrc Hfile Hnc Hne.
    unfold process_entry. rewrite Hf. run_monad. rewrite Hnew. run_monad.
    unfold Artifact_exists, Artifact_init. simpl. rewrite Hsrc.
    unfold fs_exists. rewrite Hfile. simpl.
    unfold compress_entry. rewrite Hnc. run_monad.
    unfold encrypt_entry. rewrite He, Hne. run_monad.
    unfold update_entry. run_monad.
    unfold Artifact_get_sha256, Artifact_exists, fs_exists. simpl.
    rewrite Hfile. simpl.
    rewrite !dict_has_set_other by reflexivity. rewrite He. reflexivity.
  - intros a sha Hreg Hivt Hsha.
    unfold process_entry. rewrite Hf. run_monad. rewrite Hreg. run_monad.
    unfold update_entry. run_monad. rewrite Hsha. simpl.
    rewrite !dict_has_set_other by reflexivity. rewrite He, Hivt. reflexivity.
Qed.

Lemma X4_witness :
  fst (process_entries (Demo.platform VNone) Demo.config
         [([], [("filename", VStr "a")]);
          ([], [("filename", VStr "a"); ("encrypted", VBool true)])]
         (Demo.state [] (Some "00ff") (Demo.files [("/work/a", "PLAIN")])))
  = Raise (AttributeError "Artifact" "ivt") /\
  process_entry (Demo.platform VNone) Demo.config
    [("filename", VStr "a"); ("encrypted", VBool true)]
    (Demo.state [Artifact_init (Demo.files [("/work/a", "PLAIN")]) "a" ["/work"]]
       (Some "00ff") (Demo.files [("/work/a", "PLAIN")]))
  = (Raise (AttributeError "Artifact" "ivt"),
     emit (Log DEBUG "Artifact  %s already stored" [VStr "a"])
       (Demo.state [Artifact_init (Demo.files [("/work/a", "PLAIN")]) "a" ["/work"]]
          (Some "00ff") (Demo.files [("/work/a", "PLAIN")]))).
Proof.
  split; [vm_compute; reflexivity|].
  destruct (X4_encrypted_entry_without_stored_iv (Demo.platform VNone) Demo.config
              (Demo.state [Artifact_init (Demo.files [("/work/a", "PLAIN")]) "a" ["/work"]]
                 (Some "00ff") (Demo.files [("/work/a", "PLAIN")]))
              [("filename", VStr "a"); ("encrypted", VBool true)] "a" eq_refl eq_refl)
    as [_ Hhit].
  exact (Hhit _ (VStr "sha256<PLAIN>") eq_refl eq_refl eq_refl).
Defined.

(** ** When [process] returns *)

Lemma bind_ok {A B : Type} (m : M A) (k : A -> M B) (s s' : State) (b : B) :
  bind m k s = (Ok b, s') ->
  exists a s1, m s = (Ok a, s1) /\ k a s1 = (Ok b, s').
Proof.
  unfold bind. destruct (m s) as [[a| | |] s1]; try discriminate.
  intros H. now exists a, s1.
Qed.

Lemma compress_entry_artifacts (P : Platform) (cfg : Config) (entry : dict)
    (fname : value) (new : Artifact) (s : State) :
  artifacts (snd (compress_entry P cfg entry fname new s)) = artifacts s.
Proof.
  unfold compress_entry.
  destruct (dict_has "compressed" entry && negb (nocompress cfg)); [|reflexivity].
  destruct (if truthy _ then _ else _) as [| | |alg| | |]; try reflexivity.
  destruct (String.eqb alg "zlib" || String.eqb alg "zstd"); [|reflexivity].
  destruct (fullfilename _) as [full|]; [|reflexivity].
  unfold bind, shell.
  match goal with
  | |- context [run_shell P ?x ?y] =>
      destruct (run_shell P x y) as [[code|c|e|] fs']
  end; try reflexivity.
  destruct (Z.eqb code 0); reflexivity.
Qed.

Lemma Artifact_encrypt_artifacts (P : Platform) (a : Artifact) (out : string)
    (key iv : option string) (s : State) :
  artifacts (snd (Artifact_encrypt P a out key iv s)) = artifacts s.
Proof.
  unfold Artifact_encrypt.
  destruct (source_path a) as [src|]; [|reflexivity].
  destruct key as [k|]; [|reflexivity]. destruct iv as [i|]; [|reflexivity].
  unfold bind, run, get.
  match goal with
  | |- context [run_argv P ?x ?y] =>
      destruct (run_argv P x y) as [[code|c|e|] fs']
  end; try reflexivity.
  destruct (Z.eqb code 0); reflexivity.
Qed.

Lemma encrypt_entry_artifacts (P : Platform) (cfg : Config) (entry : dict)
    (fname : value) (new : Artifact) (s : State) :
  artifacts (snd (encrypt_entry P cfg entry fname new s)) = artifacts s.
Proof.
  unfold encrypt_entry.
  destruct (dict_has "encrypted" entry && negb (noencrypt cfg)); [|reflexivity].
  unfold bind at 1. unfold get. unfold bind at 1.
  destruct (no_key (aeskey s)); simpl; unfold bind at 1; unfold generate_iv;
    destruct (noivt cfg); simpl; unfold bind at 1;
    match goal with
    | |- context [Artifact_encrypt P ?a ?o ?k ?i ?st] =>
        pose proof (Artifact_encrypt_artifacts P a o k i st) as Ha;
        destruct (Artifact_encrypt P a o k i st) as [[[|]| | |] s1]
    end; simpl in *; exact Ha.
Qed.

Lemma process_entry_prefix (P : Platform) (cfg : Config) (entry out : dict)
    (s s' : State) :
  process_entry P cfg entry s = (Ok out, s') ->
  exists added, artifacts s' = (artifacts s ++ added)%list.
Proof.
  unfold process_entry.
  destruct (dict_get "filename" entry) as [fname|].
  2:{ intros H. injection H as _ <-. exists []. now rewrite app_nil_r. }
  run_monad.
  destruct (find _ (artifacts s)) as [image|].
  - run_monad. intros H.
    pose proof (update_entry_state P entry image
                  (emit (Log DEBUG "Artifact  %s already stored" [fname]) s)) as Hs.
    rewrite H in Hs. simpl in Hs. subst s'. exists []. simpl. now rewrite app_nil_r.
  - run_monad.
    destruct fname as [| | |f| | |];
      try (destruct (artifactory cfg); run_monad; discriminate).
    destruct (Artifact_exists _ _); run_monad; [|discriminate].
    unfold bind.
    match goal with
    | |- context [compress_entry P cfg entry ?fn ?nw ?st] =>
        pose proof (compress_entry_artifacts P cfg entry fn nw st) as Hc;
        destruct (compress_entry P cfg entry fn nw st) as [[new1| | |] s1]
    end; try discriminate.
    pose proof (encrypt_entry_artifacts P cfg entry (VStr f) new1 s1) as He.
    destruct (encrypt_entry P cfg entry (VStr f) new1 s1) as [[[new2 entry2]| | |] s2];
      try discriminate.
    run_monad. intros H.
    pose proof (update_entry_state P entry2 new2
                  (set_artifacts (artifacts s2 ++ [new2]) s2)) as Hs.
    rewrite H in Hs. simpl in Hs. subst s'. exists [new2]. simpl in *.
    now rewrite He, Hc.
Qed.

Lemma process_entries_prefix (P : Platform) (cfg : Config)
    (l : list (list step * dict)) :
  forall (s s' : State) (outs : list dict),
    process_entries P cfg l s = (Ok outs, s') ->
    exists added, artifacts s' = (artifacts s ++ added)%list.
Proof.
  induction l as [|[place entry] l IH]; intros s s' outs H.
  - simpl in H. injection H as _ <-. exists []. now rewrite app_nil_r.
  - apply process_entries_cons_ok in H.
    destruct H as (done & sa & dones & He & Hrest & _).
    destruct (process_entry_prefix _ _ _ _ _ _ He) as [l1 H1].
    destruct (IH _ _ _ Hrest) as [l2 H2].
    destruct (committed_same place entry done sa) as (Ca & _).
    exists (l1 ++ l2)%list. now rewrite H2, Ca, H1, app_assoc.
Qed.

Lemma add_artifacts_state (P : Platform) (l : list Artifact) :
  forall s, artifacts (snd (add_artifacts P l s)) = artifacts s.
Proof.
  induction l as [|a l IH]; intros s; [reflexivity|].
  cbn [add_artifacts]. destruct (fullfilename a) as [full|]; [|reflexivity].
  run_monad. destruct (addartifacttoswu P (fs s) full) as [[]| | |]; simpl;
    try reflexivity.
  now rewrite IH.
Qed.

Lemma list_set_middle {A : Type} (l1 l2 : list A) (x y : A) :
  list_set (List.length l1) y (l1 ++ x :: l2)%list = (l1 ++ y :: l2)%list.
Proof. induction l1 as [|z l1 IH]; simpl; [reflexivity | now rewrite IH]. Qed.

Lemma modify_ok (f : State -> State) (s s' : State) (u : unit) :
  modify f s = (Ok u, s') -> s' = f s.
Proof. unfold modify. intros H. now injection H. Qed.

Lemma encrypt_swdescription_artifacts (P : Platform) (sw : Artifact) (i : nat)
    (fname : string) (s : State) :
  artifacts (snd (encrypt_swdescription P sw i fname s))
  = list_set i (set_fullfilename sw fname) (artifacts s).
Proof.
  unfold encrypt_swdescription. unfold bind at 1. unfold get. unfold bind at 1.
  destruct (no_key (aeskey s)); simpl; unfold bind at 1; simpl; unfold bind at 1;
    match goal with
    | |- context [Artifact_encrypt P ?a ?o ?k ?iv ?st] =>
        pose proof (Artifact_encrypt_artifacts P a o k iv st) as Ha;
        destruct (Artifact_encrypt P a o k iv st) as [[b| | |] s1]
    end; simpl in *; try exact Ha;
    unfold copyfile, read_file, bind, modify;
    destruct (fs s1 _) as [[content|sz]|]; simpl; exact Ha.
Qed.

(** X5. [process] can return only when the manifest itself is encrypted
    and nothing is signed. The artifact of the manifest is registered
    without [fullfilename], which only the encryption of the manifest
    assigns (line 224), and the artifact of the signature never gets one;
    the packaging loop reads the attribute of every registered artifact.
    When [process] returns, every registered artifact has the
    attribute. *)
Theorem X5_process_returns_only_with_encrypted_manifest :
  forall (P : Platform) (cfg : Config) (fuel : nat) (s s' : State),
    process P cfg fuel s = (Ok tt, s') ->
    encryptswdesc cfg = true /\ signtool cfg = false /\
    forall a, In a (artifacts s') -> fullfilename a <> None.
Proof.
  intros P cfg fuel s s' H. unfold process in H.
  repeat (apply bind_ok in H; destruct H as (? & ? & ?Hstep & H)).
  unfold get in Hstep7, Hstep10, Hstep12, Hstep17.
  injection Hstep7 as <- <-. injection Hstep10 as <- <-.
  injection Hstep12 as <- <-. injection Hstep17 as <- <-.
  apply modify_ok in Hstep8.
  apply process_entries_prefix in Hstep11 as [added Hadded].
  unfold lift in Hstep13. injection Hstep13 as _ <-.
  apply modify_ok in Hstep14.
  set (sw := sw_artifact cfg (fs x14)) in *.
  set (sig := set_archived_filename
                (Artifact_init (fs x18) "sw-description.sig" (artifactory cfg))
                (path_join (temp cfg) "sw-description.sig")) in *.
  assert (Hsw : fullfilename sw = None) by reflexivity.
  assert (Hsig : fullfilename sig = None) by reflexivity.
  assert (H20 : artifacts x20
                = (artifacts x14 ++ sw :: (if signtool cfg then [sig] else []))%list).
  { destruct (signtool cfg).
    - apply bind_ok in Hstep9. destruct Hstep9 as (y & y' & Hg & Hstep9).
      injection Hg as <- <-. apply modify_ok in Hstep9. subst x20 x18. simpl.
      now rewrite <- app_assoc.
    - injection Hstep9 as _ <-. subst x18. reflexivity. }
  assert (H32 : artifacts x32 = artifacts x24).
  { transitivity (artifacts x30); [|subst x30; reflexivity].
    destruct (signtool cfg).
    - destruct (sign P (fs x30) _ _) as [r fs']. injection Hstep15 as _ <-.
      reflexivity.
    - injection Hstep15 as _ <-. reflexivity. }
  assert (Hlast : fst (add_artifacts P (artifacts x34) x34) = Ok tt)
    by now rewrite H.
  assert (Hs' : artifacts s' = artifacts x34).
  { pose proof (add_artifacts_state P (artifacts x34) x34) as Hk.
    now rewrite H in Hk. }
  assert (Hall : forall a, In a (artifacts x34) -> fullfilename a <> None).
  { intros a Hin Hnone.
    exact (add_artifacts_unset P _ a Hin Hnone x34 Hlast). }
  rewrite H20 in Hadded. rewrite <- H32 in Hadded.
  split; [|split].
  - destruct (encryptswdesc cfg); [reflexivity|]. exfalso.
    injection Hstep16 as _ <-.
    apply (Hall sw); [|exact Hsw].
    rewrite Hadded. apply in_or_app. left. apply in_or_app. right. now left.
  - destruct (signtool cfg); [|reflexivity]. exfalso.
    apply (Hall sig); [|exact Hsig].
    destruct (encryptswdesc cfg).
    + pose proof (encrypt_swdescription_artifacts P sw
                    (List.length (artifacts x14))
                    (path_join (temp cfg) (filename sw)) x32) as Henc.
      rewrite Hstep16 in Henc. simpl in Henc. rewrite Henc, Hadded.
      rewrite <- app_assoc. simpl. rewrite list_set_middle.
      apply in_or_app. right. right. now left.
    + injection Hstep16 as _ <-. rewrite Hadded.
      apply in_or_app. left. apply in_or_app. right. right. now left.
  - intros a Hin. apply Hall. now rewrite <- Hs'.
Qed.

Lemma X5_witness :
  fst (process (Demo.platform (VDict [("software", VDict [])]))
         Demo.config_encrypt_swdesc 8
         (Demo.start (Some "00ff") (Some "aa")
            (Demo.files [("/work/sw-description.in", "software = { };");
                         ("/work/sw-description", "software = { };")])))
  = Ok tt /\
  encryptswdesc Demo.config_encrypt_swdesc = true /\
  signtool Demo.config_encrypt_swdesc = false /\
  forall a,
    In a (artifacts
            (snd (process (Demo.platform (VDict [("software", VDict [])]))
                    Demo.config_encrypt_swdesc 8
                    (Demo.start (Some "00ff") (Some "aa")
                       (Demo.files [("/work/sw-description.in", "software = { };");
                                    ("/work/sw-description", "software = { };")]))))) ->
    fullfilename a <> None.
Proof.
  destruct (process (Demo.platform (VDict [("software", VDict [])]))
              Demo.config_encrypt_swdesc 8
              (Demo.start (Some "00ff") (Some "aa")
                 (Demo.files [("/work/sw-description.in", "software = { };");
                              ("/work/sw-description", "software = { };")])))
    as [r st] eqn:Hrun.
  assert (Hr : r = Ok tt).
  { change r with (fst (r, st)). rewrite <- Hrun. vm_compute. reflexivity. }
  subst r. split; [reflexivity|].
  exact (X5_process_returns_only_with_encrypted_manifest _ _ _ _ _ Hrun).
Defined.

(** ** Which placeholder is replaced *)

(** X6. Of the placeholders of a line, [_expand_variables] replaces the
    last one first: when nothing but the end of the line follows the text
    after a placeholder, and that text has no [@], the match is this
    placeholder whatever comes before it. The line goes on as the text
    before, the value and the text after: the line feed that ended the line
    is not part of it. A name that is not defined raises [KeyError], a
    value that is no string [TypeError]. When the text before and the
    value have no [@] either, the loop ends with the line without its line
    feed. *)
Theorem X6_last_placeholder_is_replaced_and_line_feed_dropped :
  forall (cfg : Config) (b n a tail : string),
    b <> "" -> str_forall is_dot b = true ->
    n <> "" -> str_forall is_word n = true ->
    a <> "" -> str_forall is_dot a = true -> count_char "@" a = 0 ->
    (tail = "" \/ tail = nl) ->
    let line := b ++ "@@" ++ n ++ "@@" ++ a ++ tail in
    match_variable line = Some (VarMatch b n a) /\
    (forall fuel,
       expand_line cfg (S fuel) line
       = match dict_get n (vars cfg) with
         | None => Raise (KeyError n)
         | Some (VStr v) => expand_line cfg fuel (b ++ v ++ a)
         | Some _ => Raise (TypeError "can only concatenate str to str")
         end) /\
    (forall v fuel,
       dict_get n (vars cfg) = Some (VStr v) ->
       count_char "@" b = 0 -> count_char "@" v = 0 ->
       expand_line cfg (S (S fuel)) line = Ok (b ++ v ++ a)).
Proof.
  intros cfg b n a tail Hb Hbd Hn Hnw Ha Had Ha0 Htail line.
  pose proof (match_variable_last b n a tail Hb Hbd Hn Hnw Ha Had Ha0 Htail) as Hm.
  fold line in Hm.
  split; [exact Hm|]. split.
  - intros fuel. cbn [expand_line]. rewrite Hm. cbn [vm_name vm_before vm_after].
    destruct (dict_get n (vars cfg)) as [[| | |v| | |]|]; reflexivity.
  - intros v fuel Hv Hb0 Hv0. cbn [expand_line]. rewrite Hm.
    cbn [vm_name vm_before vm_after]. rewrite Hv.
    destruct (match_variable (b ++ v ++ a)) as [m|] eqn:E; [exfalso|reflexivity].
    destruct (match_variable_sound _ _ E) as (_ & _ & _ & _ & _ & _ & tl & _ & Hline).
    count_in Hline "@"%char. lia.
Qed.

Lemma X6_witness :
  match_variable ("a = @@X@@; b = @@X@@;" ++ nl)
  = Some (VarMatch "a = @@X@@; b = " "X" ";") /\
  expand_line Demo.config 3 ("name = @@X@@;" ++ nl) = Ok "name = hello;".
Proof.
  destruct (X6_last_placeholder_is_replaced_and_line_feed_dropped Demo.config
              "a = @@X@@; b = " "X" ";" nl
              ltac:(discriminate) eq_refl ltac:(discriminate) eq_refl
              ltac:(discriminate) eq_refl eq_refl (or_intror eq_refl))
    as (Hm & _).
  split; [exact Hm|].
  destruct (X6_last_placeholder_is_replaced_and_line_feed_dropped Demo.config
              "name = " "X" ";" nl
              ltac:(discriminate) eq_refl ltac:(discriminate) eq_refl
              ltac:(discriminate) eq_refl eq_refl (or_intror eq_refl))
    as (_ & _ & Hdrop).
  exact (Hdrop "hello" 1 eq_refl eq_refl eq_refl).
Defined.

(** ** The loop of [_expand_variables] *)

(** One replacement takes the four [@] of the placeholder out of the line
    and puts the [@] of the value in. *)
Lemma replaced_line_count (line : string) (m : var_match) (v : string) :
  match_variable line = Some m ->
  count_char "@" (vm_before m ++ v ++ vm_after m) + 4
  = count_char "@" line + count_char "@" v.
Proof.
  intros E.
  destruct (match_variable_sound _ _ E)
    as (_ & _ & _ & Hnw & _ & _ & tail & Htail & Hline).
  assert (Ht0 : count_char "@" tail = 0)
    by (destruct Htail as [->| ->]; reflexivity).
  pose proof (count_char_forall "@" is_word _ eq_refl Hnw) as Hn0.
  count_in Hline "@"%char. rewrite !count_char_app. lia.
Qed.

Lemma expand_line_ends (cfg : Config) :
  (forall k v, dict_get k (vars cfg) = Some (VStr v) -> count_char "@" v = 0) ->
  forall fuel line,
    count_char "@" line < 4 * fuel ->
    expand_line cfg fuel line <> OutOfFuel /\
    (forall c, expand_line cfg fuel line <> Exit c).
Proof.
  intros Hvars. induction fuel as [|fuel IH]; intros line Hlt; [lia|].
  cbn [expand_line].
  destruct (match_variable line) as [m|] eqn:E; [|split; intros; discriminate].
  destruct (dict_get (vm_name m) (vars cfg)) as [[| | |v| | |]|] eqn:Hv;
    try (split; intros; discriminate).
  apply IH.
  pose proof (replaced_line_count line m v E) as Hc.
  rewrite (Hvars _ _ Hv) in Hc. lia.
Qed.

Lemma expand_line_result (cfg : Config) :
  forall fuel line out,
    expand_line cfg fuel line = Ok out -> match_variable out = None.
Proof.
  induction fuel as [|fuel IH]; intros line out H; [discriminate|].
  cbn [expand_line] in H.
  destruct (match_variable line) as [m|] eqn:E.
  - destruct (dict_get (vm_name m) (vars cfg)) as [[| | |v| | |]|];
      try discriminate.
    exact (IH _ _ H).
  - injection H as <-. exact E.
Qed.

Lemma expand_lines_ends (cfg : Config) (fuel : nat) :
  (forall k v, dict_get k (vars cfg) = Some (VStr v) -> count_char "@" v = 0) ->
  forall ls,
    (forall line, In line ls -> count_char "@" line < 4 * fuel) ->
    expand_lines cfg fuel ls <> OutOfFuel /\
    (forall c, expand_lines cfg fuel ls <> Exit c).
Proof.
  intros Hvars. induction ls as [|line ls IH]; intros Hlt.
  - split; intros; discriminate.
  - cbn [expand_lines].
    destruct (expand_line_ends cfg Hvars fuel line (Hlt _ (or_introl eq_refl)))
      as [H1 H2].
    destruct (IH (fun l Hl => Hlt l (or_intror Hl))) as [H3 H4].
    destruct (expand_line cfg fuel line) as [out|c|e|];
      [|exfalso; exact (H2 c eq_refl)|split; intros; discriminate|congruence].
    destruct (expand_lines cfg fuel ls) as [outs|c|e|];
      [split; intros; discriminate|exfalso; exact (H4 c eq_refl)
      |split; intros; discriminate|congruence].
Qed.

Lemma expand_lines_result (cfg : Config) (fuel : nat) :
  forall ls outs,
    expand_lines cfg fuel ls = Ok outs ->
    List.length outs = List.length ls /\
    (forall l, In l outs -> match_variable l = None).
Proof.
  induction ls as [|line ls IH]; intros outs H.
  - injection H as <-. split; [reflexivity | intros l []].
  - cbn [expand_lines] in H.
    destruct (expand_line cfg fuel line) as [out|c|e|] eqn:E; try discriminate.
    destruct (expand_lines cfg fuel ls) as [outs'|c|e|]; try discriminate.
    injection H as <-. destruct (IH _ eq_refl) as [Hlen Hnone]. split.
    + simpl. now rewrite Hlen.
    + intros l [<-|Hl]; [exact (expand_line_result cfg _ _ _ E) | now apply Hnone].
Qed.

(** X7. When no value of the variables holds an [@], the loop of
    [_expand_variables] ends on every line: each replacement takes four
    [@] out of the line, so a line with fewer than [4 * fuel] of them never
    uses the bound up. The method then returns or raises (an undefined
    name, a value that is no string); it never exits. When it returns, the
    lines are as many as before and none of them matches the pattern any
    more; nothing but the lines has changed. *)
Theorem X7_expansion_ends_when_no_value_has_a_placeholder :
  forall (cfg : Config) (fuel : nat) (s : State),
    (forall k v, dict_get k (vars cfg) = Some (VStr v) -> count_char "@" v = 0) ->
    (forall line, In line (lines s) -> count_char "@" line < 4 * fuel) ->
    fst (_expand_variables cfg fuel s) <> OutOfFuel /\
    (forall c, fst (_expand_variables cfg fuel s) <> Exit c) /\
    (forall s', _expand_variables cfg fuel s = (Ok tt, s') ->
       s' = set_lines (lines s') s /\
       List.length (lines s') = List.length (lines s) /\
       forall l, In l (lines s') -> match_variable l = None).
Proof.
  intros cfg fuel s Hvars Hlt.
  destruct (expand_lines_ends cfg fuel Hvars (lines s) Hlt) as [H1 H2].
  pose proof (expand_lines_result cfg fuel (lines s)) as H3.
  unfold _expand_variables. run_monad.
  destruct (expand_lines cfg fuel (lines s)) as [outs|c|e|]; simpl.
  - split; [discriminate|]. split; [discriminate|].
    intros s' H. injection H as <-. simpl.
    destruct (H3 outs eq_refl) as [Hlen Hnone]. now repeat split.
  - exfalso. exact (H2 c eq_refl).
  - split; [discriminate|]. split; discriminate.
  - congruence.
Qed.

Lemma X7_witness :
  _expand_variables Demo.config 2
    (set_lines ["name = @@X@@;"; "version = 1;"] (Demo.start None None (fun _ => None)))
  = (Ok tt,
     set_lines ["name = hello;"; "version = 1;"] (Demo.start None None (fun _ => None)))
  /\ fst (_expand_variables Demo.config 2
            (set_lines ["name = @@X@@;"; "version = 1;"]
               (Demo.start None None (fun _ => None)))) <> OutOfFuel.
Proof.
  split; [reflexivity|].
  refine (proj1 (X7_expansion_ends_when_no_value_has_a_placeholder Demo.config 2
                   (set_lines ["name = @@X@@;"; "version = 1;"]
                      (Demo.start None None (fun _ => None))) _ _)).
  - intros k v. unfold dict_get. simpl.
    destruct (String.eqb k "X"); [|discriminate].
    intros H. injection H as <-. reflexivity.
  - intros line [<-|[<-|[]]]; simpl; lia.
Defined.

(** X8. A variable whose value holds its own placeholder is replaced for
    ever: when the placeholder matched is the last of the line and the
    value has the same placeholder with no [@] after it, the next line has
    the same shape, so the loop does not end for any bound. The value may
    start or end with the placeholder. *)
Theorem X8_self_reference_never_ends :
  forall (cfg : Config) (n p q : string),
    n <> "" -> str_forall is_word n = true ->
    str_forall is_dot p = true ->
    str_forall is_dot q = true -> count_char "@" q = 0 ->
    dict_get n (vars cfg) = Some (VStr (p ++ "@@" ++ n ++ "@@" ++ q)) ->
    forall (fuel : nat) (b a tail : string),
      b <> "" -> str_forall is_dot b = true ->
      a <> "" -> str_forall is_dot a = true -> count_char "@" a = 0 ->
      (tail = "" \/ tail = nl) ->
      expand_line cfg fuel (b ++ "@@" ++ n ++ "@@" ++ a ++ tail) = OutOfFuel.
Proof.
  intros cfg n p q Hn Hnw Hpd Hqd Hq0 Hv.
  induction fuel as [|fuel IH]; intros b a tail Hb Hbd Ha Had Ha0 Htail;
    [reflexivity|].
  cbn [expand_line].
  rewrite (match_variable_last b n a tail Hb Hbd Hn Hnw Ha Had Ha0 Htail).
  cbn [vm_name vm_before vm_after]. rewrite Hv.
  replace (b ++ (p ++ "@@" ++ n ++ "@@" ++ q) ++ a)
    with ((b ++ p) ++ "@@" ++ n ++ "@@" ++ (q ++ a) ++ "")
    by (now rewrite !str_app_assoc, str_app_nil_r).
  apply IH.
  - intros H. apply str_app_eq_nil in H. now destruct H.
  - now rewrite str_forall_app, Hbd, Hpd.
  - intros H. apply str_app_eq_nil in H. now destruct H.
  - now rewrite str_forall_app, Hqd, Had.
  - rewrite count_char_app. lia.
  - now left.
Qed.

Lemma X8_witness :
  expand_line
    (mkConfig "/work/sw-description.in" ["/work"] [("X", VStr "@@X@@")] "/tmp/swu"
       false false false false false)
    50 ("name = @@X@@;" ++ nl)
  = OutOfFuel.
Proof.
  exact (X8_self_reference_never_ends
           (mkConfig "/work/sw-description.in" ["/work"] [("X", VStr "@@X@@")]
              "/tmp/swu" false false false false false)
           "X" "" "" ltac:(discriminate) eq_refl eq_refl eq_refl eq_refl eq_refl
           50 "name = " ";" nl
           ltac:(discriminate) eq_refl ltac:(discriminate) eq_refl eq_refl
           (or_intror eq_refl)).
Defined.

(** ** The walk of the manifest *)

Lemma value_nested_ind (Q : value -> Prop) :
  Q VNone -> (forall b, Q (VBool b)) -> (forall z, Q (VInt z)) ->
  (forall s, Q (VStr s)) ->
  (forall d, Forall (fun kv => Q (snd kv)) d -> Q (VDict d)) ->
  (forall l, Forall Q l -> Q (VTuple l)) ->
  (forall l, Forall Q l -> Q (VList l)) ->
  forall v, Q v.
Proof.
  intros HN HB HI HS HD HT HL.
  fix IH 1. intros [| b | z | s | d | l | l].
  - exact HN.
  - apply HB.
  - apply HI.
  - apply HS.
  - apply HD. induction d as [|[k v] d IHd]; constructor; [apply IH | exact IHd].
  - apply HT. induction l as [|v l IHl]; constructor; [apply IH | exact IHl].
  - apply HL. induction l as [|v l IHl]; constructor; [apply IH | exact IHl].
Qed.

Lemma find_files_dict (place : list step) (d : dict) :
  find_files_in_swdesc place (VDict d) = walk_items place d d.
Proof. reflexivity. Qed.

Lemma find_files_no_items (place : list step) (v : value) (s : State) :
  (forall d, v <> VDict d) ->
  find_files_in_swdesc place v s = (Raise (AttributeError "object" "items"), s).
Proof. intros H. destruct v; try reflexivity. now destruct (H d). Qed.

Lemma dict_has_in (k : string) (v : value) (d : dict) :
  In (k, v) d -> dict_has k d = true.
Proof.
  unfold dict_has. induction d as [|[k' v'] d IH]; intros Hin; [contradiction|].
  unfold dict_get. fold dict_get.
  destruct (String.eqb_spec k k') as [->|Hne]; [reflexivity|].
  destruct Hin as [Hin|Hin]; [injection Hin as <- _; congruence | now apply IH].
Qed.

Lemma walked_refl (s : State) : walked s s.
Proof.
  exists [], []. rewrite app_nil_r. destruct s. simpl.
  split; [reflexivity|]. split; [intros ? ? [] | intros ? []].
Qed.

Lemma walked_trans (s1 s2 s3 : State) : walked s1 s2 -> walked s2 s3 -> walked s1 s3.
Proof.
  intros (a1 & l1 & -> & Ha1 & Hl1) (a2 & l2 & -> & Ha2 & Hl2). simpl.
  exists (a1 ++ a2)%list, (l2 ++ l1)%list. rewrite !app_assoc.
  split; [reflexivity|]. split.
  - intros place d Hin. apply in_app_or in Hin. destruct Hin; eauto.
  - intros e Hin. apply in_app_or in Hin. destruct Hin; eauto.
Qed.

Lemma walk_result_raise (s : State) :
  walk_result s (Raise (AttributeError "object" "items"), s).
Proof. split; [now right | apply walked_refl]. Qed.

Lemma walk_result_bind (m k : M unit) (s : State) :
  walk_result s (m s) -> (forall s1, walk_result s1 (k s1)) ->
  walk_result s ((m ;;; k) s).
Proof.
  intros [Hr Hw] Hk. unfold bind.
  destruct (m s) as [[[]|c|e|] s1]; simpl in Hr, Hw.
  - destruct (Hk s1) as [Hr' Hw']. split; [exact Hr'|].
    exact (walked_trans _ _ _ Hw Hw').
  - destruct Hr; discriminate.
  - split; [exact Hr | exact Hw].
  - destruct Hr; discriminate.
Qed.

Lemma walk_scalar_result (place : list step) (d : dict) (n : string) (val : value)
    (s : State) :
  In (n, val) d -> is_scalar val = true ->
  walk_item place d n val s
  = (Ok tt,
     (if String.eqb n "filename"
      then set_filelist (filelist (emit (Log DEBUG "%s = %s" [VStr n; val]) s)
                         ++ [(place, d)])%list
             (emit (Log DEBUG "%s = %s" [VStr n; val]) s)
      else emit (Log DEBUG "%s = %s" [VStr n; val]) s)) /\
  walk_result s (walk_item place d n val s).
Proof.
  intros Hin Hsc.
  assert (E : walk_item place d n val s
              = (Ok tt,
                 (if String.eqb n "filename"
                  then set_filelist
                         (filelist (emit (Log DEBUG "%s = %s" [VStr n; val]) s)
                          ++ [(place, d)])%list
                         (emit (Log DEBUG "%s = %s" [VStr n; val]) s)
                  else emit (Log DEBUG "%s = %s" [VStr n; val]) s))).
  { destruct val; try discriminate Hsc; unfold walk_item; run_monad;
      destruct (String.eqb n "filename"); reflexivity. }
  split; [exact E|]. rewrite E. split; [now left|]. simpl.
  destruct (String.eqb_spec n "filename") as [->|Hne].
  - exists [(place, d)], [Log DEBUG "%s = %s" [VStr "filename"; val]].
    split; [reflexivity|]. split.
    + intros p d' [H|[]]. injection H as _ <-. exact (dict_has_in _ _ _ Hin).
    + intros e [<-|[]]. now exists "filename", val.
  - exists [], [Log DEBUG "%s = %s" [VStr n; val]]. rewrite app_nil_r.
    split; [reflexivity|]. split.
    + intros p d' [].
    + intros e [<-|[]]. now exists n, val.
Qed.

(** The walk of any value, and of the elements of any tuple. *)
Lemma find_files_walks (v : value) :
  (forall place s, walk_result s (find_files_in_swdesc place v s)) /\
  (forall ts, v = VTuple ts ->
     forall place n i s, walk_result s (walk_elems place n i ts s)).
Proof.
  induction v using value_nested_ind.
  - split; [intros; apply walk_result_raise | discriminate].
  - split; [intros; apply walk_result_raise | discriminate].
  - split; [intros; apply walk_result_raise | discriminate].
  - split; [intros; apply walk_result_raise | discriminate].
  - split; [|discriminate]. intros place s. rewrite find_files_dict.
    assert (Hall : forall l, (forall item, In item l -> In item d) ->
              Forall (fun kv =>
                (forall place s, walk_result s (find_files_in_swdesc place (snd kv) s)) /\
                (forall ts, snd kv = VTuple ts ->
                   forall place n i s, walk_result s (walk_elems place n i ts s))) l ->
              forall s, walk_result s (walk_items place d l s)).
    { induction l as [|[n val] l IHl]; intros Hincl Hl s0.
      - split; [now left | apply walked_refl].
      - inversion Hl as [|? ? [Hv Ht] Hl']; subst. simpl in Hv, Ht.
        change (walk_items place d ((n, val) :: l))
          with (walk_item place d n val ;;; walk_items place d l).
        apply walk_result_bind.
        + destruct (is_scalar val) eqn:Hsc.
          * exact (proj2 (walk_scalar_result place d n val s0
                            (Hincl _ (or_introl eq_refl)) Hsc)).
          * destruct val; try discriminate Hsc.
            -- apply Hv.
            -- exact (Ht _ eq_refl place n 0 s0).
        + apply IHl; [intros item Hi; apply Hincl; now right | exact Hl']. }
    apply Hall; [auto | exact H].
  - split; [intros; apply walk_result_raise|].
    intros ts E. injection E as <-. intros place n.
    induction H as [|t l [Ht _] Hl IHl]; intros i s.
    + split; [now left | apply walked_refl].
    + change (walk_elems place n i (t :: l))
        with (find_files_in_swdesc (place ++ [Key n; Idx i])%list t ;;;
              walk_elems place n (S i) l).
      apply walk_result_bind; [apply Ht | apply IHl].
  - split; [intros; apply walk_result_raise | discriminate].
Qed.

Lemma walk_item_walks (place : list step) (d : dict) (n : string) (val : value)
    (s : State) :
  In (n, val) d -> walk_result s (walk_item place d n val s).
Proof.
  intros Hin. destruct (is_scalar val) eqn:Hsc.
  - exact (proj2 (walk_scalar_result place d n val s Hin Hsc)).
  - destruct val; try discriminate Hsc.
    + apply (proj1 (find_files_walks (VDict d0))).
    + exact (proj2 (find_files_walks (VTuple l)) _ eq_refl place n 0 s).
Qed.

Lemma walk_bind_raises (m k : M unit) (s : State) :
  walk_result s (m s) ->
  (forall s1, fst (k s1) = Raise (AttributeError "object" "items")) ->
  fst ((m ;;; k) s) = Raise (AttributeError "object" "items").
Proof.
  intros [Hr _] Hk. unfold bind.
  destruct (m s) as [[[]|c|e|] s1]; simpl in Hr.
  - apply Hk.
  - destruct Hr; discriminate.
  - destruct Hr as [Hr|Hr]; [discriminate | exact Hr].
  - destruct Hr; discriminate.
Qed.

Lemma raises_bind (m k : M unit) (s : State) (e : exn) :
  fst (m s) = Raise e -> fst ((m ;;; k) s) = Raise e.
Proof.
  unfold bind. destruct (m s) as [[[]|c|e'|] s1]; simpl; intros H;
    try discriminate; exact H.
Qed.

Lemma walk_elems_raises (place : list step) (n : string) (t : value) :
  (forall d, t <> VDict d) ->
  forall ts, In t ts ->
    forall i s, fst (walk_elems place n i ts s) = Raise (AttributeError "object" "items").
Proof.
  intros Ht. induction ts as [|t0 ts IH]; intros Hin i s; [contradiction|].
  change (walk_elems place n i (t0 :: ts))
    with (find_files_in_swdesc (place ++ [Key n; Idx i])%list t0 ;;;
          walk_elems place n (S i) ts).
  destruct Hin as [->|Hin].
  - apply raises_bind. now rewrite find_files_no_items.
  - apply walk_bind_raises; [apply (proj1 (find_files_walks t0))|].
    intros s1. now apply IH.
Qed.

Lemma walk_items_raises (place : list step) (d : dict) (n : string)
    (ts : list value) (t : value) :
  In t ts -> (forall d', t <> VDict d') ->
  forall l, (forall item, In item l -> In item d) -> In (n, VTuple ts) l ->
    forall s, fst (walk_items place d l s) = Raise (AttributeError "object" "items").
Proof.
  intros Hin Ht. induction l as [|[n0 val] l IH]; intros Hincl Hl s; [contradiction|].
  change (walk_items place d ((n0, val) :: l))
    with (walk_item place d n0 val ;;; walk_items place d l).
  destruct Hl as [E|Hl].
  - injection E as -> ->. apply raises_bind.
    exact (walk_elems_raises place n t Ht ts Hin 0 s).
  - apply walk_bind_raises.
    + apply walk_item_walks. apply Hincl. now left.
    + intros s1. apply IH; [intros item Hi; apply Hincl; now right | exact Hl].
Qed.

Lemma walked_filelist (s s' : State) (item : list step * dict) :
  walked s s' -> In item (filelist s) -> In item (filelist s').
Proof.
  intros (added & logs & -> & _) Hin. simpl. apply in_or_app. now left.
Qed.

Lemma walk_items_walks (place : list step) (d : dict) :
  forall l, (forall item, In item l -> In item d) ->
    forall s, walk_result s (walk_items place d l s).
Proof.
  induction l as [|[n val] l IH]; intros Hincl s.
  - split; [now left | apply walked_refl].
  - change (walk_items place d ((n, val) :: l))
      with (walk_item place d n val ;;; walk_items place d l).
    apply walk_result_bind.
    + apply walk_item_walks. apply Hincl. now left.
    + apply IH. intros item Hi. apply Hincl. now right.
Qed.

Lemma walk_items_collects (place : list step) (d : dict) (val : value) :
  is_scalar val = true ->
  forall l, (forall item, In item l -> In item d) -> In ("filename", val) l ->
    forall s s', walk_items place d l s = (Ok tt, s') ->
      In (place, d) (filelist s').
Proof.
  intros Hsc. induction l as [|[n0 v0] l IH]; intros Hincl Hl s s' H; [contradiction|].
  change (walk_items place d ((n0, v0) :: l))
    with (walk_item place d n0 v0 ;;; walk_items place d l) in H.
  apply bind_ok in H. destruct H as ([] & s1 & H1 & H2).
  destruct Hl as [E|Hl].
  - injection E as -> ->.
    destruct (walk_scalar_result place d "filename" val s
                (Hincl _ (or_introl eq_refl)) Hsc) as [E _].
    rewrite E in H1. injection H1 as <-.
    pose proof (walk_items_walks place d l
                  (fun item Hi => Hincl item (or_intror Hi))) as Hw.
    match type of H2 with
    | walk_items _ _ _ ?st = _ => specialize (Hw st); rewrite H2 in Hw
    end.
    destruct Hw as [_ Hw]. apply (walked_filelist _ _ _ Hw).
    simpl. apply in_or_app. right. now left.
  - apply (IH (fun item Hi => Hincl item (or_intror Hi)) Hl s1 s' H2).
Qed.

(** *** Every group of the tree *)

Lemma collects_weaken (G G' : list step -> dict -> Prop) (s : State)
    (out : res unit * State) :
  (forall p g, G p g <-> G' p g) -> collects G s out -> collects G' s out.
Proof.
  intros HG [(added & Hf & Ha) Hc]. split.
  - exists added. split; [exact Hf|]. intros p g Hin. apply HG. auto.
  - intros Hok p g Hg. apply Hc; [exact Hok | now apply HG].
Qed.

Lemma collects_stop (G : list step -> dict -> Prop) (s : State) (r : res unit) :
  r <> Ok tt -> collects G s (r, s).
Proof.
  intros Hr. split.
  - exists []. simpl. split; [now rewrite app_nil_r | intros p g []].
  - simpl. intros H. contradiction.
Qed.

Lemma collects_ret (G : list step -> dict -> Prop) (s : State) :
  (forall p g, ~ G p g) -> collects G s (Ok tt, s).
Proof.
  intros HG. split.
  - exists []. simpl. split; [now rewrite app_nil_r | intros p g []].
  - intros _ p g Hg. destruct (HG p g Hg).
Qed.

Lemma collects_bind (G1 G2 : list step -> dict -> Prop) (m k : M unit) (s : State) :
  collects G1 s (m s) -> (forall s1, collects G2 s1 (k s1)) ->
  collects (fun p g => G1 p g \/ G2 p g) s ((m ;;; k) s).
Proof.
  intros [(a1 & Hf1 & Ha1) Hc1] Hk. unfold bind.
  destruct (m s) as [[[]|c|e|] s1]; simpl in Hf1, Hc1.
  - destruct (Hk s1) as [(a2 & Hf2 & Ha2) Hc2]. split.
    + exists (a1 ++ a2)%list. split; [now rewrite Hf2, Hf1, app_assoc|].
      intros p g Hin. apply in_app_or in Hin. destruct Hin; [left | right]; auto.
    + intros Hok p g [Hg|Hg].
      * rewrite Hf2. apply in_or_app. left. now apply Hc1.
      * now apply Hc2.
  - split; [exists a1; split; [exact Hf1 | intros; left; auto] | discriminate].
  - split; [exists a1; split; [exact Hf1 | intros; left; auto] | discriminate].
  - split; [exists a1; split; [exact Hf1 | intros; left; auto] | discriminate].
Qed.

Lemma target_items (place : list step) (d : dict) (p : list step) (g : dict) :
  target place (VDict d) p g <-> items_targets place d d p g.
Proof.
  split.
  - intros [Hgrp Hname]. inversion Hgrp; subst.
    + destruct Hname as (val & Hin & Hsc). exists "filename", val.
      split; [exact Hin|]. destruct val; try discriminate Hsc; repeat split.
    + exists n, (VDict d'). split; [assumption|]. split; assumption.
    + exists n, (VTuple ts). split; [assumption|]. exists i, t.
      split; [assumption|]. split; assumption.
  - intros (n & val & Hin & Hit).
    destruct val;
      try (destruct Hit as (-> & -> & ->);
           split; [apply group_here | eexists; split; [exact Hin | reflexivity]]).
    + destruct Hit as [Hgrp Hname]. split; [|exact Hname].
      eapply group_under; eauto.
    + destruct Hit as (j & t & Hnth & Hgrp & Hname). split; [|exact Hname].
      eapply group_elem; eauto.
Qed.

Lemma items_targets_cons (place : list step) (d : dict) (n : string) (val : value)
    (l : list (string * value)) (p : list step) (g : dict) :
  item_targets place d n val p g \/ items_targets place d l p g
  <-> items_targets place d ((n, val) :: l) p g.
Proof.
  split.
  - intros [H|(n' & val' & Hin & H)].
    + exists n, val. split; [now left | exact H].
    + exists n', val'. split; [now right | exact H].
  - intros (n' & val' & [E|Hin] & H).
    + injection E as <- <-. now left.
    + right. now exists n', val'.
Qed.

Lemma elems_targets_cons (place : list step) (n : string) (i : nat) (t : value)
    (ts : list value) (p : list step) (g : dict) :
  target (place ++ [Key n; Idx i])%list t p g \/ elems_targets place n (S i) ts p g
  <-> elems_targets place n i (t :: ts) p g.
Proof.
  split.
  - intros [H|(j & t' & Hnth & H)].
    + exists 0, t. split; [reflexivity|]. now rewrite Nat.add_0_r.
    + exists (S j), t'. split; [exact Hnth|]. now rewrite Nat.add_succ_r.
  - intros ([|j] & t' & Hnth & H).
    + injection Hnth as <-. left. now rewrite Nat.add_0_r in H.
    + right. exists j, t'. split; [exact Hnth|]. now rewrite Nat.add_succ_r in H.
Qed.

Lemma walk_scalar_collects (place : list step) (d : dict) (n : string) (val : value)
    (s : State) :
  is_scalar val = true ->
  collects (item_targets place d n val) s (walk_item place d n val s).
Proof.
  intros Hsc.
  assert (E : walk_item place d n val s
              = (Ok tt,
                 (if String.eqb n "filename"
                  then set_filelist
                         (filelist (emit (Log DEBUG "%s = %s" [VStr n; val]) s)
                          ++ [(place, d)])%list
                         (emit (Log DEBUG "%s = %s" [VStr n; val]) s)
                  else emit (Log DEBUG "%s = %s" [VStr n; val]) s))).
  { destruct val; try discriminate Hsc; unfold walk_item; run_monad;
      destruct (String.eqb n "filename"); reflexivity. }
  rewrite E. destruct (String.eqb_spec n "filename") as [->|Hne]; split.
  - exists [(place, d)]. split; [reflexivity|].
    intros p g [H|[]]. injection H as <- <-.
    destruct val; try discriminate Hsc; repeat split.
  - intros _ p g Hit. simpl. apply in_or_app. right.
    destruct val; try discriminate Hsc; destruct Hit as (_ & -> & ->); now left.
  - exists []. split; [simpl; now rewrite app_nil_r | intros p g []].
  - intros _ p g Hit.
    destruct val; try discriminate Hsc; destruct Hit as (Hn & _); contradiction.
Qed.

(** The walk of any value, and of the elements of any tuple, collects the
    groups that name a file: all of them when it returns, and no other. *)
Lemma find_files_collects (v : value) :
  (forall place s, collects (target place v) s (find_files_in_swdesc place v s)) /\
  (forall ts, v = VTuple ts ->
     forall place n i s,
       collects (elems_targets place n i ts) s (walk_elems place n i ts s)).
Proof.
  induction v using value_nested_ind.
  - split; [intros; apply collects_stop | ]; discriminate.
  - split; [intros; apply collects_stop | ]; discriminate.
  - split; [intros; apply collects_stop | ]; discriminate.
  - split; [intros; apply collects_stop | ]; discriminate.
  - split; [|discriminate]. intros place s. rewrite find_files_dict.
    apply (collects_weaken (items_targets place d d));
      [intros p g; symmetry; apply target_items|].
    assert (Hall : forall l,
              Forall (fun kv =>
                (forall place s,
                   collects (target place (snd kv)) s
                     (find_files_in_swdesc place (snd kv) s)) /\
                (forall ts, snd kv = VTuple ts ->
                   forall place n i s,
                     collects (elems_targets place n i ts) s
                       (walk_elems place n i ts s))) l ->
              forall s, collects (items_targets place d l) s (walk_items place d l s)).
    { induction l as [|[n val] l IHl]; intros Hl s0.
      - apply collects_ret. intros p g (n & val & [] & _).
      - inversion Hl as [|? ? [Hv Ht] Hl']; subst. simpl in Hv, Ht.
        change (walk_items place d ((n, val) :: l))
          with (walk_item place d n val ;;; walk_items place d l).
        apply (collects_weaken
                 (fun p g => item_targets place d n val p g
                             \/ items_targets place d l p g));
          [intros p g; apply items_targets_cons|].
        apply collects_bind; [|apply IHl; exact Hl'].
        destruct (is_scalar val) eqn:Hsc.
        + now apply walk_scalar_collects.
        + destruct val; try discriminate Hsc.
          * apply Hv.
          * exact (Ht _ eq_refl place n 0 s0). }
    apply Hall. exact H.
  - split; [intros; apply collects_stop; discriminate|].
    intros ts E. injection E as <-. intros place n.
    induction H as [|t l [Ht _] Hl IHl]; intros i s.
    + apply collects_ret. intros p g (j & t & Hnth & _). destruct j; discriminate.
    + change (walk_elems place n i (t :: l))
        with (find_files_in_swdesc (place ++ [Key n; Idx i])%list t ;;;
              walk_elems place n (S i) l).
      apply (collects_weaken
               (fun p g => target (place ++ [Key n; Idx i])%list t p g
                           \/ elems_targets place n (S i) l p g));
        [intros p g; apply elems_targets_cons|].
      apply collects_bind; [apply Ht | intros s1; apply IHl].
  - split; [intros; apply collects_stop | ]; discriminate.
Qed.

(** X9. [find_files_in_swdesc] either returns or raises the
    [AttributeError] of a value that has no [items]; it never exits. All
    it changes is [filelist], which grows at its end by groups that have
    the key [filename], and the log. It raises whenever a tuple of the
    group holds something that is not a group, a string for instance, and
    when it returns, a group whose [filename] is neither a group nor a
    tuple has been collected. This holds at every depth: when the walk
    returns, every group of the tree that has such a [filename] has been
    collected with its place, be it the group the walk starts on, a group
    under an item of a group, or an element of a tuple, and whether the
    walk returns or raises, what it adds are such groups of the tree and
    nothing else. *)
Theorem X9_walk_collects_the_groups_with_a_filename :
  forall (place : list step) (v : value) (s : State),
    walk_result s (find_files_in_swdesc place v s) /\
    ((forall d, v <> VDict d) ->
     find_files_in_swdesc place v s = (Raise (AttributeError "object" "items"), s)) /\
    (forall d n ts t,
       v = VDict d -> In (n, VTuple ts) d -> In t ts -> (forall d', t <> VDict d') ->
       fst (find_files_in_swdesc place v s) = Raise (AttributeError "object" "items")) /\
    (forall d val s',
       v = VDict d -> In ("filename", val) d -> is_scalar val = true ->
       find_files_in_swdesc place v s = (Ok tt, s') ->
       In (place, d) (filelist s')) /\
    (forall s' p g,
       find_files_in_swdesc place v s = (Ok tt, s') ->
       group_in place v p g -> names_a_file g ->
       In (p, g) (filelist s')) /\
    (exists added,
       filelist (snd (find_files_in_swdesc place v s)) = (filelist s ++ added)%list /\
       forall p g, In (p, g) added -> group_in place v p g /\ names_a_file g).
Proof.
  intros place v s. split; [apply (proj1 (find_files_walks v))|].
  split; [apply find_files_no_items|]. split; [|split].
  - intros d n ts t -> Hin Ht Hno. rewrite find_files_dict.
    exact (walk_items_raises place d n ts t Ht Hno d (fun _ Hi => Hi) Hin s).
  - intros d val s' -> Hin Hsc H. rewrite find_files_dict in H.
    exact (walk_items_collects place d val Hsc d (fun _ Hi => Hi) Hin s s' H).
  - destruct (proj1 (find_files_collects v) place s) as [Hadded Hall]. split.
    + intros s' p g Hrun Hgrp Hname. rewrite Hrun in Hall.
      exact (Hall eq_refl p g (conj Hgrp Hname)).
    + exact Hadded.
Qed.

Lemma X9_witness :
  fst (find_files_in_swdesc [Key "software"]
         (VDict [("version", VStr "1.0");
                 ("images", VTuple [VDict [("filename", VStr "a")]; VStr "b"])])
         (Demo.start None None (fun _ => None)))
  = Raise (AttributeError "object" "items") /\
  In ([Key "software"], [("version", VStr "1.0"); ("filename", VStr "a")])
     (filelist
        (snd (find_files_in_swdesc [Key "software"]
                (VDict [("version", VStr "1.0"); ("filename", VStr "a")])
                (Demo.start None None (fun _ => None))))) /\
  In ([Key "software"; Key "board"; Key "images"; Idx 1], [("filename", VStr "b")])
     (filelist
        (snd (find_files_in_swdesc [Key "software"]
                (VDict [("version", VStr "1.0");
                        ("board",
                         VDict [("images",
                                 VTuple [VDict [("filename", VStr "a")];
                                         VDict [("filename", VStr "b")]])])])
                (Demo.start None None (fun _ => None))))).
Proof.
  split; [|split].
  - destruct (X9_walk_collects_the_groups_with_a_filename [Key "software"]
                (VDict [("version", VStr "1.0");
                        ("images", VTuple [VDict [("filename", VStr "a")]; VStr "b"])])
                (Demo.start None None (fun _ => None)))
      as (_ & _ & Hraise & _).
    apply (Hraise _ "images" [VDict [("filename", VStr "a")]; VStr "b"] (VStr "b")
             eq_refl).
    + right. now left.
    + right. now left.
    + discriminate.
  - destruct (X9_walk_collects_the_groups_with_a_filename [Key "software"]
                (VDict [("version", VStr "1.0"); ("filename", VStr "a")])
                (Demo.start None None (fun _ => None)))
      as (_ & _ & _ & Hcollect & _).
    apply (Hcollect _ (VStr "a") _ eq_refl).
    + right. now left.
    + reflexivity.
    + reflexivity.
  - destruct (X9_walk_collects_the_groups_with_a_filename [Key "software"]
                (VDict [("version", VStr "1.0");
                        ("board",
                         VDict [("images",
                                 VTuple [VDict [("filename", VStr "a")];
                                         VDict [("filename", VStr "b")]])])])
                (Demo.start None None (fun _ => None)))
      as (_ & _ & _ & _ & Hdeep & _).
    eapply Hdeep.
    + vm_compute. reflexivity.
    + eapply (group_under _ _ "board"); [right; now left|].
      eapply (group_elem _ _ "images" _ 1); [now left | reflexivity|].
      apply group_here.
    + exists (VStr "b"). split; [now left | reflexivity].
Defined.

(** ** A template without directives *)

Lemma expand_lines_plain (cfg : Config) (fuel : nat) (ls : list string) :
  (forall l, In l ls -> count_char "@" l = 0) ->
  expand_lines cfg (S fuel) ls = Ok ls.
Proof.
  induction ls as [|line ls IH]; intros H; [reflexivity|].
  cbn [expand_lines expand_line].
  rewrite (match_variable_needs_at line (H _ (or_introl eq_refl))).
  now rewrite (IH (fun l Hl => H l (or_intror Hl))).
Qed.

Lemma exec_from_plain (P : Platform) (cfg : Config) (ls : list string) :
  (forall l, In l ls -> count_char "$" l = 0) ->
  forall index s, exec_from P cfg index ls s = (Ok tt, s).
Proof.
  induction ls as [|line ls IH]; intros H index s; [reflexivity|].
  cbn [exec_from]. unfold exec_line.
  rewrite (match_function_needs_dollar line (H _ (or_introl eq_refl))).
  run_monad. apply IH. intros l Hl. apply H. now right.
Qed.

(** X10. The lines that [_read_swdesc] reads, put together again as
    [process] does before it parses them, are the text of the template
    with its line ends read as line feeds. A template without [@] and [$]
    goes through [_expand_variables] and [_exec_functions] as it is. A
    template that is not there ends [process] with [FileNotFoundError]
    before anything is changed. *)
Theorem X10_template_without_directives_is_parsed_as_it_is :
  forall (P : Platform) (cfg : Config) (fuel : nat) (s : State),
    (fs s (swdescription cfg) = None ->
     process P cfg fuel s = (Raise (FileNotFoundError (swdescription cfg)), s)) /\
    (forall content,
       fs s (swdescription cfg) = Some (File content) ->
       _read_swdesc cfg s
       = (Ok tt, set_lines (readlines "" (universal_newlines content)) s) /\
       str_concat (readlines "" (universal_newlines content))
       = universal_newlines content /\
       (count_char "@" content = 0 -> count_char "$" content = 0 ->
        (_read_swdesc cfg ;;; _expand_variables cfg (S fuel) ;;; _exec_functions P cfg) s
        = (Ok tt, set_lines (readlines "" (universal_newlines content)) s))).
Proof.
  intros P cfg fuel s. split.
  - intros Hnone. unfold process, _read_swdesc, read_file, bind. now rewrite Hnone.
  - intros content Hfile.
    assert (Hread : _read_swdesc cfg s
                    = (Ok tt, set_lines (readlines "" (universal_newlines content)) s)).
    { unfold _read_swdesc, read_file, bind, modify. now rewrite Hfile. }
    pose proof (readlines_concat (universal_newlines content) "") as Hcat.
    change ("" ++ universal_newlines content) with (universal_newlines content) in Hcat.
    split; [exact Hread|]. split; [exact Hcat|].
    intros Hat Hdollar.
    assert (Hat' : forall l, In l (readlines "" (universal_newlines content)) ->
                     count_char "@" l = 0).
    { apply count_char_concat. rewrite Hcat.
      now rewrite (universal_newlines_count "@" eq_refl eq_refl _ content (le_n _)). }
    assert (Hdollar' : forall l, In l (readlines "" (universal_newlines content)) ->
                         count_char "$" l = 0).
    { apply count_char_concat. rewrite Hcat.
      now rewrite (universal_newlines_count "$" eq_refl eq_refl _ content (le_n _)). }
    unfold bind at 1. rewrite Hread.
    unfold _expand_variables, _exec_functions. run_monad.
    rewrite (expand_lines_plain cfg fuel _ Hat'). simpl.
    now rewrite (exec_from_plain P cfg _ Hdollar').
Qed.

Lemma X10_witness :
  (_read_swdesc Demo.config ;;; _expand_variables Demo.config 1 ;;;
   _exec_functions (Demo.platform VNone) Demo.config)
    (Demo.start None None
       (Demo.files [("/work/sw-description.in",
                     String "a" (String CR (String LF (String "b" (String LF "c")))))]))
  = (Ok tt,
     set_lines [String "a" nl; String "b" nl; "c"]
       (Demo.start None None
          (Demo.files [("/work/sw-description.in",
                        String "a" (String CR (String LF (String "b" (String LF "c")))))]))).
Proof.
  destruct (X10_template_without_directives_is_parsed_as_it_is
              (Demo.platform VNone) Demo.config 0
              (Demo.start None None
                 (Demo.files [("/work/sw-description.in",
                               String "a" (String CR (String LF (String "b" (String LF "c")))))])))
    as [_ H].
  destruct (H _ eq_refl) as (_ & _ & Hplain).
  exact (Hplain eq_refl eq_refl).
Defined.

(** ** Calls of a line *)

(** X11. [_exec_functions] evaluates one call of a line, the last one,
    and goes on with the next line: when the argument and the text after a
    call have no [$], the text after it no [)], and nothing but the end of
    the line follows, this call is the match whatever comes before it.
    Calls before it stay in the line as text. The new line is the text
    before, the result and the text after, with a line feed whether or not
    the line had one. A result that is no string raises [TypeError]. *)
Theorem X11_only_the_last_call_of_a_line_is_evaluated :
  forall (P : Platform) (cfg : Config) (index : nat) (s : State)
         (b n p a tail : string),
    b <> "" -> str_forall is_dot b = true ->
    n <> "" -> str_forall is_word n = true ->
    p <> "" -> str_forall is_dot p = true -> count_char "$" p = 0 ->
    a <> "" -> str_forall is_dot a = true ->
    count_char "$" a = 0 -> count_char ")" a = 0 ->
    (tail = "" \/ tail = nl) ->
    let line := b ++ "$" ++ n ++ "(" ++ p ++ ")" ++ a ++ tail in
    match_function line = Some (FunMatch b n p a) /\
    exec_line P cfg index line s
    = match eval_call P cfg n p s with
      | (Ok (VStr text), s') =>
          (Ok tt, set_lines (list_set index (b ++ text ++ a ++ nl) (lines s')) s')
      | (Ok _, s') => (Raise (TypeError "can only concatenate str to str"), s')
      | (Exit c, s') => (Exit c, s')
      | (Raise e, s') => (Raise e, s')
      | (OutOfFuel, s') => (OutOfFuel, s')
      end.
Proof.
  intros P cfg index s b n p a tail Hb Hbd Hn Hnw Hp Hpd Hp0 Ha Had Ha0 Hac Htail line.
  pose proof (match_function_last b n p a tail Hb Hbd Hn Hnw Hp Hpd Hp0 Ha Had Ha0 Hac
                Htail) as Hm.
  fold line in Hm. split; [exact Hm|].
  unfold exec_line. rewrite Hm. cbn [fm_before fm_name fm_parms fm_after].
  unfold bind.
  destruct (eval_call P cfg n p s) as [[[| | |text| | |]| | |] s']; reflexivity.
Qed.

Lemma X11_witness :
  exec_line (Demo.platform VNone) Demo.config 0
    "a = $swupdate_get_size(a); b = $swupdate_get_size(a);"
    (set_lines ["a = $swupdate_get_size(a); b = $swupdate_get_size(a);"]
       (Demo.start None None (Demo.files [("/work/a", "PLAIN")])))
  = (Ok tt,
     set_lines [("a = $swupdate_get_size(a); b = 5;" ++ nl)%string]
       (emit (Eval ("self.swupdate_get_size(" ++ dquote ++ "a" ++ dquote ++ ")"))
          (set_lines ["a = $swupdate_get_size(a); b = $swupdate_get_size(a);"]
             (Demo.start None None (Demo.files [("/work/a", "PLAIN")]))))).
Proof.
  destruct (X11_only_the_last_call_of_a_line_is_evaluated
              (Demo.platform VNone) Demo.config 0
              (set_lines ["a = $swupdate_get_size(a); b = $swupdate_get_size(a);"]
                 (Demo.start None None (Demo.files [("/work/a", "PLAIN")])))
              "a = $swupdate_get_size(a); b = " "swupdate_get_size" "a" ";" ""
              ltac:(discriminate) eq_refl ltac:(discriminate) eq_refl
              ltac:(discriminate) eq_refl eq_refl
              ltac:(discriminate) eq_refl eq_refl eq_refl (or_introl eq_refl))
    as [_ H].
  exact H.
Defined.

(** X12. A lookup of the template for a name that no search directory
    holds: [swupdate_get_sha256] gives [None], which cannot be put into
    the line, so the run ends with [TypeError]; [swupdate_get_size] gives
    the text [0], and the run goes on. Nothing is logged and nothing
    exits. *)
Theorem X12_lookup_of_a_missing_file :
  forall (P : Platform) (cfg : Config) (index : nat) (line : string)
         (m : fun_match) (s : State),
    match_function line = Some m ->
    str_forall plain_char (fm_parms m) = true ->
    _get_artifact_source_path (fs s) (fm_parms m) (artifactory cfg) = None ->
    let expr := "self." ++ fm_name m ++ "(" ++ dquote ++ fm_parms m ++ dquote ++ ")" in
    (fm_name m = "swupdate_get_sha256" ->
     exec_line P cfg index line s
     = (Raise (TypeError "can only concatenate str to str"), emit (Eval expr) s)) /\
    (fm_name m = "swupdate_get_size" ->
     exec_line P cfg index line s
     = (Ok tt,
        set_lines (list_set index (fm_before m ++ "0" ++ fm_after m ++ nl) (lines s))
          (emit (Eval expr) s))).
Proof.
  intros P cfg index line m s Hm Hplain Hsrc expr. split; intros Hname.
  - unfold exec_line. rewrite Hm. unfold eval_call, bind. run_monad.
    rewrite Hplain, Hname. simpl.
    unfold swupdate_get_sha256, Artifact_get_sha256, Artifact_exists, Artifact_init.
    run_monad. rewrite Hsrc. simpl. subst expr. now rewrite Hname.
  - unfold exec_line. rewrite Hm. unfold eval_call, bind. run_monad.
    rewrite Hplain, Hname. simpl.
    unfold swupdate_get_size, Artifact_get_size, Artifact_exists, Artifact_init.
    run_monad. rewrite Hsrc. simpl. subst expr. now rewrite Hname.
Qed.

Lemma X12_witness :
  exec_line (Demo.platform VNone) Demo.config 0 "sha256 = $swupdate_get_sha256(b);"
    (set_lines ["sha256 = $swupdate_get_sha256(b);"]
       (Demo.start None None (Demo.files [("/work/a", "PLAIN")])))
  = (Raise (TypeError "can only concatenate str to str"),
     emit (Eval ("self.swupdate_get_sha256(" ++ dquote ++ "b" ++ dquote ++ ")"))
       (set_lines ["sha256 = $swupdate_get_sha256(b);"]
          (Demo.start None None (Demo.files [("/work/a", "PLAIN")])))).
Proof.
  exact (proj1 (X12_lookup_of_a_missing_file (Demo.platform VNone) Demo.config 0
                  "sha256 = $swupdate_get_sha256(b);"
                  (FunMatch "sha256 = " "swupdate_get_sha256" "b" ";")
                  (set_lines ["sha256 = $swupdate_get_sha256(b);"]
                     (Demo.start None None (Demo.files [("/work/a", "PLAIN")])))
                  eq_refl eq_refl eq_refl) eq_refl).
Defined.

(** ** The command line *)

(** X13. [extract_keys] on a key file. A file that cannot be opened is
    logged and ends the run with status 1. A file with the two lines
    [key=K] and [iv=I], in either order, gives [K] and [I] as they are
    written, when neither holds [=] or a line end, [K] has no [i] and [I]
    no [k] (hexadecimal digits are such). A line that holds [key] or [iv]
    and no [=] ends the run with [IndexError]. *)
Theorem X13_keys_of_a_key_file :
  forall (keyfile : string) (s : State),
    ((forall content, fs s keyfile <> Some (File content)) ->
     extract_keys keyfile s
     = (Exit 1, emit (Log CRITICAL "Failed to open file with keys %s" [VStr keyfile]) s)) /\
    (forall k i,
       (forall x, In x ["="%char; LF; CR; "i"%char] -> count_char x k = 0) ->
       (forall x, In x ["="%char; LF; CR; "k"%char] -> count_char x i = 0) ->
       (fs s keyfile = Some (File ("key=" ++ k ++ nl ++ "iv=" ++ i ++ nl)) ->
        extract_keys keyfile s = (Ok (Some k, Some i), s)) /\
       (fs s keyfile = Some (File ("iv=" ++ i ++ nl ++ "key=" ++ k ++ nl)) ->
        extract_keys keyfile s = (Ok (Some k, Some i), s))) /\
    (forall content line,
       fs s keyfile = Some (File content) ->
       In line (readlines "" (universal_newlines content)) ->
       contains "key" line || contains "iv" line = true ->
       count_char "=" line = 0 ->
       extract_keys keyfile s = (Raise IndexError, s)).
Proof.
  intros keyfile s. split; [|split].
  - intros Hno. unfold extract_keys. run_monad.
    destruct (fs s keyfile) as [[content|sz]|]; try reflexivity.
    now destruct (Hno content).
  - intros k i Hk Hi.
    assert (Hk1 : count_char "=" k = 0) by (apply Hk; simpl; auto).
    assert (Hk2 : count_char LF k = 0) by (apply Hk; simpl; auto).
    assert (Hk3 : count_char CR k = 0) by (apply Hk; simpl; auto).
    assert (Hk4 : count_char "i" k = 0) by (apply Hk; simpl; auto).
    assert (Hi1 : count_char "=" i = 0) by (apply Hi; simpl; auto).
    assert (Hi2 : count_char LF i = 0) by (apply Hi; simpl; auto).
    assert (Hi3 : count_char CR i = 0) by (apply Hi; simpl; auto).
    assert (Hi4 : count_char "k" i = 0) by (apply Hi; simpl; auto).
    destruct (keys_of_key_iv k i Hk1 Hk2 Hk4 Hi1 Hi2 Hi4) as [E1 E2].
    split; intros Hfile; unfold extract_keys; run_monad; rewrite Hfile.
    + rewrite (key_file_lines "key=" "iv=" k i eq_refl eq_refl eq_refl eq_refl
                 Hk2 Hk3 Hi2 Hi3).
      now rewrite E1.
    + rewrite (key_file_lines "iv=" "key=" i k eq_refl eq_refl eq_refl eq_refl
                 Hi2 Hi3 Hk2 Hk3).
      now rewrite E2.
  - intros content line Hfile Hin Hc H0. unfold extract_keys. run_monad.
    rewrite Hfile.
    now rewrite (keys_of_lines_no_equals line Hc H0 _ Hin).
Qed.

Lemma X13_witness :
  extract_keys "/work/keys"
    (Demo.start None None
       (Demo.files [("/work/keys", "key=00ff" ++ nl ++ "iv=0a0b" ++ nl)]))
  = (Ok (Some "00ff", Some "0a0b"),
     Demo.start None None
       (Demo.files [("/work/keys", "key=00ff" ++ nl ++ "iv=0a0b" ++ nl)]))
  /\
  extract_keys "/work/keys"
    (Demo.start None None (Demo.files [("/work/keys", "key 00ff" ++ nl)]))
  = (Raise IndexError,
     Demo.start None None (Demo.files [("/work/keys", "key 00ff" ++ nl)])).
Proof.
  split.
  - destruct (X13_keys_of_a_key_file "/work/keys"
                (Demo.start None None
                   (Demo.files [("/work/keys", "key=00ff" ++ nl ++ "iv=0a0b" ++ nl)])))
      as (_ & Htwo & _).
    refine (proj1 (Htwo "00ff" "0a0b" _ _) eq_refl).
    + intros x [<-|[<-|[<-|[<-|[]]]]]; reflexivity.
    + intros x [<-|[<-|[<-|[<-|[]]]]]; reflexivity.
  - destruct (X13_keys_of_a_key_file "/work/keys"
                (Demo.start None None (Demo.files [("/work/keys", "key 00ff" ++ nl)])))
      as (_ & _ & Hbad).
    apply (Hbad _ ("key 00ff" ++ nl) eq_refl).
    + now left.
    + reflexivity.
    + reflexivity.
Defined.

(** X14. The signer that [main] makes for the value of [--sign], read as
    its fields between commas. Only [CMS], [RSA], [PKCS11] and [CUSTOM],
    written so, select a signer; any other first field, an empty value
    too, gives none, without a message: the package is then made unsigned.
    With too few fields the run is logged and ends with status 1. The
    password file is taken only when it is the last of exactly four
    ([CMS]) or three ([RSA]) fields; further fields are dropped, and with
    them the password. *)
Theorem X14_signer_of_the_sign_option :
  forall (s : State) (cmd : string) (parms : list string),
    (forall p, In p (cmd :: parms) -> count_char "," p = 0) ->
    sign_option (Some (str_join "," (cmd :: parms))) s
    = if String.eqb cmd "CMS" then
        match parms with
        | key :: cert :: rest =>
            (Ok (Some (SWUSignCMS key cert
                         match rest with [passin] => Some passin | _ => None end)), s)
        | _ => (Exit 1,
                emit (Log CRITICAL "CMS requires private key and certificate" []) s)
        end
      else if String.eqb cmd "RSA" then
        match parms with
        | key :: rest =>
            (Ok (Some (SWUSignRSA key
                         match rest with [passin] => Some passin | _ => None end)), s)
        | [] => (Exit 1, emit (Log CRITICAL "RSA requires private key" []) s)
        end
      else if String.eqb cmd "PKCS11" then
        match parms with
        | pin :: _ => (Ok (Some (SWUSignPKCS11 pin)), s)
        | [] => (Exit 1, emit (Log CRITICAL "PKCS11 requires URI" []) s)
        end
      else if String.eqb cmd "CUSTOM" then
        match parms with
        | command :: _ => (Ok (Some (SWUSignCustom command)), s)
        | [] => (Exit 1, emit (Log CRITICAL "PKCS11 requires URI" []) s)
        end
      else (Ok None, s).
Proof.
  intros s cmd parms Hno. unfold sign_option.
  destruct (String.eqb_spec (str_join "," (cmd :: parms)) "") as [Hnil|_].
  - assert (E : cmd = "" /\ parms = []).
    { destruct parms as [|y rest]; [now split|].
      change (str_join "," (cmd :: y :: rest))
        with (cmd ++ "," ++ str_join "," (y :: rest)) in Hnil.
      apply str_app_eq_nil in Hnil. destruct Hnil as [_ Hnil].
      apply str_app_eq_nil in Hnil. destruct Hnil as [Hnil _]. discriminate Hnil. }
    destruct E as [-> ->]. reflexivity.
  - rewrite (split_on_join "," cmd parms Hno).
    cbn [nth List.length].
    destruct (String.eqb_spec cmd "CMS") as [->|H1].
    { destruct parms as [|k [|c [|pw [|x rest]]]]; reflexivity. }
    destruct (String.eqb_spec cmd "RSA") as [->|H2].
    { destruct parms as [|k [|pw [|x rest]]]; reflexivity. }
    destruct (String.eqb_spec cmd "PKCS11") as [->|H3].
    { destruct parms as [|k rest]; reflexivity. }
    destruct (String.eqb_spec cmd "CUSTOM") as [->|H4].
    { destruct parms as [|k rest]; reflexivity. }
    reflexivity.
Qed.

Lemma X14_witness :
  sign_option (Some "CMS,key.pem,cert.pem,pw.txt,more") (Demo.start None None (fun _ => None))
  = (Ok (Some (SWUSignCMS "key.pem" "cert.pem" None)),
     Demo.start None None (fun _ => None)) /\
  sign_option (Some "cms,key.pem,cert.pem") (Demo.start None None (fun _ => None))
  = (Ok None, Demo.start None None (fun _ => None)).
Proof.
  split.
  - refine (X14_signer_of_the_sign_option (Demo.start None None (fun _ => None))
              "CMS" ["key.pem"; "cert.pem"; "pw.txt"; "more"] _).
    intros p [<-|[<-|[<-|[<-|[<-|[]]]]]]; reflexivity.
  - refine (X14_signer_of_the_sign_option (Demo.start None None (fun _ => None))
              "cms" ["key.pem"; "cert.pem"] _).
    intros p [<-|[<-|[<-|[]]]]; reflexivity.
Defined.

(** X15. The directories that [main] hands to the generator start with
    the current directory, before those of [--artifactory]. So a file of
    the current directory is the artifact whatever the other directories
    hold, and a file name that starts with [/] is looked up as [pathlib]
    writes it, in no search directory at all. Without [--artifactory] only the current
    directory is searched. *)
Theorem X15_current_directory_is_searched_first :
  forall (resolve : string -> string) (cwd : string) (arg : option string)
         (files : FS) (f : string),
    (fs_exists files (pathlib_join cwd f) = true ->
     source_path (Artifact_init files f (artidirs resolve cwd arg))
     = Some (pathlib_join cwd f)) /\
    (starts_with "/" f = true -> fs_exists files (pure_path f) = true ->
     source_path (Artifact_init files f (artidirs resolve cwd arg))
     = Some (pure_path f)) /\
    (fs_exists files (pathlib_join cwd f) = false ->
     source_path (Artifact_init files f (artidirs resolve cwd None)) = None) /\
    (forall d ds,
       (forall p, In p (d :: ds) -> count_char "," p = 0) ->
       str_join "," (d :: ds) <> "" ->
       artidirs resolve cwd (Some (str_join "," (d :: ds)))
       = cwd :: map resolve (d :: ds)).
Proof.
  intros resolve cwd arg files f.
  assert (Hfirst : fs_exists files (pathlib_join cwd f) = true ->
                   source_path (Artifact_init files f (artidirs resolve cwd arg))
                   = Some (pathlib_join cwd f)).
  { intros H. unfold Artifact_init, artidirs. cbn [source_path].
    cbn [_get_artifact_source_path]. now rewrite H. }
  split; [exact Hfirst|]. split; [|split].
  - intros Habs Hex.
    assert (E : pathlib_join cwd f = pure_path f)
      by (unfold pathlib_join, path_join; now rewrite Habs).
    rewrite E in Hfirst. now apply Hfirst.
  - intros H. unfold Artifact_init, artidirs. cbn [source_path].
    cbn [_get_artifact_source_path]. now rewrite H.
  - intros d ds Hno Hne. unfold artidirs.
    destruct (String.eqb_spec (str_join "," (d :: ds)) "") as [E|_];
      [contradiction|].
    now rewrite (split_on_join "," d ds Hno).
Qed.

Lemma X15_witness :
  source_path
    (Artifact_init (Demo.files [("/build/a", "LOCAL"); ("/work/a", "PLAIN")]) "a"
       (artidirs (fun d => d) "/build" (Some "/work")))
  = Some "/build/a" /\
  source_path
    (Artifact_init (Demo.files [("/etc/passwd", "root"); ("/work/a", "PLAIN")])
       "/etc/passwd" (artidirs (fun d => d) "/build" (Some "/work")))
  = Some "/etc/passwd".
Proof.
  split.
  - exact (proj1 (X15_current_directory_is_searched_first (fun d => d) "/build"
                    (Some "/work")
                    (Demo.files [("/build/a", "LOCAL"); ("/work/a", "PLAIN")]) "a")
             ltac:(vm_compute; reflexivity)).
  - exact (proj1 (proj2 (X15_current_directory_is_searched_first (fun d => d) "/build"
                           (Some "/work")
                           (Demo.files [("/etc/passwd", "root"); ("/work/a", "PLAIN")])
                           "/etc/passwd"))
             eq_refl ltac:(vm_compute; reflexivity)).
Defined.

(** ** The manifest that is encrypted *)

(** X16. What [process] encrypts as the manifest. The artifact of the
    manifest is made before the manifest is written (line 187), and its
    source is looked up like that of any artifact: it is the file named
    [sw-description] that the search directories held then.
    [sw.encrypt] launches the cipher on the resolved path of that file,
    not on the manifest that [process] has just saved in the temporary
    directory; with any exit status the run goes on to the copy, and what
    a failed launch raises ends it. When the search directories hold no
    such file, no cipher is run at all; what is then copied over the saved
    manifest is whatever file of the name with [.enc] is there, and when
    there is none the run ends with [FileNotFoundError]. *)
Theorem X16_manifest_cipher_reads_the_search_directories :
  forall (P : Platform) (cfg : Config) (files0 : FS) (sw_index : nat) (s : State)
         (k iv : string),
    aeskey s = Some k ->
    aesiv s = Some iv ->
    let sw := sw_artifact cfg files0 in
    let saved := path_join (temp cfg) "sw-description" in
    (forall p,
       _get_artifact_source_path files0 "sw-description" (artifactory cfg) = Some p ->
       let argv := openssl_enc (resolve P (fs s) p) (saved ++ ".enc") k iv in
       exists s1,
         encrypt_swdescription P sw sw_index saved s
         = match fst (run_argv P (fs s) argv) with
           | Ok _ => copyfile (saved ++ ".enc") saved s1
           | Exit c => (Exit c, s1)
           | Raise e => (Raise e, s1)
           | OutOfFuel => (OutOfFuel, s1)
           end /\
         external_calls (trace s1) = Run argv :: external_calls (trace s) /\
         fs s1 = snd (run_argv P (fs s) argv)) /\
    (_get_artifact_source_path files0 "sw-description" (artifactory cfg) = None ->
       (exists s1,
          encrypt_swdescription P sw sw_index saved s
          = copyfile (saved ++ ".enc") saved s1 /\
          external_calls (trace s1) = external_calls (trace s) /\
          fs s1 = fs s) /\
       (fs s (saved ++ ".enc") = None ->
        fst (encrypt_swdescription P sw sw_index saved s)
        = Raise (FileNotFoundError (saved ++ ".enc")))).
Proof.
  intros P cfg files0 sw_index s k iv Hk Hiv sw saved.
  assert (Hsrc : source_path (set_fullfilename sw saved)
                 = _get_artifact_source_path files0 "sw-description" (artifactory cfg))
    by reflexivity.
  split.
  - intros p Hp. rewrite Hp in Hsrc.
    unfold encrypt_swdescription, openssl_enc. run_monad. rewrite Hk, Hiv.
    unfold Artifact_encrypt, run. rewrite Hsrc.
    destruct (no_key (Some k)); simpl; unfold bind; simpl;
      destruct (run_argv P (fs s) _) as [[code|c|e|] fs'] eqn:Hrun; simpl;
      try destruct (Z.eqb code 0); simpl;
      eexists; (split; [reflexivity|]); simpl; auto.
  - intros Hnone. rewrite Hnone in Hsrc.
    assert (Hstep : exists s1,
               encrypt_swdescription P sw sw_index saved s
               = copyfile (saved ++ ".enc") saved s1 /\
               external_calls (trace s1) = external_calls (trace s) /\
               fs s1 = fs s).
    { unfold encrypt_swdescription. run_monad. rewrite Hk, Hiv.
      unfold Artifact_encrypt. rewrite Hsrc.
      destruct (no_key (Some k)); simpl; unfold bind; simpl;
        eexists; (split; [reflexivity|]); simpl; auto. }
    split; [exact Hstep|].
    intros Hmissing. destruct Hstep as (s1 & -> & _ & Hfs).
    unfold copyfile, read_file, bind. now rewrite Hfs, Hmissing.
Qed.

Lemma X16_witness :
  fst (process (Demo.platform (VDict [("software", VDict [])]))
         Demo.config_encrypt_swdesc 8
         (Demo.start (Some "00ff") (Some "aa")
            (Demo.files [("/work/sw-description.in", "software = { };");
                         ("/work/sw-description", "OLD")])))
  = Ok tt /\
  fs (snd (process (Demo.platform (VDict [("software", VDict [])]))
             Demo.config_encrypt_swdesc 8
             (Demo.start (Some "00ff") (Some "aa")
                (Demo.files [("/work/sw-description.in", "software = { };");
                             ("/work/sw-description", "OLD")]))))
    "/tmp/swu/sw-description"
  = Some (File "aes<00ff,aa,OLD>") /\
  exists s1,
    encrypt_swdescription (Demo.platform VNone)
      (sw_artifact Demo.config_encrypt_swdesc
         (Demo.files [("/work/sw-description", "OLD")]))
      0 "/tmp/swu/sw-description"
      (Demo.start (Some "00ff") (Some "aa")
         (Demo.files [("/work/sw-description", "OLD");
                      ("/tmp/swu/sw-description", "software = { };")]))
    = copyfile "/tmp/swu/sw-description.enc" "/tmp/swu/sw-description" s1 /\
    external_calls (trace s1)
    = [Run (openssl_enc "/work/sw-description" "/tmp/swu/sw-description.enc"
              "00ff" "aa")].
Proof.
  split; [vm_compute; reflexivity|]. split; [vm_compute; reflexivity|].
  destruct (X16_manifest_cipher_reads_the_search_directories (Demo.platform VNone)
              Demo.config_encrypt_swdesc
              (Demo.files [("/work/sw-description", "OLD")]) 0
              (Demo.start (Some "00ff") (Some "aa")
                 (Demo.files [("/work/sw-description", "OLD");
                              ("/tmp/swu/sw-description", "software = { };")]))
              "00ff" "aa" eq_refl eq_refl)
    as [Hfound _].
  destruct (Hfound "/work/sw-description" ltac:(vm_compute; reflexivity))
    as (s1 & Hrun & Hcalls & _).
  exists s1. split; [exact Hrun | exact Hcalls].
Defined.

(** ** The members of the package *)










(** ** File names that start with [/] *)

Lemma starts_with_slash_app (f x : string) :
  starts_with "/" f = true -> starts_with "/" (f ++ x) = true.
Proof.
  destruct f as [|c f]; [discriminate|].
  change (String c f ++ x) with (String c (f ++ x)).
  unfold starts_with. cbn [strip_prefix].
  destruct (Ascii.eqb "/" c); [reflexivity | discriminate].
Qed.

Lemma path_join_absolute (a f : string) :
  starts_with "/" f = true -> path_join a f = f.
Proof. intros H. unfold path_join. now rewrite H. Qed.

(** X18. An entry whose file name starts with [/]. The name is looked up
    as it is, whatever the search directories are ([pathlib] drops the
    directory, and doubled slashes and [.] components of the name), and
    the path of the encrypted file is joined the same way: the cipher
    writes to the name with [.enc], beside the source and outside the
    temporary directory, and the artifact is registered with that file.
    The name the manifest gets for the entry is the same path. *)
Theorem X18_absolute_name_is_encrypted_beside_its_source :
  forall (P : Platform) (cfg : Config) (s : State) (entry : dict)
         (f content k iv : string) (fs' : FS),
    dict_get "filename" entry = Some (VStr f) ->
    starts_with "/" f = true ->
    artifactory cfg <> [] ->
    registered f s = None ->
    fs s (pure_path f) = Some (File content) ->
    dict_has "compressed" entry && negb (nocompress cfg) = false ->
    dict_has "encrypted" entry = true ->
    noencrypt cfg = false ->
    aeskey s = Some k ->
    entry_iv P cfg s = Some iv ->
    run_argv P (fs s) (openssl_enc (resolve P (fs s) (pure_path f)) (f ++ ".enc") k iv)
    = (Ok 0%Z, fs') ->
    fs' (pure_path f) = Some (File content) ->
    exists entry' s' a,
      process_entry P cfg entry s = (Ok entry', s') /\
      artifacts s' = (artifacts s ++ [a])%list /\
      source_path a = Some (pure_path f) /\
      fullfilename a = Some (f ++ ".enc") /\
      dict_get "filename" entry' = Some (VStr (f ++ ".enc")) /\
      fs s' = fs' /\
      external_calls (trace s')
      = Run (openssl_enc (resolve P (fs s) (pure_path f)) (f ++ ".enc") k iv)
        :: external_calls (trace s).
Proof.
  unfold registered, entry_iv, openssl_enc.
  intros P cfg s entry f content k iv fs' Hf Habs Hdirs Hnew Hfile Hnc He Hne Hk Hiv
    Hrun Hkeep.
  assert (Hsrc : _get_artifact_source_path (fs s) f (artifactory cfg)
                 = Some (pure_path f)).
  { destruct (artifactory cfg) as [|d ds]; [contradiction|].
    cbn [_get_artifact_source_path]. unfold pathlib_join.
    rewrite (path_join_absolute d f Habs).
    unfold fs_exists. now rewrite Hfile. }
  assert (Hout : path_join (temp cfg) (f ++ "." ++ "enc") = f ++ ".enc").
  { apply path_join_absolute. now apply starts_with_slash_app. }
  unfold process_entry. rewrite Hf. run_monad. rewrite Hnew. run_monad.
  unfold Artifact_exists, Artifact_init. simpl. rewrite Hsrc.
  unfold fs_exists. rewrite Hfile. simpl.
  unfold compress_entry. rewrite Hnc. run_monad.
  unfold encrypt_entry. rewrite He, Hne. run_monad. rewrite Hk.
  unfold Artifact_encrypt, run, generate_iv.
  destruct (noivt cfg); [rewrite Hiv | injection Hiv as Hiv];
    destruct (no_key (Some k)); simpl; unfold bind; simpl;
    rewrite ?Hiv, Hout, Hrun; simpl;
    unfold update_entry, Artifact_get_sha256, Artifact_exists, fs_exists;
    run_monad; rewrite Hkeep; simpl;
    rewrite !dict_has_set_other by reflexivity; rewrite He;
    do 3 eexists; (split; [reflexivity|]);
    rewrite ?(dict_get_set_other "filename" "ivt") by reflexivity;
    rewrite ?(dict_get_set_other "filename" "sha256") by reflexivity;
    rewrite ?dict_get_set_same;
    repeat split.
Qed.

Lemma X18_witness :
  exists entry' s' a,
    process_entry (Demo.platform VNone) Demo.config
      [("filename", VStr "/data/a"); ("encrypted", VBool true)]
      (Demo.start (Some "00ff") None (Demo.files [("/data/a", "PLAIN")]))
    = (Ok entry', s') /\
    fullfilename a = Some "/data/a.enc" /\
    In a (artifacts s') /\
    fs s' "/data/a.enc" = Some (File "aes<00ff,iv0,PLAIN>").
Proof.
  destruct (X18_absolute_name_is_encrypted_beside_its_source
              (Demo.platform VNone) Demo.config
              (Demo.start (Some "00ff") None (Demo.files [("/data/a", "PLAIN")]))
              [("filename", VStr "/data/a"); ("encrypted", VBool true)]
              "/data/a" "PLAIN" "00ff" "iv0"
              (snd (Demo.openssl (Demo.files [("/data/a", "PLAIN")])
                      (openssl_enc "/data/a" "/data/a.enc" "00ff" "iv0")))
              eq_refl eq_refl ltac:(discriminate) eq_refl
              ltac:(vm_compute; reflexivity) eq_refl eq_refl
              eq_refl eq_refl eq_refl ltac:(vm_compute; reflexivity)
              ltac:(vm_compute; reflexivity))
    as (entry' & s' & a & Hrun & Hreg & _ & Hfull & _ & Hfs & _).
  exists entry', s', a. split; [exact Hrun|]. split; [exact Hfull|]. split.
  - rewrite Hreg. now left.
  - rewrite Hfs. reflexivity.
Defined.
